(** * A shallow embedding of the video-parser SDK (package [videosdk] and
  package [parsers]) and the properties of its specification.

  Layout of the development:
  - [GoStrings], [Float64], [Strconv]: the parts of the Go language and
    standard library the adapters call ([strings.Contains],
    [strings.Replace], [strings.Fields], float64 arithmetic,
    [strconv.ParseInt], [strconv.ParseFloat]);
  - [gjson], [time], [context], [resty]: the interfaces of the external
    collaborators (the gjson document reader, the clock and [time.Parse],
    contexts, the HTTP client);
  - [videosdk]: the unified schema, the [Parser] interface and the SDK;
  - [Douyin], [Kuaishou], [Xiaohongshu]: the three adapters;
  - [JsonTree], [RefTime], [Samples]: a reference instance of the document
    reader on parsed JSON trees and of [time.Parse], and concrete payloads
    to run the adapters on;
  - the properties, C1 to C10. *)

From Stdlib Require Import ZArith Ascii Lia Bool.
From Stdlib Require Import Floats.SpecFloat.
From stdpp Require Import base option list strings gmap pretty.

Local Open Scope Z_scope.

(** Go strings are byte sequences; so are Rocq's [string]s.  Literals
  below are the UTF-8 bytes of the source's literals. *)

(* ===================================================================== *)
(** * Package [strings] *)
(* ===================================================================== *)

Module GoStrings.

Definition len (s : string) : nat := String.length s.

(** [strings.HasPrefix(s, prefix)]. *)
Fixpoint HasPrefix (s prefix : string) {struct prefix} : bool :=
  match prefix, s with
  | EmptyString, _ => true
  | String _ _, EmptyString => false
  | String a p', String b s' => if Ascii.eqb a b then HasPrefix s' p' else false
  end.

(** [strings.Contains(s, substr)]: [substr] occurs at some byte offset. *)
Fixpoint Contains (s substr : string) : bool :=
  HasPrefix s substr ||
  match s with
  | EmptyString => false
  | String _ s' => Contains s' substr
  end.

(** [strings.Replace(s, old, new, -1)] for a non-empty [old]: every
    non-overlapping occurrence of [old], leftmost first, becomes [new].
    [skip] counts the bytes of a matched occurrence still to be dropped. *)
Fixpoint replace_go (old new : string) (skip : nat) (s : string) : string :=
  match s with
  | EmptyString => EmptyString
  | String c s' =>
      match skip with
      | S k => replace_go old new k s'
      | O =>
          if HasPrefix s old
          then new +:+ replace_go old new (Nat.pred (len old)) s'
          else String c (replace_go old new O s')
      end
  end.

Definition ReplaceAll (s old new : string) : string := replace_go old new O s.

(** [unicode.IsSpace] on the UTF-8 encoding: the number of bytes of the
    white-space rune that starts [s], or [0] when [s] does not start with
    white space.  The runes are U+0009..U+000D, U+0020, U+0085, U+00A0,
    U+1680, U+2000..U+200A, U+2028, U+2029, U+202F, U+205F, U+3000. *)
Definition space_width (s : string) : nat :=
  match s with
  | EmptyString => 0
  | String c s1 =>
      let b := nat_of_ascii c in
      if ((9 <=? b) && (b <=? 13))%nat || (b =? 32)%nat then 1%nat
      else
        match s1 with
        | EmptyString => 0
        | String c1 s2 =>
            let b1 := nat_of_ascii c1 in
            if (b =? 194)%nat && ((b1 =? 133) || (b1 =? 160))%nat then 2%nat
            else
              match s2 with
              | EmptyString => 0
              | String c2 _ =>
                  let b2 := nat_of_ascii c2 in
                  if (b =? 225)%nat && (b1 =? 154)%nat && (b2 =? 128)%nat then 3%nat
                  else if (b =? 226)%nat && (b1 =? 128)%nat &&
                          (((128 <=? b2) && (b2 <=? 138)) || (b2 =? 168) ||
                           (b2 =? 169) || (b2 =? 175))%nat then 3%nat
                  else if (b =? 226)%nat && (b1 =? 129)%nat && (b2 =? 159)%nat then 3%nat
                  else if (b =? 227)%nat && (b1 =? 128)%nat && (b2 =? 128)%nat then 3%nat
                  else 0%nat
              end
        end
  end.

(** The list of fields collected so far and the field being read, kept
    in reverse. *)
Definition flush (cur : string) (acc : list string) : list string :=
  match cur with
  | EmptyString => acc
  | _ => String.rev cur :: acc
  end.

Fixpoint fields_go (skip : nat) (cur : string) (acc : list string) (s : string)
  : list string :=
  match s with
  | EmptyString => rev (flush cur acc)
  | String c s' =>
      match skip with
      | S k => fields_go k cur acc s'
      | O =>
          match space_width s with
          | O => fields_go O (String c cur) acc s'
          | S k => fields_go k EmptyString (flush cur acc) s'
          end
      end
  end.

(** [strings.Fields(s)]: the maximal runs of non-white-space bytes. *)
Definition Fields (s : string) : list string := fields_go O EmptyString [] s.

(** [strings.Split(s, sep)] for the one-byte separator the adapters use. *)
Fixpoint split_go (sep : ascii) (cur : string) (s : string) : list string :=
  match s with
  | EmptyString => [String.rev cur]
  | String c s' =>
      if Ascii.eqb c sep then String.rev cur :: split_go sep EmptyString s'
      else split_go sep (String c cur) s'
  end.

Definition SplitByte (s : string) (sep : ascii) : list string :=
  split_go sep EmptyString s.

(** The slice [s[n:]] (the whole of [s] is dropped when it is shorter). *)
Fixpoint drop (n : nat) (s : string) : string :=
  match n, s with
  | S k, String _ s' => drop k s'
  | _, _ => s
  end.

Definition is_digit (c : ascii) : bool :=
  let b := nat_of_ascii c in ((48 <=? b) && (b <=? 57))%nat.

Definition digit_val (c : ascii) : Z := Z.of_nat (nat_of_ascii c) - 48.

End GoStrings.

(* ===================================================================== *)
(** * float64 *)
(* ===================================================================== *)

(** IEEE 754 binary64 on the standard library's executable specification
  of floating-point arithmetic ([prec = 53], [emax = 1024]). *)
Module Float64.

Definition prec : Z := 53.
Definition emax : Z := 1024.

Definition float64 : Type := spec_float.

Definition mul (x y : float64) : float64 := SFmul prec emax x y.

(** The binary64 nearest to [p / q] (ties to even), signed by [neg];
    [p] and [q] are positive.  The quotient is taken at an exponent that
    leaves more than [prec] bits, and the remainder decides the rounding. *)
Definition of_ratio (neg : bool) (p q : Z) : float64 :=
  if p <=? 0 then S754_zero neg
  else
    let e := Z.log2 p - Z.log2 q - 56 in
    let num := if 0 <=? e then p else p * 2 ^ (- e) in
    let den := if 0 <=? e then q * 2 ^ e else q in
    let m := num / den in
    let r := num mod den in
    let loc := if r =? 0 then loc_Exact else loc_Inexact (2 * r ?= den) in
    binary_round_aux prec emax neg m e loc.

(** An integer as a float64 (exact below 2^53, rounded above). *)
Definition of_Z (n : Z) : float64 := of_ratio (n <? 0) (Z.abs n) 1.

Definition MinInt64 : Z := - 2 ^ 63.
Definition MaxInt64 : Z := 2 ^ 63 - 1.

(** The conversion [int64(f)]: the fraction is discarded (truncation
    towards zero).  When the value does not fit, or is an infinity or a
    NaN, the Go specification leaves the result to the implementation;
    the model follows amd64, where the result is [MinInt64]. *)
Definition to_int64 (f : float64) : Z :=
  match f with
  | S754_zero _ => 0
  | S754_finite s m e =>
      let a := if 0 <=? e then Z.pos m * 2 ^ e else Z.pos m / 2 ^ (- e) in
      let v := if s then - a else a in
      if (MinInt64 <=? v) && (v <=? MaxInt64) then v else MinInt64
  | _ => MinInt64
  end.

End Float64.

(* ===================================================================== *)
(** * Package [strconv] *)
(* ===================================================================== *)

(** [strconv.ParseInt(s, 10, 64)] and [strconv.ParseFloat(s, 64)] of the Go
  standard library.  Both return [None] exactly when Go returns a non-nil
  error (syntax or range), which is all the adapters look at. *)
Module Strconv.
Import GoStrings Float64.

(** strconv's [lower]: [c | ('x' - 'X')]. *)
Definition lower (c : ascii) : ascii := ascii_of_N (N.lor (N_of_ascii c) 32).

Fixpoint parse_digits (acc : Z) (s : string) : option Z :=
  match s with
  | EmptyString => Some acc
  | String c s' =>
      if is_digit c then parse_digits (acc * 10 + digit_val c) s' else None
  end.

(** Base 10: an optional sign and one or more decimal digits; a value
    outside int64 is a range error. *)
Definition ParseInt (s : string) : option Z :=
  match s with
  | EmptyString => None
  | String c s' =>
      let neg := Ascii.eqb c "-" in
      let body := if Ascii.eqb c "+" || neg then s' else s in
      match body with
      | EmptyString => None
      | _ =>
          match parse_digits 0 body with
          | None => None
          | Some un =>
              if neg then (if un <=? 2 ^ 63 then Some (- un) else None)
              else (if un <? 2 ^ 63 then Some un else None)
          end
      end
  end.

(** [commonPrefixLenIgnoreCase(s, prefix)], [prefix] in lower case. *)
Fixpoint commonPrefixLenIgnoreCase (s prefix : string) : nat :=
  match s, prefix with
  | String c s', String p prefix' =>
      let b := nat_of_ascii c in
      let c' := if ((65 <=? b) && (b <=? 90))%nat then ascii_of_nat (b + 32) else c in
      if Ascii.eqb c' p then S (commonPrefixLenIgnoreCase s' prefix') else O
  | _, _ => O
  end.

(** [special]: the value and the number of bytes consumed. *)
Definition special (s : string) : option (float64 * nat) :=
  let inf (sign : bool) (nsign : nat) (t : string) :=
    let n := commonPrefixLenIgnoreCase t "infinity" in
    let n := if ((3 <? n) && (n <? 8))%nat then 3%nat else n in
    if ((n =? 3) || (n =? 8))%nat then Some (S754_infinity sign, (nsign + n)%nat)
    else None in
  match s with
  | EmptyString => None
  | String c s' =>
      if Ascii.eqb c "+" then inf false 1%nat s'
      else if Ascii.eqb c "-" then inf true 1%nat s'
      else if Ascii.eqb c "i" || Ascii.eqb c "I" then inf false 0%nat s
      else if Ascii.eqb c "n" || Ascii.eqb c "N" then
        if (commonPrefixLenIgnoreCase s "nan" =? 3)%nat then Some (S754_nan, 3%nat)
        else None
      else None
  end.

(** [underscoreOK]: an underscore stands only between digits, or between
    a base prefix and a digit. *)
Inductive saw := SawStart | SawDigit | SawUnderscore | SawOther.

Fixpoint underscore_go (hex : bool) (sw : saw) (s : string) : bool :=
  match s with
  | EmptyString => match sw with SawUnderscore => false | _ => true end
  | String c s' =>
      let lc := nat_of_ascii (lower c) in
      if is_digit c || (hex && (97 <=? lc) && (lc <=? 102))%nat
      then underscore_go hex SawDigit s'
      else if Ascii.eqb c "_" then
        match sw with
        | SawDigit => underscore_go hex SawUnderscore s'
        | _ => false
        end
      else
        match sw with
        | SawUnderscore => false
        | _ => underscore_go hex SawOther s'
        end
  end.

Definition underscoreOK (s : string) : bool :=
  let s :=
    match s with
    | String c s' => if Ascii.eqb c "-" || Ascii.eqb c "+" then s' else s
    | _ => s
    end in
  match s with
  | String c0 (String c1 rest) =>
      let l := lower c1 in
      if Ascii.eqb c0 "0" && (Ascii.eqb l "b" || Ascii.eqb l "o" || Ascii.eqb l "x")
      then underscore_go (Ascii.eqb l "x") SawDigit rest
      else underscore_go false SawStart s
  | _ => underscore_go false SawStart s
  end.

(** The state of [readFloat]'s digit loop.  The mantissa keeps every
    digit (Go keeps 19 and a truncation flag, and rounds the same). *)
Record scan := mkScan {
  nd : Z;            (* digits read, leading zeros apart *)
  dp : Z;            (* position of the point *)
  mantissa : Z;
  sawdot : bool;
  sawdigits : bool;
  underscores : bool
}.

Definition scan0 : scan := mkScan 0 0 0 false false false.

Fixpoint read_mantissa (hex : bool) (st : scan) (s : string) : scan * string :=
  match s with
  | EmptyString => (st, s)
  | String c s' =>
      let lc := nat_of_ascii (lower c) in
      if Ascii.eqb c "_" then
        read_mantissa hex
          (mkScan (nd st) (dp st) (mantissa st) (sawdot st) (sawdigits st) true) s'
      else if Ascii.eqb c "." then
        if sawdot st then (st, s)
        else read_mantissa hex
               (mkScan (nd st) (nd st) (mantissa st) true (sawdigits st) (underscores st)) s'
      else if is_digit c then
        if Ascii.eqb c "0" && (nd st =? 0) then
          read_mantissa hex
            (mkScan (nd st) (dp st - 1) (mantissa st) (sawdot st) true (underscores st)) s'
        else
          read_mantissa hex
            (mkScan (nd st + 1) (dp st)
               (mantissa st * (if hex then 16 else 10) + digit_val c)
               (sawdot st) true (underscores st)) s'
      else if (hex && (97 <=? lc) && (lc <=? 102))%nat then
        read_mantissa hex
          (mkScan (nd st + 1) (dp st) (mantissa st * 16 + (Z.of_nat lc - 97 + 10))
             (sawdot st) true (underscores st)) s'
      else (st, s)
  end.

(** The digits of the exponent; the accumulated value stops growing at
    10000 as in the source. *)
Fixpoint read_exp_digits (e : Z) (under : bool) (s : string) : Z * bool * string :=
  match s with
  | EmptyString => (e, under, s)
  | String c s' =>
      if Ascii.eqb c "_" then read_exp_digits e true s'
      else if is_digit c then
        read_exp_digits (if e <? 10000 then e * 10 + digit_val c else e) under s'
      else (e, under, s)
  end.

(** [readFloat] on the whole string, in its phases: the optional sign,
    the base prefix, the mantissa, the optional exponent.  The result is
    the sign, the hexadecimal flag, the mantissa and the exponent of the
    base (10, or 2 for a hexadecimal mantissa). *)
Definition split_sign (s : string) : bool * string :=
match s with
| String c s' =>
    if Ascii.eqb c "+" then (false, s')
    else if Ascii.eqb c "-" then (true, s') else (false, s)
| EmptyString => (false, s)
end.

(** A base prefix needs a byte after it. *)
Definition split_hex (s1 : string) : bool * string :=
match s1 with
| String c0 (String c1 (String c2 rest)) =>
    if Ascii.eqb c0 "0" && Ascii.eqb (lower c1) "x"
    then (true, String c2 rest) else (false, s1)
| _ => (false, s1)
end.

(** The end of [readFloat]: nothing may follow, and the underscores of
    the whole string must be in place. *)
Definition finish (whole : string) (neg hex : bool) (st : scan)
  (dp2 : Z) (under : bool) (rest : string) : option (bool * bool * Z * Z) :=
let ndm := if hex then nd st * 4 else nd st in
match rest with
| EmptyString =>
    if under && negb (underscoreOK whole) then None
    else Some (neg, hex, mantissa st, if mantissa st =? 0 then 0 else dp2 - ndm)
| _ => None
end.

Definition read_exponent (whole : string) (neg hex : bool) (st : scan) (s3 : string)
: option (bool * bool * Z * Z) :=
let dp0 := if sawdot st then dp st else nd st in
let dp1 := if hex then dp0 * 4 else dp0 in
let expChar := (if hex then "p" else "e")%char in
match s3 with
| String c s4 =>
    if Ascii.eqb (lower c) expChar then
      let '(esign, s5) :=
        match s4 with
        | String d s' =>
            if Ascii.eqb d "+" then (1, s')
            else if Ascii.eqb d "-" then (-1, s') else (1, s4)
        | _ => (1, s4)
        end in
      match s5 with
      | String d _ =>
          if is_digit d then
            let '(e, under, rest) := read_exp_digits 0 (underscores st) s5 in
            finish whole neg hex st (dp1 + e * esign) under rest
          else None
      | EmptyString => None
      end
    else if hex then None
    else finish whole neg hex st dp1 (underscores st) s3
| EmptyString =>
    if hex then None else finish whole neg hex st dp1 (underscores st) s3
end.

Definition readFloat (s : string) : option (bool * bool * Z * Z) :=
match s with
| EmptyString => None
| _ =>
    let '(neg, s1) := split_sign s in
    let '(hex, s2) := split_hex s1 in
    let '(st, s3) := read_mantissa hex scan0 s2 in
    if negb (sawdigits st) then None else read_exponent s neg hex st s3
end.

(** [ParseFloat(s, 64)]: the nearest float64, ties to even; a value that
    rounds to an infinity is a range error. *)
Definition ParseFloat (s : string) : option float64 :=
  match special s with
  | Some (f, n) => if (n =? len s)%nat then Some f else None
  | None =>
      match readFloat s with
      | None => None
      | Some (neg, hex, m, e) =>
          let base := if hex then 2 else 10 in
          let f := if 0 <=? e then of_ratio neg (m * base ^ e) 1
                   else of_ratio neg m (base ^ (- e)) in
          match f with
          | S754_infinity _ => None
          | _ => Some f
          end
      end
  end.

End Strconv.

(* ===================================================================== *)
(** * External collaborators *)
(* ===================================================================== *)

(** The adapters read upstream documents through [github.com/tidwall/gjson].
  The library is outside the repository, so the embedding takes it as an
  interface: a type of results and the methods the adapters call.  Every
  theorem about an adapter holds for every implementation of it. *)
Module gjson.

(** [gjson.Type]: [Null], [False], [Number], [String], [True], [JSON]. *)
Inductive Type_ := TNull | TFalse | TNumber | TString | TTrue | TJSON.

Definition Type_eqb (a b : Type_) : bool :=
  match a, b with
  | TNull, TNull | TFalse, TFalse | TNumber, TNumber
  | TString, TString | TTrue, TTrue | TJSON, TJSON => true
  | _, _ => false
  end.

Class Reader (Bytes Result : Type) := {
  ParseBytes : Bytes -> Result;
  Get : Result -> string -> Result;
  Exists : Result -> bool;
  IsArray : Result -> bool;
  TypeOf : Result -> Type_;                  (* the field [Type] *)
  Str : Result -> string;                    (* the method [String()] *)
  Int : Result -> Z;                         (* the method [Int()], an int64 *)
  Array : Result -> list Result;
  (** The (key, value) pairs [ForEach] passes, in order, to an iterator
      that always returns [true]. *)
  ForEach : Result -> list (Result * Result)
}.

End gjson.

(** Package [time]: instants, the clock and [time.Parse]. *)
Module time.

(** An instant: seconds since January 1, year 1, 00:00:00 UTC, and the
    nanoseconds within the second. *)
Record Time := mkTime { sec : Z; nsec : Z }.

(** The zero value [time.Time{}]. *)
Definition zero : Time := mkTime 0 0.

Definition IsZero (t : Time) : bool := (sec t =? 0) && (nsec t =? 0).

(** The Unix epoch, January 1, 1970 UTC. *)
Definition unixEpoch : Time := mkTime 62135596800 0.

Definition Duration : Type := Z.
Definition Second : Duration := 1000000000.

(** What a run of an adapter gets from the outside: the reading of
    [time.Now()] and the function [time.Parse(layout, value)] ([None] for
    a non-nil error). *)
Class Runtime := {
  Now : Time;
  Parse : string -> string -> option Time
}.

End time.

(** Package [context], symbolically: the background context and the
  contexts derived from it by [context.WithTimeout]. *)
Module context.
Inductive Context :=
| Background
| WithTimeout (parent : Context) (timeout : time.Duration).
End context.

(** Go's [error] values are carried as their message. *)
Definition error : Type := string.

(** [github.com/go-resty/resty/v2]: the HTTP client, as the function from a
  request to what comes back. *)
Module resty.

(** The values the adapters put into a request body. *)
Inductive Value :=
| VString (s : string)
| VBool (b : bool)
| VStrings (l : list string).

Record Request := mkRequest {
  Context : option context.Context;         (* [SetContext], when called *)
  Body : list (string * Value);              (* [SetBody] of a map literal *)
  URL : string                               (* the argument of [Post] *)
}.

Record Response (Bytes : Type) := mkResponse {
  StatusCode : Z;
  ResponseBody : Bytes
}.
Arguments mkResponse {Bytes}.
Arguments StatusCode {Bytes}.
Arguments ResponseBody {Bytes}.

(** [Post] returns a response or a transport error. *)
Definition Client (Bytes : Type) : Type := Request -> Response Bytes + error.

End resty.

(** [%d] of [fmt]. *)
Definition fmt_d (n : Z) : string := pretty n.

(* ===================================================================== *)
(** * Package [videosdk]: the unified schema *)
(* ===================================================================== *)

Module videosdk.

Definition Platform : Type := string.
Definition PlatformDouyin : Platform := "douyin".
Definition PlatformKuaishou : Platform := "kuaishou".
Definition PlatformXiaohongshu : Platform := "xiaohongshu".
Definition PlatformBilibili : Platform := "bilibili".
Definition PlatformYoutube : Platform := "youtube".

Definition VideoType : Type := string.
Definition VideoTypeVideo : VideoType := "video".
Definition VideoTypeImage : VideoType := "image".
Definition VideoTypeLive : VideoType := "live".
Definition VideoTypeUnknown : VideoType := "unknown".

Definition MediaType : Type := string.
Definition MediaTypeVideo : MediaType := "video".
Definition MediaTypeImage : MediaType := "image".
Definition MediaTypeGif : MediaType := "gif".

Module DownloadItem.
Record t := mk { URL : string; Type_ : MediaType }.
End DownloadItem.

Module ParseRequest.
Record t := mk {
    Platform : videosdk.Platform;
    VideoID : string;
    URL : string;
    Cookie : string;
    Proxy : string;
    Source : bool
  }.
End ParseRequest.

Module AuthorInfo.
Record t := mk {
    UID : string;
    SecUID : string;
    UniqueID : string;
    Nickname : string;
    Avatar : string;
    Signature : string;
    Age : Z
  }.
End AuthorInfo.

Module VideoStats.
Record t := mk {
    PlayCount : Z;
    LikeCount : Z;
    CommentCount : Z;
    ShareCount : Z;
    CollectCount : Z
  }.
End VideoStats.

Module MusicInfo.
Record t := mk { ID : string; Title : string; Author : string; URL : string }.
Definition zero : t := mk "" "" "" "".
End MusicInfo.

(** The values stored under [Extra], a [map[string]interface{}]. *)
Inductive ExtraValue :=
| XString (s : string)
| XInt (n : Z)
| XStrings (l : list string).

Module VideoInfo.
Record t := mk {
    ID : string;
    Title : string;
    Description : string;
    Type_ : VideoType;
    Platform : videosdk.Platform;
    URL : string;
    CreateTime : time.Time;
    Duration : string;
    Downloads : list DownloadItem.t;
    CoverURL : string;
    Width : Z;
    Height : Z;
    Author : AuthorInfo.t;
    Stats : VideoStats.t;
    Music : MusicInfo.t;
    Tags : list string;
    Extra : gmap string ExtraValue
  }.

  (** The assignment [videoInfo.Platform = p]. *)
Definition set_Platform (v : t) (p : videosdk.Platform) : t :=
    mk (ID v) (Title v) (Description v) (Type_ v) p (URL v) (CreateTime v)
       (Duration v) (Downloads v) (CoverURL v) (Width v) (Height v)
       (Author v) (Stats v) (Music v) (Tags v) (Extra v).
End VideoInfo.

Module ParseResponse.
Record t := mk {
    Success : bool;
    Message : string;
    Data : option VideoInfo.t;               (* a pointer, [nil] when absent *)
    Error : string;
    Time : time.Time
  }.
End ParseResponse.

(** The interface [Parser].  A method that returns [(T, error)] returns
    the pair as it is, either component possibly nil. *)
Module Parser.
Record t := mk {
    GetPlatform : Platform;
    ParseVideo : context.Context -> ParseRequest.t -> option VideoInfo.t * option error;
    ExtractVideoID : string -> string * option error;
    ValidateRequest : ParseRequest.t -> option error
  }.
End Parser.

(** ** The SDK (registry and orchestrator) *)

(** The adapter methods the orchestrator invokes, in order. *)
Inductive Call :=
| CallValidateRequest (p : Parser.t) (req : ParseRequest.t)
| CallParseVideo (p : Parser.t) (ctx : context.Context) (req : ParseRequest.t).

(** How a call of the orchestrator ends: it returns the envelope and the
    error, or it panics (a nil pointer is dereferenced). *)
Inductive Outcome :=
| Return (response : ParseResponse.t) (err : option error)
| Panic.

Module VideoSDK.

  (** The struct [VideoSDK]; its mutex guards [parsers] and has no
      sequential content. *)
Record t := mk {
    parsers : gmap Platform Parser.t;
    timeout : time.Duration;
    userAgent : string
  }.

  (** [RegisterParser]: the SDK afterwards and the error.  [None] is the
      nil interface value. *)
Definition RegisterParser (s : t) (parser : option Parser.t) : t * option error :=
    match parser with
    | None => (s, Some "parser cannot be nil")
    | Some p =>
        let platform := Parser.GetPlatform p in
        if String.eqb platform "" then (s, Some "parser platform cannot be empty")
        else (mk (<[platform := p]> (parsers s)) (timeout s) (userAgent s), None)
    end.

  (** The registry lookup [s.parsers[platform]]. *)
Definition lookup (s : t) (platform : Platform) : option Parser.t :=
    parsers s !! platform.

  (** A failure envelope: [Success] and [Data] keep their zero values. *)
Definition failure (start : time.Time) (msg : string) : ParseResponse.t :=
    ParseResponse.mk false "" None msg start.

  (** [ParseVideo(ctx, req)]; [start] is the reading of [time.Now()] at
      entry, [req = None] the nil pointer. *)
Definition ParseVideo (s : t) (start : time.Time)
      (ctx : context.Context) (req : option ParseRequest.t)
    : Outcome * list Call :=
    match req with
    | None =>
        (Return (failure start "request cannot be nil")
                (Some "request cannot be nil"), [])
    | Some req =>
        if String.eqb (ParseRequest.Platform req) "" then
          (Return (failure start "platform is required")
                  (Some "platform is required"), [])
        else
          match lookup s (ParseRequest.Platform req) with
          | None =>
              let msg :=
                "platform " +:+ ParseRequest.Platform req +:+ " is not supported" in
              (Return (failure start msg) (Some msg), [])
          | Some parser =>
              match Parser.ValidateRequest parser req with
              | Some err =>
                  let msg := "request validation failed: " +:+ err in
                  (Return (failure start msg) (Some msg),
                   [CallValidateRequest parser req])
              | None =>
                  let ctx' := context.WithTimeout ctx (timeout s) in
                  let calls := [CallValidateRequest parser req;
                                CallParseVideo parser ctx' req] in
                  match Parser.ParseVideo parser ctx' req with
                  | (_, Some err) =>
                      let msg := "failed to parse video: " +:+ err in
                      (Return (failure start msg) (Some msg), calls)
                  | (None, None) => (Panic, calls)
                  | (Some videoInfo, None) =>
                      let videoInfo :=
                        VideoInfo.set_Platform videoInfo (ParseRequest.Platform req) in
                      (Return (ParseResponse.mk true "解析成功" (Some videoInfo) "" start)
                              None, calls)
                  end
              end
          end
    end.

  (** [GetSupportedPlatforms]: the keys, in no particular order. *)
Definition GetSupportedPlatforms (s : t) : list Platform :=
    (map_to_list (parsers s)).*1.

Definition SetTimeout (s : t) (d : time.Duration) : t :=
    mk (parsers s) d (userAgent s).
Definition SetUserAgent (s : t) (ua : string) : t :=
    mk (parsers s) (timeout s) ua.
Definition GetTimeout (s : t) : time.Duration := timeout s.
Definition GetUserAgent (s : t) : string := userAgent s.

End VideoSDK.

Definition NewSDK : VideoSDK.t :=
  VideoSDK.mk ∅ (30 * time.Second)
    "Mozilla/5.0 (Windows NT 10.0; Win64; x64) AppleWebKit/537.36 (KHTML, like Gecko) Chrome/139.0.0.0 Safari/537.36".

End videosdk.

(* ===================================================================== *)
(** * Package [parsers]: the Douyin adapter *)
(* ===================================================================== *)

Module Douyin.
Import GoStrings videosdk gjson.

(** The regular expressions of [ExtractVideoID] all have the shape
    [https?LIT(\d+)] with [LIT] a literal; a pattern is kept as its
    literal.  [FindStringSubmatch] returns the leftmost match, and the
    group [\d+] takes every ASCII digit that follows. *)

Fixpoint digits_prefix (s : string) : string :=
  match s with
  | String c s' => if is_digit c then String c (digits_prefix s') else EmptyString
  | EmptyString => EmptyString
  end.

(** A match that starts at the first byte of [s]: the captured digits. *)
Definition match_here (lit s : string) : option string :=
  if HasPrefix s "http" then
    let r := drop 4 s in
    let after (r : string) : option string :=
      if HasPrefix r lit then
        match digits_prefix (drop (len lit) r) with
        | EmptyString => None
        | d => Some d
        end
      else None in
    match (if HasPrefix r "s" then after (drop 1 r) else None) with
    | Some d => Some d
    | None => after r
    end
  else None.

Fixpoint FindStringSubmatch (lit s : string) : option string :=
  match match_here lit s with
  | Some d => Some d
  | None =>
      match s with
      | EmptyString => None
      | String _ s' => FindStringSubmatch lit s'
      end
  end.

(** [https?://www\.douyin\.com/video/(\d+)] and
    [https?://www\.iesdouyin\.com/share/video/(\d+)]. *)
Definition patterns : list string :=
  ["://www.douyin.com/video/"; "://www.iesdouyin.com/share/video/"].

Fixpoint first_pattern (ps : list string) (url : string) : option string :=
  match ps with
  | [] => None
  | p :: ps' =>
      match FindStringSubmatch p url with
      | Some id => Some id
      | None => first_pattern ps' url
      end
  end.

Definition GetPlatform : Platform := PlatformDouyin.

Definition ExtractVideoID (url : string) : string * option error :=
  match first_pattern patterns url with
  | Some id => (id, None)
  | None => ("", Some ("无法从URL中提取视频ID: " +:+ url))
  end.

Definition ValidateRequest (req : ParseRequest.t) : option error :=
  if String.eqb (ParseRequest.VideoID req) "" && String.eqb (ParseRequest.URL req) ""
  then Some "video_id 或 url 至少需要提供一个"
  else if negb (String.eqb (ParseRequest.Platform req) PlatformDouyin)
  then Some ("平台类型不匹配，期望: " +:+ PlatformDouyin +:+ "，实际: "
             +:+ ParseRequest.Platform req)
  else None.

(** What [ParseVideo] does, in order: the requests it posts and the
    calls of [ExtractVideoID]. *)
Inductive Step :=
| StepPost (r : resty.Request)
| StepExtract (url : string).

Section Adapter.
Context {Bytes Result : Type} {reader : Reader Bytes Result} {rt : time.Runtime}.
Variable client : resty.Client Bytes.
Variable baseURL : string.

  (** The request of [resolveShortURL]. *)
Definition shareRequest (shortURL proxy : string) : resty.Request :=
    resty.mkRequest None
      [("text", resty.VString shortURL); ("proxy", resty.VString proxy)]
      (baseURL +:+ "/douyin/share").

Definition resolveShortURL (shortURL proxy : string) : string * option error :=
    match client (shareRequest shortURL proxy) with
    | inr err => ("", Some ("请求分享链接解析失败: " +:+ err))
    | inl resp =>
        if negb (resty.StatusCode resp =? 200) then
          ("", Some ("分享链接解析请求失败，状态码: " +:+ fmt_d (resty.StatusCode resp)))
        else
          let result := ParseBytes (resty.ResponseBody resp) in
          if negb (Exists (Get result "url")) then
            ("", Some "分享链接解析响应中未找到URL")
          else (Str (Get result "url"), None)
    end.

  (** The downloads of an array payload: one entry per element, an image
      when the link contains [douyinpic.com], a video otherwise. *)
Definition downloadOfElement (value : Result) : DownloadItem.t :=
    if Contains (Str value) "douyinpic.com"
    then DownloadItem.mk (Str value) MediaTypeImage
    else DownloadItem.mk (Str value) MediaTypeVideo.

Definition parseVideoData (data : Result) : option VideoInfo.t * option error :=
    let videoType := Str (Get data "type") in
    let type_ :=
      if String.eqb videoType "视频" then VideoTypeVideo
      else if String.eqb videoType "图集" then VideoTypeImage
      else if String.eqb videoType "实况" then VideoTypeLive
      else VideoTypeUnknown in
    let createTime := Str (Get data "create_time") in
    let createTime' :=
      if negb (String.eqb createTime "") then
        match time.Parse "2006-01-02 15:04:05" createTime with
        | Some t => t
        | None => time.zero
        end
      else time.zero in
    let downloads := Get data "downloads" in
    let downloads' :=
      if IsArray downloads then
        map (fun kv => downloadOfElement (snd kv)) (ForEach downloads)
      else if Exists downloads && negb (String.eqb (Str downloads) "") then
        [DownloadItem.mk (Str downloads) MediaTypeVideo]
      else [] in
    let tags := map Str (Array (Get data "text_extra")) in
    let categoryTags := map Str (Array (Get data "tag")) in
    let extra : gmap string ExtraValue :=
      <["mark" := XString (Str (Get data "mark"))]>
      (<["dynamic_cover" := XString (Str (Get data "dynamic_cover"))]>
      (<["uri" := XString (Str (Get data "uri"))]>
      (<["create_timestamp" := XInt (Int (Get data "create_timestamp"))]>
      (<["collection_time" := XString (Str (Get data "collection_time"))]> ∅)))) in
    (Some (VideoInfo.mk
             (Str (Get data "id"))
             (Str (Get data "desc"))
             (Str (Get data "desc"))
             type_
             ""
             (Str (Get data "share_url"))
             createTime'
             (Str (Get data "duration"))
             downloads'
             (Str (Get data "static_cover"))
             (Int (Get data "width"))
             (Int (Get data "height"))
             (AuthorInfo.mk
                (Str (Get data "uid"))
                (Str (Get data "sec_uid"))
                (Str (Get data "unique_id"))
                (Str (Get data "nickname"))
                ""
                (Str (Get data "signature"))
                (Int (Get data "user_age")))
             (VideoStats.mk
                (Int (Get data "play_count"))
                (Int (Get data "digg_count"))
                (Int (Get data "comment_count"))
                (Int (Get data "share_count"))
                (Int (Get data "collect_count")))
             (MusicInfo.mk ""
                (Str (Get data "music_title"))
                (Str (Get data "music_author"))
                (Str (Get data "music_url")))
             (tags ++ categoryTags)
             extra),
     None).

  (** The request of step 2. *)
Definition detailRequest (ctx : context.Context) (videoID : string)
      (req : ParseRequest.t) : resty.Request :=
    resty.mkRequest (Some ctx)
      [("detail_id", resty.VString videoID);
       ("cookie", resty.VString (ParseRequest.Cookie req));
       ("proxy", resty.VString (ParseRequest.Proxy req));
       ("source", resty.VBool (ParseRequest.Source req))]
      (baseURL +:+ "/douyin/detail").

  (** Step 2 of [ParseVideo]: the detail request for [videoID]. *)
Definition fetchDetail (ctx : context.Context) (videoID : string)
      (req : ParseRequest.t) : option VideoInfo.t * option error :=
    match client (detailRequest ctx videoID req) with
    | inr err => (None, Some ("请求抖音API失败: " +:+ err))
    | inl resp =>
        if negb (resty.StatusCode resp =? 200) then
          (None, Some ("抖音API请求失败，状态码: " +:+ fmt_d (resty.StatusCode resp)))
        else
          let result := ParseBytes (resty.ResponseBody resp) in
          if negb (Exists (Get result "data")) then
            (None, Some "响应中未找到data字段")
          else parseVideoData (Get result "data")
    end.

  (** [ParseVideo] with the steps it took. *)
Definition ParseVideo_steps (ctx : context.Context) (req : ParseRequest.t)
    : (option VideoInfo.t * option error) * list Step :=
    let detail (videoID : string) (before : list Step) :=
      (fetchDetail ctx videoID req,
       before ++ [StepPost (detailRequest ctx videoID req)]) in
    if negb (String.eqb (ParseRequest.URL req) "") then
      if Contains (ParseRequest.URL req) "v.douyin.com" then
        let resolve :=
          StepPost (shareRequest (ParseRequest.URL req) (ParseRequest.Proxy req)) in
        match resolveShortURL (ParseRequest.URL req) (ParseRequest.Proxy req) with
        | (_, Some err) => ((None, Some ("解析短链接失败: " +:+ err)), [resolve])
        | (fullURL, None) =>
            match ExtractVideoID fullURL with
            | (_, Some err) =>
                ((None, Some ("从完整URL提取视频ID失败: " +:+ err)),
                 [resolve; StepExtract fullURL])
            | (videoID, None) => detail videoID [resolve; StepExtract fullURL]
            end
        end
      else
        match ExtractVideoID (ParseRequest.URL req) with
        | (_, Some err) =>
            ((None, Some ("从URL提取视频ID失败: " +:+ err)),
             [StepExtract (ParseRequest.URL req)])
        | (videoID, None) => detail videoID [StepExtract (ParseRequest.URL req)]
        end
    else if negb (String.eqb (ParseRequest.VideoID req) "") then
      detail (ParseRequest.VideoID req) []
    else ((None, Some "必须提供URL或VideoID"), []).

Definition ParseVideo (ctx : context.Context) (req : ParseRequest.t)
    : option VideoInfo.t * option error :=
    fst (ParseVideo_steps ctx req).

  (** [NewDouyinParser(baseURL)], as a value of the interface. *)
Definition NewDouyinParser : Parser.t :=
    Parser.mk GetPlatform ParseVideo ExtractVideoID ValidateRequest.

End Adapter.
End Douyin.

(* ===================================================================== *)
(** * Package [parsers]: the Kuaishou adapter *)
(* ===================================================================== *)

Module Kuaishou.
Import GoStrings videosdk gjson.

Definition GetPlatform : Platform := PlatformKuaishou.

(** The adapter forwards the URL; nothing is extracted. *)
Definition ExtractVideoID (url : string) : string * option error := (url, None).

Definition ValidateRequest (req : ParseRequest.t) : option error :=
  if String.eqb (ParseRequest.VideoID req) "" && String.eqb (ParseRequest.URL req) ""
  then Some "video_id 或 url 至少需要提供一个"
  else if negb (String.eqb (ParseRequest.Platform req) PlatformKuaishou)
  then Some ("平台类型不匹配，期望: " +:+ PlatformKuaishou +:+ "，实际: "
             +:+ ParseRequest.Platform req)
  else None.

(** The loop over [downloadURLs]: an entry for every URL that is not the
    empty string. *)
Fixpoint collectDownloads (mediaType : MediaType) (urls : list string)
  : list DownloadItem.t :=
  match urls with
  | [] => []
  | url :: rest =>
      if negb (String.eqb url "")
      then DownloadItem.mk url mediaType :: collectDownloads mediaType rest
      else collectDownloads mediaType rest
  end.

(** The play count read from a view-count string. *)
Definition playCountOfString (viewStr : string) : Z :=
  if Contains viewStr "万" then
    let numStr := ReplaceAll viewStr "万" "" in
    match Strconv.ParseFloat numStr with
    | Some num => Float64.to_int64 (Float64.mul num (Float64.of_Z 10000))
    | None => 0
    end
  else
    match Strconv.ParseInt viewStr with
    | Some num => num
    | None => 0
    end.

(** The list [downloadURLs] built from the field [download]. *)
Definition splitDownloadURL (downloadURL : string) : list string :=
  if negb (String.eqb downloadURL "") then
    if Contains downloadURL " " then Fields downloadURL else [downloadURL]
  else [].

Section Adapter.
Context {Bytes Result : Type} {reader : Reader Bytes Result} {rt : time.Runtime}.
Variable client : resty.Client Bytes.
Variable baseURL : string.

  (** The play count, from the field [viewCount]. *)
Definition playCountOf (viewCount : Result) : Z :=
    if Exists viewCount then
      if Type_eqb (TypeOf viewCount) TNumber then Int viewCount
      else playCountOfString (Str viewCount)
    else 0.

Definition parseVideoData (data : Bytes) : option VideoInfo.t * option error :=
    let result := ParseBytes data in
    let message := Str (Get result "message") in
    if negb (Contains message "成功") then
      (None, Some ("API返回错误: " +:+ message))
    else
      let videoData := Get result "data" in
      if negb (Exists videoData) then (None, Some "响应中缺少data字段")
      else
        let videoID := Str (Get videoData "detailID") in
        let caption := Str (Get videoData "caption") in
        let photoType := Str (Get videoData "photoType") in
        let duration := Str (Get videoData "duration") in
        let coverURL := Str (Get videoData "coverUrl") in
        let downloadURL := Str (Get videoData "download") in
        let timestamp := Str (Get videoData "timestamp") in
        let realLikeCount := Int (Get videoData "realLikeCount") in
        let viewCount := Get videoData "viewCount" in
        let shareCount := Int (Get videoData "shareCount") in
        let commentCount := Int (Get videoData "commentCount") in
        let authorID := Str (Get videoData "authorID") in
        let authorName := Str (Get videoData "name") in
        let createTime :=
          if negb (String.eqb timestamp "") then
            match time.Parse "2006-01-02_15:04:05" timestamp with
            | Some parsedTime => parsedTime
            | None => time.Now
            end
          else time.Now in
        let videoType :=
          if String.eqb photoType "视频" then VideoTypeVideo
          else if String.eqb photoType "图片" then VideoTypeImage
          else VideoTypeUnknown in
        let playCount := playCountOf viewCount in
        let downloadURLs := splitDownloadURL downloadURL in
        let mediaType :=
          if String.eqb videoType VideoTypeImage then MediaTypeImage
          else MediaTypeVideo in
        let downloads := collectDownloads mediaType downloadURLs in
        (Some (VideoInfo.mk
                 videoID
                 caption
                 caption
                 videoType
                 PlatformKuaishou
                 ("https://www.kuaishou.com/short-video/" +:+ videoID)
                 createTime
                 duration
                 downloads
                 coverURL
                 0
                 0
                 (AuthorInfo.mk authorID "" "" authorName "" "" 0)
                 (VideoStats.mk playCount realLikeCount commentCount shareCount 0)
                 MusicInfo.zero
                 []
                 (<["photoType" := XString photoType]>
                  (<["downloadURLs" := XStrings downloadURLs]> ∅))),
         None).

Definition detailRequest (ctx : context.Context) (targetURL : string)
      (req : ParseRequest.t) : resty.Request :=
    resty.mkRequest (Some ctx)
      [("text", resty.VString targetURL);
       ("cookie", resty.VString (ParseRequest.Cookie req));
       ("proxy", resty.VString (ParseRequest.Proxy req))]
      (baseURL +:+ "/detail/").

Definition ParseVideo (ctx : context.Context) (req : ParseRequest.t)
    : option VideoInfo.t * option error :=
    match ValidateRequest req with
    | Some err => (None, Some err)
    | None =>
        let fetch (targetURL : string) :=
          match client (detailRequest ctx targetURL req) with
          | inr err => (None, Some ("请求快手API失败: " +:+ err))
          | inl resp =>
              if negb (resty.StatusCode resp =? 200) then
                (None, Some ("快手API请求失败，状态码: " +:+ fmt_d (resty.StatusCode resp)))
              else
                match parseVideoData (resty.ResponseBody resp) with
                | (_, Some err) => (None, Some ("解析响应失败: " +:+ err))
                | (videoInfo, None) => (videoInfo, None)
                end
          end in
        if negb (String.eqb (ParseRequest.URL req) "") then fetch (ParseRequest.URL req)
        else if negb (String.eqb (ParseRequest.VideoID req) "")
        then fetch (ParseRequest.VideoID req)
        else (None, Some "必须提供URL或VideoID")
    end.

Definition NewKuaishouParser : Parser.t :=
    Parser.mk GetPlatform ParseVideo ExtractVideoID ValidateRequest.

End Adapter.
End Kuaishou.

(* ===================================================================== *)
(** * Package [parsers]: the Xiaohongshu adapter *)
(* ===================================================================== *)

Module Xiaohongshu.
Import GoStrings videosdk gjson.

Definition GetPlatform : Platform := PlatformXiaohongshu.

Definition ExtractVideoID (url : string) : string * option error :=
  if String.eqb url "" then ("", Some "URL不能为空") else (url, None).

Definition ValidateRequest (req : ParseRequest.t) : option error :=
  if String.eqb (ParseRequest.VideoID req) "" && String.eqb (ParseRequest.URL req) ""
  then Some "video_id 或 url 至少需要提供一个"
  else if negb (String.eqb (ParseRequest.Platform req) PlatformXiaohongshu)
  then Some ("平台类型不匹配，期望: " +:+ PlatformXiaohongshu +:+ "，实际: "
             +:+ ParseRequest.Platform req)
  else None.

Definition timeFormats : list string :=
  ["2006-01-02 15:04:05"; "2006-01-02T15:04:05Z"; "2006-01-02"].

(** The loops over [downloadURLs] and over [gifURLs]. *)
Fixpoint collectDownloads (mediaType : MediaType) (urls : list string)
  : list DownloadItem.t :=
  match urls with
  | [] => []
  | url :: rest =>
      if negb (String.eqb url "")
      then DownloadItem.mk url mediaType :: collectDownloads mediaType rest
      else collectDownloads mediaType rest
  end.

Section Adapter.
Context {Bytes Result : Type} {reader : Reader Bytes Result} {rt : time.Runtime}.
Variable client : resty.Client Bytes.
Variable baseURL : string.

  (** A field that is one string or an array of strings. *)
Definition stringsOf (field : Result) : list string :=
    if IsArray field then map (fun kv => Str (snd kv)) (ForEach field)
    else if Exists field then [Str field]
    else [].

  (** The loop over the layouts: the first one that parses [publishTime]
      sets [createTime] and ends the loop. *)
Fixpoint tryFormats (formats : list string) (publishTime : string)
      (createTime : time.Time) : time.Time :=
    match formats with
    | [] => createTime
    | format :: rest =>
        match time.Parse format publishTime with
        | Some parsedTime => parsedTime
        | None => tryFormats rest publishTime createTime
        end
    end.

Definition parseVideoData (data : Bytes) : option VideoInfo.t * option error :=
    let result := ParseBytes data in
    let message := Str (Get result "message") in
    if negb (Contains message "成功") then
      (None, Some ("API返回错误: " +:+ message))
    else
      let videoData := Get result "data" in
      if negb (Exists videoData) then (None, Some "响应中缺少data字段")
      else
        let videoID := Str (Get videoData "作品ID") in
        let title := Str (Get videoData "作品标题") in
        let description := Str (Get videoData "作品描述") in
        let workType := Str (Get videoData "作品类型") in
        let workLink := Str (Get videoData "作品链接") in
        let publishTime := Str (Get videoData "发布时间") in
        let updateTime := Str (Get videoData "最后更新时间") in
        let timestamp := Str (Get videoData "时间戳") in
        let collectCount := Int (Get videoData "收藏数量") in
        let commentCount := Int (Get videoData "评论数量") in
        let shareCount := Int (Get videoData "分享数量") in
        let likeCount := Int (Get videoData "点赞数量") in
        let authorNickname := Str (Get videoData "作者昵称") in
        let authorID := Str (Get videoData "作者ID") in
        let authorLink := Str (Get videoData "作者链接") in
        let downloadURLs := stringsOf (Get videoData "下载地址") in
        let gifURLs := stringsOf (Get videoData "动图地址") in
        let tagsData := Get videoData "作品标签" in
        let tags :=
          if IsArray tagsData then map (fun kv => Str (snd kv)) (ForEach tagsData)
          else if Exists tagsData then
            let tagsStr := Str tagsData in
            if negb (String.eqb tagsStr "") then SplitByte tagsStr "," else []
          else [] in
        let createTime :=
          if negb (String.eqb publishTime "") then
            let createTime := tryFormats timeFormats publishTime time.zero in
            if time.IsZero createTime then time.Now else createTime
          else time.Now in
        let videoType :=
          if String.eqb workType "视频" then VideoTypeVideo
          else if String.eqb workType "图文" then VideoTypeImage
          else VideoTypeVideo in
        let coverURL :=
          match downloadURLs with
          | url :: _ => url
          | [] => match gifURLs with url :: _ => url | [] => "" end
          end in
        let mediaType :=
          if String.eqb videoType VideoTypeImage then MediaTypeImage
          else MediaTypeVideo in
        let downloads :=
          collectDownloads mediaType downloadURLs
          ++ collectDownloads MediaTypeImage gifURLs in
        (Some (VideoInfo.mk
                 videoID
                 title
                 description
                 videoType
                 PlatformXiaohongshu
                 workLink
                 createTime
                 "00:00:00"
                 downloads
                 coverURL
                 0
                 0
                 (AuthorInfo.mk authorID "" "" authorNickname "" "" 0)
                 (VideoStats.mk 0 likeCount commentCount shareCount collectCount)
                 MusicInfo.zero
                 tags
                 (<["authorLink" := XString authorLink]>
                  (<["gifURLs" := XStrings gifURLs]>
                  (<["downloadURLs" := XStrings downloadURLs]>
                  (<["workType" := XString workType]>
                  (<["timestamp" := XString timestamp]>
                  (<["updateTime" := XString updateTime]>
                  (<["publishTime" := XString publishTime]> ∅)))))))),
         None).

Definition detailRequest (ctx : context.Context) (url : string)
      (req : ParseRequest.t) : resty.Request :=
    resty.mkRequest (Some ctx)
      [("url", resty.VString url);
       ("download", resty.VBool false);
       ("index", resty.VStrings []);
       ("cookie", resty.VString (ParseRequest.Cookie req));
       ("proxy", resty.VString (ParseRequest.Proxy req));
       ("skip", resty.VBool false)]
      (baseURL +:+ "/xhs/detail").

Definition ParseVideo (ctx : context.Context) (req : ParseRequest.t)
    : option VideoInfo.t * option error :=
    match ValidateRequest req with
    | Some err => (None, Some err)
    | None =>
        let url :=
          if String.eqb (ParseRequest.URL req) "" then ParseRequest.VideoID req
          else ParseRequest.URL req in
        if String.eqb url "" then (None, Some "URL不能为空")
        else
          match client (detailRequest ctx url req) with
          | inr err => (None, Some ("请求失败: " +:+ err))
          | inl resp =>
              if negb (resty.StatusCode resp =? 200) then
                (None, Some ("API请求失败，状态码: " +:+ fmt_d (resty.StatusCode resp)))
              else
                match parseVideoData (resty.ResponseBody resp) with
                | (_, Some err) => (None, Some ("解析响应失败: " +:+ err))
                | (videoInfo, None) => (videoInfo, None)
                end
          end
    end.

Definition NewXiaohongshuParser : Parser.t :=
    Parser.mk GetPlatform ParseVideo ExtractVideoID ValidateRequest.

End Adapter.
End Xiaohongshu.

(* ===================================================================== *)
(** * Reference instances of the collaborators *)
(* ===================================================================== *)

(** A document reader on parsed JSON trees.  It follows gjson on the paths
  the adapters use (a single object key), on documents whose numbers
  are integer literals.  It serves to run the adapters on concrete
  payloads; the theorems on the adapters do not depend on it. *)
Module JsonTree.
Import GoStrings.

(** A JSON value; a number is an integer literal. *)
#[warnings="-register-all"]
Inductive value :=
| JNull
| JBool (b : bool)
| JNumber (n : Z)
| JString (s : string)
| JArray (elems : list value)
| JObject (fields : list (string * value)).

(** A [gjson.Result]: [None] when the path does not exist. *)
Definition Result : Type := option value.

(** The text of a value in the document ([Raw]), in compact form. *)
Definition quote : string := String (ascii_of_nat 34) EmptyString.

Definition hexDigit (n : nat) : ascii :=
  ascii_of_nat (if (n <? 10)%nat then 48 + n else 87 + n).

Fixpoint escape (s : string) : string :=
  match s with
  | EmptyString => EmptyString
  | String c s' =>
      let b := nat_of_ascii c in
      if (b =? 34)%nat || (b =? 92)%nat then String "\" (String c (escape s'))
      else if (b <? 32)%nat then
        "\u00" +:+ String (hexDigit (b / 16)) (String (hexDigit (b mod 16)) (escape s'))
      else String c (escape s')
  end.

Definition renderString (s : string) : string := quote +:+ escape s +:+ quote.

Definition commaSep (l : list string) : string :=
  match l with
  | [] => ""
  | x :: rest => fold_left (fun acc y => acc +:+ "," +:+ y) rest x
  end.

Fixpoint render (v : value) : string :=
  match v with
  | JNull => "null"
  | JBool true => "true"
  | JBool false => "false"
  | JNumber n => pretty n
  | JString s => renderString s
  | JArray elems => "[" +:+ commaSep (map render elems) +:+ "]"
  | JObject fields =>
      "{" +:+ commaSep (map (fun kv => renderString (fst kv) +:+ ":" +:+ render (snd kv))
                            fields) +:+ "}"
  end.

Fixpoint assoc (key : string) (fields : list (string * value)) : option value :=
  match fields with
  | [] => None
  | (k, v) :: rest => if String.eqb k key then Some v else assoc key rest
  end.

Definition Get (r : Result) (path : string) : Result :=
  match r with
  | Some (JObject fields) => assoc path fields
  | _ => None
  end.

Definition Exists (r : Result) : bool :=
  match r with Some _ => true | None => false end.

Definition IsArray (r : Result) : bool :=
  match r with Some (JArray _) => true | _ => false end.

Definition TypeOf (r : Result) : gjson.Type_ :=
  match r with
  | None | Some JNull => gjson.TNull
  | Some (JBool true) => gjson.TTrue
  | Some (JBool false) => gjson.TFalse
  | Some (JNumber _) => gjson.TNumber
  | Some (JString _) => gjson.TString
  | Some (JArray _) | Some (JObject _) => gjson.TJSON
  end.

Definition Str (r : Result) : string :=
  match r with
  | None | Some JNull => ""
  | Some (JBool true) => "true"
  | Some (JBool false) => "false"
  | Some (JNumber n) => pretty n
  | Some (JString s) => s
  | Some v => render v
  end.

(** int64 arithmetic wraps around. *)
Definition wrap64 (n : Z) : Z := (n + 2 ^ 63) mod 2 ^ 64 - 2 ^ 63.

(** gjson's own [parseInt]: an optional minus sign and digits, [0] for
    anything else. *)
Definition parseInt (s : string) : Z :=
  let '(neg, body) :=
    match s with
    | String c s' => if Ascii.eqb c "-" then (true, s') else (false, s)
    | EmptyString => (false, s)
    end in
  match body with
  | EmptyString => 0
  | _ =>
      match Strconv.parse_digits 0 body with
      | Some n => wrap64 (if neg then - n else n)
      | None => 0
      end
  end.

Definition Int (r : Result) : Z :=
  match r with
  | Some (JBool true) => 1
  | Some (JString s) => parseInt s
  | Some (JNumber n) => wrap64 n
  | _ => 0
  end.

Definition Array (r : Result) : list Result :=
  match r with
  | None | Some JNull => []
  | Some (JArray elems) => map Some elems
  | Some v => [Some v]
  end.

Fixpoint indexed (i : Z) (elems : list value) : list (Result * Result) :=
  match elems with
  | [] => []
  | v :: rest => (Some (JNumber i), Some v) :: indexed (i + 1) rest
  end.

Definition ForEach (r : Result) : list (Result * Result) :=
  match r with
  | None => []
  | Some (JArray elems) => indexed 0 elems
  | Some (JObject fields) =>
      map (fun kv => (Some (JString (fst kv)), Some (snd kv))) fields
  | Some v => [(None, Some v)]
  end.

(** The bytes of a document are identified with its tree. *)
#[export] Instance reader : gjson.Reader value Result := {|
  gjson.ParseBytes := Some;
  gjson.Get := Get;
  gjson.Exists := Exists;
  gjson.IsArray := IsArray;
  gjson.TypeOf := TypeOf;
  gjson.Str := Str;
  gjson.Int := Int;
  gjson.Array := Array;
  gjson.ForEach := ForEach
|}.

End JsonTree.

(** A reference [time.Parse] for layouts made of the chunks [2006], [01],
    [02], [15], [04], [05] and literal bytes, as every layout of the
    adapters is; the result is in UTC. *)
Module RefTime.
Import GoStrings.

Inductive chunk := Year | Month | Day | Hour | Minute | Seconds | Lit (c : ascii).

Fixpoint chunks (fuel : nat) (layout : string) : list chunk :=
    match fuel with
    | O => []
    | S fuel' =>
        match layout with
        | EmptyString => []
        | String c rest =>
            if HasPrefix layout "2006" then Year :: chunks fuel' (drop 4 layout)
            else if HasPrefix layout "01" then Month :: chunks fuel' (drop 2 layout)
            else if HasPrefix layout "02" then Day :: chunks fuel' (drop 2 layout)
            else if HasPrefix layout "15" then Hour :: chunks fuel' (drop 2 layout)
            else if HasPrefix layout "04" then Minute :: chunks fuel' (drop 2 layout)
            else if HasPrefix layout "05" then Seconds :: chunks fuel' (drop 2 layout)
            else Lit c :: chunks fuel' rest
        end
    end.

  (** [getnum(s, fixed)]: one or two digits, two when [fixed]. *)
Definition getnum (s : string) (fixed : bool) : option (Z * string) :=
    match s with
    | String a rest =>
        if is_digit a then
          match rest with
          | String b rest' =>
              if is_digit b then Some (digit_val a * 10 + digit_val b, rest')
              else if fixed then None else Some (digit_val a, rest)
          | EmptyString => if fixed then None else Some (digit_val a, rest)
          end
        else None
    | EmptyString => None
    end.

Fixpoint cutspace (s : string) : string :=
    match s with
    | String c s' => if Ascii.eqb c " " then cutspace s' else s
    | EmptyString => s
    end.

Fixpoint take_digits (n : nat) (acc : Z) (s : string) : Z * nat * string :=
    match s with
    | String c s' =>
        if is_digit c then
          match n with
          | O => take_digits O acc s'
          | S k =>
              take_digits k (acc * 10 + digit_val c) s'
          end
        else (acc, n, s)
    | EmptyString => (acc, n, s)
    end.

  (** The fields read so far. *)
Record fields := mkFields {
    year : Z; month : Z; day : Z; hour : Z; minute : Z; second : Z; nanos : Z
  }.

Fixpoint parse_chunks (cs : list chunk) (f : fields) (value : string)
    : option (fields * string) :=
    match cs with
    | [] => Some (f, value)
    | Lit c :: cs' =>
        if Ascii.eqb c " " then
          match value with
          | String v _ =>
              if Ascii.eqb v " " then parse_chunks cs' f (cutspace value) else None
          | EmptyString => parse_chunks cs' f value
          end
        else
          match value with
          | String v value' => if Ascii.eqb v c then parse_chunks cs' f value' else None
          | EmptyString => None
          end
    | Year :: cs' =>
        match value with
        | String a (String b (String c (String d value'))) =>
            if is_digit a && is_digit b && is_digit c && is_digit d then
              let y := ((digit_val a * 10 + digit_val b) * 10 + digit_val c) * 10 + digit_val d in
              parse_chunks cs'
                (mkFields y (month f) (day f) (hour f) (minute f) (second f) (nanos f)) value'
            else None
        | _ => None
        end
    | Month :: cs' =>
        match getnum value true with
        | Some (m, value') =>
            if (m <=? 0) || (12 <? m) then None
            else parse_chunks cs'
                   (mkFields (year f) m (day f) (hour f) (minute f) (second f) (nanos f)) value'
        | None => None
        end
    | Day :: cs' =>
        match getnum value true with
        | Some (d, value') =>
            parse_chunks cs'
              (mkFields (year f) (month f) d (hour f) (minute f) (second f) (nanos f)) value'
        | None => None
        end
    | Hour :: cs' =>
        match getnum value false with
        | Some (h, value') =>
            if 24 <=? h then None
            else parse_chunks cs'
                   (mkFields (year f) (month f) (day f) h (minute f) (second f) (nanos f)) value'
        | None => None
        end
    | Minute :: cs' =>
        match getnum value true with
        | Some (m, value') =>
            if 60 <=? m then None
            else parse_chunks cs'
                   (mkFields (year f) (month f) (day f) (hour f) m (second f) (nanos f)) value'
        | None => None
        end
    | Seconds :: cs' =>
        match getnum value true with
        | Some (s, value') =>
            if 60 <=? s then None
            else
              let f' := mkFields (year f) (month f) (day f) (hour f) (minute f) s (nanos f) in
              match value' with
              | String p (String d rest) =>
                  if (Ascii.eqb p "." || Ascii.eqb p ",") && is_digit d then
                    (* a fractional second the layout does not mention *)
                    let '(ns, missing, rest') := take_digits 9 0 (String d rest) in
                    parse_chunks cs'
                      (mkFields (year f) (month f) (day f) (hour f) (minute f) s
                                (ns * 10 ^ Z.of_nat missing)) rest'
                  else parse_chunks cs' f' value'
              | _ => parse_chunks cs' f' value'
              end
        | None => None
        end
    end.

Definition isLeap (y : Z) : bool :=
    (y mod 4 =? 0) && (negb (y mod 100 =? 0) || (y mod 400 =? 0)).

Definition daysIn (m y : Z) : Z :=
    if m =? 2 then (if isLeap y then 29 else 28)
    else if (m =? 4) || (m =? 6) || (m =? 9) || (m =? 11) then 30 else 31.

  (** Days from January 1 of year 1 to the first day of month [m] of year [y]. *)
Definition daysBefore (y m : Z) : Z :=
    let y' := y - 1 in
    let beforeMonth :=
      nth (Z.to_nat (m - 1)) [0; 31; 59; 90; 120; 151; 181; 212; 243; 273; 304; 334] 0 in
    365 * y' + y' / 4 - y' / 100 + y' / 400 + beforeMonth
    + (if isLeap y && (2 <? m) then 1 else 0).

  (** [time.Date(...)] in UTC. *)
Definition Date (f : fields) : time.Time :=
    time.mkTime
      ((daysBefore (year f) (month f) + (day f - 1)) * 86400
       + hour f * 3600 + minute f * 60 + second f)
      (nanos f).

Definition Parse (layout value : string) : option time.Time :=
    match parse_chunks (chunks (len layout) layout) (mkFields 1 1 1 0 0 0 0) value with
    | Some (f, EmptyString) =>
        if (day f <? 1) || (daysIn (month f) (year f) <? day f) then None
        else Some (Date f)
    | _ => None
    end.

  (** A run whose clock reads [now]. *)
Definition runtime (now : time.Time) : time.Runtime :=
    {| time.Now := now; time.Parse := Parse |}.

End RefTime.

(* ===================================================================== *)
(** * Concrete payloads and runs *)
(* ===================================================================== *)

Module Samples.
Import JsonTree videosdk.

(** A clock reading: 2026-10-30 12:00:00 UTC. *)
Definition now0 : time.Time := time.mkTime 63928958400 0.

Definition rt0 : time.Runtime := RefTime.runtime now0.

(** An upstream that answers the share-link call with [share] and every
    other call with [detail]. *)
Definition upstream (share detail : resty.Response value + error) : resty.Client value :=
  fun r => if GoStrings.Contains (resty.URL r) "/douyin/share" then share else detail.

Definition ok (body : value) : resty.Response value + error :=
  inl (resty.mkResponse 200 body).

Definition baseURL : string := "http://localhost:5555".

(** ** Douyin *)

(** A detail payload ([data] of the response) whose [create_time] is [ts]
    and whose [downloads] is [dl]. *)
Definition douyinData (ts : string) (dl : value) : value :=
  JObject [("id", JString "7535398881601817894");
           ("desc", JString "sunset");
           ("type", JString "视频");
           ("create_time", JString ts);
           ("downloads", dl);
           ("play_count", JNumber 1200)].

Definition douyinNoTime : value :=
  douyinData "" (JString "https://v.example.com/a.mp4").

Definition douyinBadTime : value :=
  douyinData "yesterday" (JString "https://v.example.com/a.mp4").

(** An image set one of whose links is the empty string. *)
Definition douyinEmptyLink : value :=
  douyinData "2025-08-01 12:30:00"
    (JArray [JString "https://p3.douyinpic.com/1.jpeg"; JString ""]).

Definition shortURL : string := "https://v.douyin.com/iAbCdEf/".
Definition canonicalURL : string := "https://www.douyin.com/video/7535398881601817894".
(** A canonical page URL that mentions the short-link domain in its query. *)
Definition mixedURL : string :=
  "https://www.douyin.com/video/7535398881601817894?from=v.douyin.com".

Definition douyinClient : resty.Client value :=
  upstream (ok (JObject [("url", JString canonicalURL)]))
           (ok (JObject [("data", douyinNoTime)])).

Definition douyinRequest (url videoID : string) : ParseRequest.t :=
  ParseRequest.mk PlatformDouyin videoID url "" "" false.

(** ** Kuaishou *)

Definition kuaishouDoc (viewCount : value) (download timestamp : string) : value :=
  JObject [("message", JString "获取成功");
           ("data", JObject [("detailID", JString "3xabc");
                             ("caption", JString "harbour");
                             ("photoType", JString "视频");
                             ("timestamp", JString timestamp);
                             ("viewCount", viewCount);
                             ("download", JString download)])].

Definition kuaishouClient (doc : value) : resty.Client value := upstream (ok doc) (ok doc).

Definition kuaishouRequest : ParseRequest.t :=
  ParseRequest.mk PlatformKuaishou "" "https://www.kuaishou.com/short-video/3xabc" "" "" false.

(** ** Xiaohongshu *)

Definition xhsDoc (publishTime : string) (download : value) : value :=
  JObject [("message", JString "获取小红书作品数据成功");
           ("data", JObject [("作品ID", JString "66aa");
                             ("作品标题", JString "title");
                             ("作品描述", JString "text");
                             ("作品类型", JString "视频");
                             ("发布时间", JString publishTime);
                             ("下载地址", download)])].

(** ** The SDK *)

Definition kuaishouParser (doc : value) : Parser.t :=
  Kuaishou.NewKuaishouParser (rt := rt0) (kuaishouClient doc) baseURL.

Definition douyinParserAt (base : string) : Parser.t :=
  Douyin.NewDouyinParser (rt := rt0) douyinClient base.

Definition douyinParser : Parser.t := douyinParserAt baseURL.


Definition sdkWith (ps : list Parser.t) : VideoSDK.t :=
  fold_left (fun s p => fst (VideoSDK.RegisterParser s (Some p))) ps NewSDK.

(** ** Runs of the normalizations on these payloads *)

Definition douyinRun (data : value) : option VideoInfo.t * option error :=
  Douyin.parseVideoData (rt := rt0) (Some data).

Definition kuaishouRun (doc : value) : option VideoInfo.t * option error :=
  Kuaishou.parseVideoData (rt := rt0) doc.

Definition xhsRun (doc : value) : option VideoInfo.t * option error :=
  Xiaohongshu.parseVideoData (rt := rt0) doc.

(** The run of the Douyin adapter on a request, with its steps. *)
Definition douyinSteps (req : ParseRequest.t)
  : (option VideoInfo.t * option error) * list Douyin.Step :=
  Douyin.ParseVideo_steps (rt := rt0) douyinClient baseURL context.Background req.


End Samples.

(** ** Predicates of the specification *)

(** Modelled on the words of the specification: a URL is blank when it is
    empty or made of white space only, that is, when it has no field. *)
Definition blank (url : string) : bool :=
  match GoStrings.Fields url with
  | [] => true
  | _ => false
  end.

(** Modelled on the words of the specification: the kind of a work-type
    label under a label table and a default for the labels not in it. *)
Fixpoint kindOf (table : list (string * videosdk.VideoType))
    (default : videosdk.VideoType) (label : string) : videosdk.VideoType :=
  match table with
  | [] => default
  | (l, k) :: rest => if String.eqb label l then k else kindOf rest default label
  end.

Definition douyinLabels : list (string * videosdk.VideoType) :=
  [("视频", videosdk.VideoTypeVideo); ("图集", videosdk.VideoTypeImage);
   ("实况", videosdk.VideoTypeLive)].
Definition kuaishouLabels : list (string * videosdk.VideoType) :=
  [("视频", videosdk.VideoTypeVideo); ("图片", videosdk.VideoTypeImage)].
Definition xiaohongshuLabels : list (string * videosdk.VideoType) :=
  [("视频", videosdk.VideoTypeVideo); ("图文", videosdk.VideoTypeImage)].

(** A string without any ASCII decimal digit. *)
Fixpoint noDigit (s : string) : bool :=
  match s with
  | EmptyString => true
  | String c s' => negb (GoStrings.is_digit c) && noDigit s'
  end.

(** A string of ASCII decimal digits. *)
Fixpoint allDigits (s : string) : bool :=
  match s with
  | EmptyString => true
  | String c s' => GoStrings.is_digit c && allDigits s'
  end.

(* ===================================================================== *)
(** * Properties *)
(* ===================================================================== *)

Import GoStrings videosdk.

(** ** Strings *)

Lemma eqb_empty_false (s : string) : String.eqb s "" = false <-> s <> "".
Proof. apply String.eqb_neq. Qed.




Lemma Xiaohongshu_collectDownloads_urls (mediaType : MediaType) (urls : list string) :
  map DownloadItem.URL (Xiaohongshu.collectDownloads mediaType urls)
  = filter (fun url => url <> "") urls.
Proof.
  induction urls as [|url rest IH]; cbn [Xiaohongshu.collectDownloads]; [reflexivity|].
  rewrite filter_cons.
  destruct (String.eqb_spec url "") as [->|Hne]; cbn [negb].
  - rewrite decide_False by (intros Hc; apply Hc; reflexivity). exact IH.
  - rewrite decide_True by exact Hne. cbn [map]. f_equal. exact IH.
Qed.


(** ** The registry *)

(** C8. After [RegisterParser(p)] succeeds for a parser [p] with a
    non-empty platform key [k], the lookup of [k] returns [p] itself;
    registering a second parser [p2] under [k] succeeds too and replaces
    the binding, so the lookup then returns [p2] (last write wins). *)
Theorem C8_register_then_lookup (s : VideoSDK.t) (p p2 : Parser.t) :
  Parser.GetPlatform p <> "" ->
  Parser.GetPlatform p2 = Parser.GetPlatform p ->
  let k := Parser.GetPlatform p in
  let r1 := VideoSDK.RegisterParser s (Some p) in
  let r2 := VideoSDK.RegisterParser (fst r1) (Some p2) in
  snd r1 = None /\ VideoSDK.lookup (fst r1) k = Some p /\
  snd r2 = None /\ VideoSDK.lookup (fst r2) k = Some p2.
Proof.
  intros Hk Hsame k r1 r2. subst k r1 r2.
  unfold VideoSDK.RegisterParser, VideoSDK.lookup. rewrite Hsame.
  apply eqb_empty_false in Hk. rewrite Hk. cbn [fst snd VideoSDK.parsers].
  repeat split; apply lookup_insert_eq.
Qed.

(** A binding under another key is left as it was. *)
Lemma RegisterParser_other (s : VideoSDK.t) (p : Parser.t) (k : Platform) :
  k <> Parser.GetPlatform p ->
  VideoSDK.lookup (fst (VideoSDK.RegisterParser s (Some p))) k = VideoSDK.lookup s k.
Proof.
  intros Hne. unfold VideoSDK.RegisterParser, VideoSDK.lookup.
  destruct (String.eqb (Parser.GetPlatform p) ""); cbn [fst VideoSDK.parsers]; [reflexivity|].
  apply lookup_insert_ne. congruence.
Qed.

(** The two refusals of [RegisterParser] leave the registry as it was. *)
Lemma RegisterParser_refused (s : VideoSDK.t) (parser : option Parser.t) :
  snd (VideoSDK.RegisterParser s parser) <> None <->
  (parser = None \/ exists p, parser = Some p /\ Parser.GetPlatform p = "").
Proof.
  unfold VideoSDK.RegisterParser. destruct parser as [p|]; cbn [snd].
  - destruct (String.eqb_spec (Parser.GetPlatform p) "") as [He|Hne]; cbn [snd]; split.
    + intros _. right. exists p. split; [reflexivity | exact He].
    + discriminate.
    + intros Hc. exfalso. apply Hc. reflexivity.
    + intros [Hc | (q & Hq & He)]; [discriminate|]. injection Hq as ->. contradiction.
  - split; [intros _; left; reflexivity | discriminate].
Qed.

Lemma C8_register_then_lookup_witness :
  Parser.GetPlatform Samples.douyinParser <> "" /\
  Parser.GetPlatform (Samples.douyinParserAt "http://localhost:6666")
  = Parser.GetPlatform Samples.douyinParser /\
  VideoSDK.lookup
    (fst (VideoSDK.RegisterParser
            (fst (VideoSDK.RegisterParser NewSDK (Some Samples.douyinParser)))
            (Some (Samples.douyinParserAt "http://localhost:6666"))))
    PlatformDouyin
  = Some (Samples.douyinParserAt "http://localhost:6666").
Proof.
  split; [discriminate|]. split; [reflexivity|].
  apply (C8_register_then_lookup NewSDK Samples.douyinParser
           (Samples.douyinParserAt "http://localhost:6666")).
  - discriminate.
  - reflexivity.
Defined.

(** ** Identifier extraction of the direct-URL adapters *)

(** C10. The Kuaishou pass-through returns its input with a nil error for
    every input, the empty string included; the Xiaohongshu pass-through
    returns an error exactly for the empty string and otherwise returns
    its input with a nil error. *)
Theorem C10_extract_pass_through (url : string) :
  Kuaishou.ExtractVideoID url = (url, None) /\
  (snd (Xiaohongshu.ExtractVideoID url) <> None <-> url = "") /\
  (url <> "" -> Xiaohongshu.ExtractVideoID url = (url, None)) /\
  Kuaishou.ExtractVideoID "" = ("", None) /\
  Xiaohongshu.ExtractVideoID "" = ("", Some "URL不能为空").
Proof.
  unfold Kuaishou.ExtractVideoID, Xiaohongshu.ExtractVideoID.
  split; [reflexivity|].
  destruct (String.eqb_spec url "") as [->|Hne]; cbn [snd].
  - split; [split; [reflexivity | discriminate]|].
    split; [intros Hc; contradiction|]. split; reflexivity.
  - split; [split; [intros Hc; exfalso; apply Hc; reflexivity | contradiction]|].
    split; [reflexivity|]. split; reflexivity.
Qed.

(** ** What the adapters return *)

Section AdapterFacts.
Context {Bytes Result : Type} {reader : gjson.Reader Bytes Result} {rt : time.Runtime}.
Import gjson.

(** The Douyin normalization never fails; the fields of the media it returns. *)
Lemma Douyin_parseVideoData_fields (data : Result) :
  exists info,
    Douyin.parseVideoData data = (Some info, None) /\
    VideoInfo.Title info = Str (Get data "desc") /\
    VideoInfo.Description info = Str (Get data "desc") /\
    VideoInfo.Type_ info = kindOf douyinLabels VideoTypeUnknown (Str (Get data "type")) /\
    VideoInfo.CreateTime info =
      (if String.eqb (Str (Get data "create_time")) "" then time.zero
       else match time.Parse "2006-01-02 15:04:05" (Str (Get data "create_time")) with
            | Some t => t
            | None => time.zero
            end) /\
    VideoInfo.Downloads info =
      (if IsArray (Get data "downloads")
       then map (fun kv => Douyin.downloadOfElement (snd kv)) (ForEach (Get data "downloads"))
       else if Exists (Get data "downloads")
               && negb (String.eqb (Str (Get data "downloads")) "")
            then [DownloadItem.mk (Str (Get data "downloads")) MediaTypeVideo]
            else []).
Proof.
  unfold Douyin.parseVideoData. eexists. split; [reflexivity|].
  cbn [VideoInfo.Title VideoInfo.Description VideoInfo.Type_ VideoInfo.CreateTime
       VideoInfo.Downloads kindOf douyinLabels].
  repeat split.
  destruct (String.eqb (Str (Get data "create_time")) ""); reflexivity.
Qed.

(** The two ways the Kuaishou normalization ends: with an error, when the
    message lacks the success marker or [data] is absent, and otherwise
    with the media whose fields are as follows. *)
Lemma Kuaishou_parseVideoData_fields (data : Bytes) :
  let result := ParseBytes data in
  let videoData := Get result "data" in
  let photoType := Str (Get videoData "photoType") in
  let timestamp := Str (Get videoData "timestamp") in
  (Contains (Str (Get result "message")) "成功" = true /\ Exists videoData = true /\
   exists info,
     Kuaishou.parseVideoData data = (Some info, None) /\
     VideoInfo.Title info = Str (Get videoData "caption") /\
     VideoInfo.Description info = Str (Get videoData "caption") /\
     VideoInfo.Type_ info = kindOf kuaishouLabels VideoTypeUnknown photoType /\
     VideoInfo.CreateTime info =
       (if String.eqb timestamp "" then time.Now
        else match time.Parse "2006-01-02_15:04:05" timestamp with
             | Some t => t
             | None => time.Now
             end) /\
     VideoInfo.Downloads info =
       Kuaishou.collectDownloads
         (if String.eqb (kindOf kuaishouLabels VideoTypeUnknown photoType) VideoTypeImage
          then MediaTypeImage else MediaTypeVideo)
         (Kuaishou.splitDownloadURL (Str (Get videoData "download"))) /\
     VideoStats.PlayCount (VideoInfo.Stats info)
     = Kuaishou.playCountOf (Get videoData "viewCount"))
  \/
  ((Contains (Str (Get result "message")) "成功" = false \/ Exists videoData = false) /\
   exists err, Kuaishou.parseVideoData data = (None, Some err)).
Proof.
  intros result videoData photoType timestamp. unfold Kuaishou.parseVideoData.
  fold result. fold videoData. fold photoType. fold timestamp.
  destruct (Contains (Str (Get result "message")) "成功") eqn:Hmsg; cbn [negb].
  2:{ right. split; [left; reflexivity|]. eexists. reflexivity. }
  destruct (Exists videoData) eqn:Hdata; cbn [negb].
  2:{ right. split; [right; reflexivity|]. eexists. reflexivity. }
  left. split; [reflexivity|]. split; [reflexivity|]. eexists. split; [reflexivity|].
  cbn [VideoInfo.Title VideoInfo.Description VideoInfo.Type_ VideoInfo.CreateTime
       VideoInfo.Downloads VideoInfo.Stats VideoStats.PlayCount kindOf kuaishouLabels].
  repeat split.
  destruct (String.eqb timestamp ""); reflexivity.
Qed.

(** The same for the Xiaohongshu normalization. *)
Lemma Xiaohongshu_parseVideoData_fields (data : Bytes) :
  let result := ParseBytes data in
  let videoData := Get result "data" in
  let workType := Str (Get videoData "作品类型") in
  let publishTime := Str (Get videoData "发布时间") in
  (Contains (Str (Get result "message")) "成功" = true /\ Exists videoData = true /\
   exists info,
     Xiaohongshu.parseVideoData data = (Some info, None) /\
     VideoInfo.Title info = Str (Get videoData "作品标题") /\
     VideoInfo.Description info = Str (Get videoData "作品描述") /\
     VideoInfo.Type_ info = kindOf xiaohongshuLabels VideoTypeVideo workType /\
     VideoInfo.CreateTime info =
       (if String.eqb publishTime "" then time.Now
        else
          let t := Xiaohongshu.tryFormats Xiaohongshu.timeFormats publishTime time.zero in
          if time.IsZero t then time.Now else t) /\
     VideoInfo.Downloads info =
       Xiaohongshu.collectDownloads
         (if String.eqb (kindOf xiaohongshuLabels VideoTypeVideo workType) VideoTypeImage
          then MediaTypeImage else MediaTypeVideo)
         (Xiaohongshu.stringsOf (Get videoData "下载地址"))
       ++ Xiaohongshu.collectDownloads MediaTypeImage
            (Xiaohongshu.stringsOf (Get videoData "动图地址")))
  \/
  ((Contains (Str (Get result "message")) "成功" = false \/ Exists videoData = false) /\
   exists err, Xiaohongshu.parseVideoData data = (None, Some err)).
Proof.
  intros result videoData workType publishTime. unfold Xiaohongshu.parseVideoData.
  fold result. fold videoData. fold workType. fold publishTime.
  destruct (Contains (Str (Get result "message")) "成功") eqn:Hmsg; cbn [negb].
  2:{ right. split; [left; reflexivity|]. eexists. reflexivity. }
  destruct (Exists videoData) eqn:Hdata; cbn [negb].
  2:{ right. split; [right; reflexivity|]. eexists. reflexivity. }
  left. split; [reflexivity|]. split; [reflexivity|]. eexists. split; [reflexivity|].
  cbn [VideoInfo.Title VideoInfo.Description VideoInfo.Type_ VideoInfo.CreateTime
       VideoInfo.Downloads kindOf xiaohongshuLabels].
  repeat split.
  destruct (String.eqb publishTime ""); reflexivity.
Qed.

(** When a normalization returns a media, it ended the second way. *)
Lemma Kuaishou_parseVideoData_some (data : Bytes) (info : VideoInfo.t) :
  fst (Kuaishou.parseVideoData data) = Some info ->
  Kuaishou.parseVideoData data = (Some info, None).
Proof.
  intros H. destruct (Kuaishou_parseVideoData_fields data) as [(_ & _ & i & Hi & _)|(_ & e & He)].
  - rewrite Hi in H |- *. cbn [fst] in H. congruence.
  - rewrite He in H. discriminate H.
Qed.

Lemma Xiaohongshu_parseVideoData_some (data : Bytes) (info : VideoInfo.t) :
  fst (Xiaohongshu.parseVideoData data) = Some info ->
  Xiaohongshu.parseVideoData data = (Some info, None).
Proof.
  intros H.
  destruct (Xiaohongshu_parseVideoData_fields data) as [(_ & _ & i & Hi & _)|(_ & e & He)].
  - rewrite Hi in H |- *. cbn [fst] in H. congruence.
  - rewrite He in H. discriminate H.
Qed.

End AdapterFacts.

(** ** Every media an adapter returns comes out of its normalization *)

Section AdapterRuns.
Context {Bytes Result : Type} {reader : gjson.Reader Bytes Result} {rt : time.Runtime}.
Variable client : resty.Client Bytes.
Variable baseURL : string.
Import gjson.

Lemma Douyin_fetchDetail_some ctx videoID req info :
  fst (Douyin.fetchDetail client baseURL ctx videoID req) = Some info ->
  exists data : Result, Douyin.parseVideoData data = (Some info, None).
Proof.
  unfold Douyin.fetchDetail.
  destruct (client _) as [resp|err]; [|discriminate].
  destruct (negb (resty.StatusCode resp =? 200)); [discriminate|].
  destruct (negb (Exists _)); [discriminate|].
  intros H. eexists.
  destruct (Douyin_parseVideoData_fields (Get (ParseBytes (resty.ResponseBody resp)) "data"))
    as (i & Hi & _).
  rewrite Hi in H |- *. cbn [fst] in H. rewrite H. reflexivity.
Qed.

Lemma Douyin_ParseVideo_some ctx req info :
  fst (Douyin.ParseVideo client baseURL ctx req) = Some info ->
  exists data : Result, Douyin.parseVideoData data = (Some info, None).
Proof.
  unfold Douyin.ParseVideo, Douyin.ParseVideo_steps.
  destruct (negb (String.eqb (ParseRequest.URL req) "")).
  - destruct (Contains _ _).
    + destruct (Douyin.resolveShortURL _ _ _ _) as [fullURL [e|]]; [discriminate|].
      destruct (Douyin.ExtractVideoID fullURL) as [videoID [e|]]; [discriminate|].
      cbn [fst]. apply Douyin_fetchDetail_some.
    + destruct (Douyin.ExtractVideoID _) as [videoID [e|]]; [discriminate|].
      cbn [fst]. apply Douyin_fetchDetail_some.
  - destruct (negb (String.eqb (ParseRequest.VideoID req) "")); [|discriminate].
    cbn [fst]. apply Douyin_fetchDetail_some.
Qed.

Lemma Kuaishou_ParseVideo_some ctx req info :
  fst (Kuaishou.ParseVideo client baseURL ctx req) = Some info ->
  exists data : Bytes, Kuaishou.parseVideoData data = (Some info, None).
Proof.
  unfold Kuaishou.ParseVideo.
  destruct (Kuaishou.ValidateRequest req); [discriminate|].
  assert (Hfetch : forall targetURL,
    fst match client (Kuaishou.detailRequest baseURL ctx targetURL req) with
        | inr err => (None, Some ("请求快手API失败: " +:+ err))
        | inl resp =>
            if negb (resty.StatusCode resp =? 200) then
              (None, Some ("快手API请求失败，状态码: " +:+ fmt_d (resty.StatusCode resp)))
            else
              match Kuaishou.parseVideoData (resty.ResponseBody resp) with
              | (_, Some err) => (None, Some ("解析响应失败: " +:+ err))
              | (videoInfo, None) => (videoInfo, None)
              end
        end = Some info ->
    exists data : Bytes, Kuaishou.parseVideoData data = (Some info, None)).
  { intros targetURL. destruct (client _) as [resp|err]; [|discriminate].
    destruct (negb (resty.StatusCode resp =? 200)); [discriminate|].
    destruct (Kuaishou.parseVideoData (resty.ResponseBody resp)) as [v [e|]] eqn:Hp;
      [discriminate|].
    cbn [fst]. intros ->. exists (resty.ResponseBody resp). exact Hp. }
  destruct (negb (String.eqb (ParseRequest.URL req) "")); [apply Hfetch|].
  destruct (negb (String.eqb (ParseRequest.VideoID req) "")); [apply Hfetch|discriminate].
Qed.

Lemma Xiaohongshu_ParseVideo_some ctx req info :
  fst (Xiaohongshu.ParseVideo client baseURL ctx req) = Some info ->
  exists data : Bytes, Xiaohongshu.parseVideoData data = (Some info, None).
Proof.
  unfold Xiaohongshu.ParseVideo.
  destruct (Xiaohongshu.ValidateRequest req); [discriminate|].
  destruct (String.eqb _ ""); [discriminate|].
  destruct (client _) as [resp|err]; [|discriminate].
  destruct (negb (resty.StatusCode resp =? 200)); [discriminate|].
  destruct (Xiaohongshu.parseVideoData (resty.ResponseBody resp)) as [v [e|]] eqn:Hp;
    [discriminate|].
  cbn [fst]. intros ->. exists (resty.ResponseBody resp). exact Hp.
Qed.

(** The adapters of the repository never return a nil media with a nil
    error. *)
Lemma Douyin_ParseVideo_contract ctx req :
  Douyin.ParseVideo client baseURL ctx req <> (None, None).
Proof.
  unfold Douyin.ParseVideo, Douyin.ParseVideo_steps.
  assert (Hfetch : forall videoID,
            Douyin.fetchDetail client baseURL ctx videoID req <> (None, None)).
  { intros videoID. unfold Douyin.fetchDetail.
    destruct (client _) as [resp|err]; [|discriminate].
    destruct (negb (resty.StatusCode resp =? 200)); [discriminate|].
    destruct (negb (Exists _)); [discriminate|].
    destruct (Douyin_parseVideoData_fields (Get (ParseBytes (resty.ResponseBody resp)) "data"))
      as (i & Hi & _).
    rewrite Hi. discriminate. }
  destruct (negb (String.eqb (ParseRequest.URL req) "")).
  - destruct (Contains _ _).
    + destruct (Douyin.resolveShortURL _ _ _ _) as [fullURL [e|]]; [discriminate|].
      destruct (Douyin.ExtractVideoID fullURL) as [videoID [e|]]; [discriminate|].
      cbn [fst]. apply Hfetch.
    + destruct (Douyin.ExtractVideoID _) as [videoID [e|]]; [discriminate|].
      cbn [fst]. apply Hfetch.
  - destruct (negb (String.eqb (ParseRequest.VideoID req) "")); [|discriminate].
    cbn [fst]. apply Hfetch.
Qed.

Lemma Kuaishou_ParseVideo_contract ctx req :
  Kuaishou.ParseVideo client baseURL ctx req <> (None, None).
Proof.
  unfold Kuaishou.ParseVideo.
  destruct (Kuaishou.ValidateRequest req); [discriminate|].
  assert (Hfetch : forall targetURL,
    match client (Kuaishou.detailRequest baseURL ctx targetURL req) with
    | inr err => (None, Some ("请求快手API失败: " +:+ err))
    | inl resp =>
        if negb (resty.StatusCode resp =? 200) then
          (None, Some ("快手API请求失败，状态码: " +:+ fmt_d (resty.StatusCode resp)))
        else
          match Kuaishou.parseVideoData (resty.ResponseBody resp) with
          | (_, Some err) => (None, Some ("解析响应失败: " +:+ err))
          | (videoInfo, None) => (videoInfo, None)
          end
    end <> (@None VideoInfo.t, @None error)).
  { intros targetURL. destruct (client _) as [resp|err]; [|discriminate].
    destruct (negb (resty.StatusCode resp =? 200)); [discriminate|].
    destruct (Kuaishou_parseVideoData_fields (resty.ResponseBody resp))
      as [(_ & _ & i & Hi & _)|(_ & e & He)].
    - rewrite Hi. discriminate.
    - rewrite He. discriminate. }
  destruct (negb (String.eqb (ParseRequest.URL req) "")); [apply Hfetch|].
  destruct (negb (String.eqb (ParseRequest.VideoID req) "")); [apply Hfetch|discriminate].
Qed.

Lemma Xiaohongshu_ParseVideo_contract ctx req :
  Xiaohongshu.ParseVideo client baseURL ctx req <> (None, None).
Proof.
  unfold Xiaohongshu.ParseVideo.
  destruct (Xiaohongshu.ValidateRequest req); [discriminate|].
  destruct (String.eqb _ ""); [discriminate|].
  destruct (client _) as [resp|err]; [|discriminate].
  destruct (negb (resty.StatusCode resp =? 200)); [discriminate|].
  destruct (Xiaohongshu_parseVideoData_fields (resty.ResponseBody resp))
    as [(_ & _ & i & Hi & _)|(_ & e & He)].
  - rewrite Hi. discriminate.
  - rewrite He. discriminate.
Qed.

End AdapterRuns.

(** ** Normalization: title, kind, creation time, downloads *)

Section Normalization.
Context {Bytes Result : Type} {reader : gjson.Reader Bytes Result} {rt : time.Runtime}.
Import gjson.

(** C9. In every media the Douyin adapter or the Kuaishou adapter
    returns, from the normalization or from [ParseVideo], the title
    equals the description: both are the one upstream caption field. *)
Theorem C9_title_equals_description (client : resty.Client Bytes) (baseURL : string)
    (ctx : context.Context) (req : ParseRequest.t) (info : VideoInfo.t) :
  ((exists data : Result, fst (Douyin.parseVideoData data) = Some info) \/
   (exists data : Bytes, fst (Kuaishou.parseVideoData data) = Some info) \/
   fst (Douyin.ParseVideo client baseURL ctx req) = Some info \/
   fst (Kuaishou.ParseVideo client baseURL ctx req) = Some info) ->
  VideoInfo.Title info = VideoInfo.Description info.
Proof.
  assert (HD : forall data : Result, fst (Douyin.parseVideoData data) = Some info ->
                 VideoInfo.Title info = VideoInfo.Description info).
  { intros data H. destruct (Douyin_parseVideoData_fields data) as (i & Hi & Ht & Hd & _).
    rewrite Hi in H. cbn [fst] in H. injection H as <-. congruence. }
  assert (HK : forall data : Bytes, fst (Kuaishou.parseVideoData data) = Some info ->
                 VideoInfo.Title info = VideoInfo.Description info).
  { intros data H.
    destruct (Kuaishou_parseVideoData_fields data)
      as [(_ & _ & i & Hi & Ht & Hd & _)|(_ & e & He)].
    - rewrite Hi in H. cbn [fst] in H. injection H as <-. congruence.
    - rewrite He in H. discriminate H. }
  intros [[data H]|[[data H]|[H|H]]].
  - exact (HD data H).
  - exact (HK data H).
  - destruct (Douyin_ParseVideo_some client baseURL ctx req info H) as [data Hd].
    apply (HD data). rewrite Hd. reflexivity.
  - destruct (Kuaishou_ParseVideo_some client baseURL ctx req info H) as [data Hd].
    apply (HK data). rewrite Hd. reflexivity.
Qed.


(** *** Creation time *)

(** The Douyin normalization has no fallback: with an empty or unparsable
    [create_time] the field keeps the zero value of [time.Time]. *)
Lemma Douyin_createTime_no_fallback (data : Result) (info : VideoInfo.t) :
  fst (Douyin.parseVideoData data) = Some info ->
  Str (Get data "create_time") = "" \/
  time.Parse "2006-01-02 15:04:05" (Str (Get data "create_time")) = None ->
  VideoInfo.CreateTime info = time.zero.
Proof.
  intros H Hts. destruct (Douyin_parseVideoData_fields data) as (i & Hi & _ & _ & _ & Hct & _).
  rewrite Hi in H. cbn [fst] in H. injection H as <-. rewrite Hct.
  destruct Hts as [-> | ->]; [reflexivity|].
  destruct (String.eqb _ ""); reflexivity.
Qed.

(** The Kuaishou normalization falls back to the reading of the clock. *)
Lemma Kuaishou_createTime_fallback (data : Bytes) (info : VideoInfo.t) :
  fst (Kuaishou.parseVideoData data) = Some info ->
  let timestamp := Str (Get (Get (ParseBytes data) "data") "timestamp") in
  timestamp = "" \/ time.Parse "2006-01-02_15:04:05" timestamp = None ->
  VideoInfo.CreateTime info = time.Now.
Proof.
  intros H timestamp Hts.
  destruct (Kuaishou_parseVideoData_fields data)
    as [(_ & _ & i & Hi & _ & _ & _ & Hct & _)|(_ & e & He)].
  - rewrite Hi in H. cbn [fst] in H. injection H as <-. rewrite Hct. fold timestamp.
    destruct Hts as [-> | ->]; [reflexivity|].
    destruct (String.eqb _ ""); reflexivity.
  - rewrite He in H. discriminate H.
Qed.

Lemma tryFormats_none (formats : list string) (publishTime : string) (t : time.Time) :
  (forall format, In format formats -> time.Parse format publishTime = None) ->
  Xiaohongshu.tryFormats formats publishTime t = t.
Proof.
  induction formats as [|f rest IH]; cbn [Xiaohongshu.tryFormats]; [reflexivity|].
  intros Hall. rewrite (Hall f) by (left; reflexivity).
  apply IH. intros g Hg. apply Hall. right. exact Hg.
Qed.

(** So does the Xiaohongshu normalization. *)
Lemma Xiaohongshu_createTime_fallback (data : Bytes) (info : VideoInfo.t) :
  fst (Xiaohongshu.parseVideoData data) = Some info ->
  let publishTime := Str (Get (Get (ParseBytes data) "data") "发布时间") in
  publishTime = "" \/
  (forall format, In format Xiaohongshu.timeFormats ->
                  time.Parse format publishTime = None) ->
  VideoInfo.CreateTime info = time.Now.
Proof.
  intros H publishTime Hts.
  destruct (Xiaohongshu_parseVideoData_fields data)
    as [(_ & _ & i & Hi & _ & _ & _ & Hct & _)|(_ & e & He)].
  - rewrite Hi in H. cbn [fst] in H. injection H as <-. rewrite Hct. fold publishTime.
    destruct Hts as [-> | Hall]; [reflexivity|].
    destruct (String.eqb _ ""); [reflexivity|].
    cbv zeta. rewrite (tryFormats_none _ _ _ Hall). reflexivity.
  - rewrite He in H. discriminate H.
Qed.

(** A creation time that fell back to the clock is neither the zero value
    nor the epoch, as long as the clock itself reads neither. *)
Lemma fallback_not_zero (t : time.Time) :
  t = time.Now -> time.Now <> time.zero -> time.Now <> time.unixEpoch ->
  t <> time.zero /\ t <> time.unixEpoch.
Proof. intros -> Hz He. split; assumption. Qed.

(** *** Downloads *)


End Normalization.

(** ** The normalizations on concrete payloads *)

Lemma C9_title_equals_description_witness :
  exists info,
    fst (Samples.kuaishouRun (Samples.kuaishouDoc (JsonTree.JString "203.7万") "a.mp4" ""))
    = Some info /\
    VideoInfo.Title info = "harbour" /\
    VideoInfo.Title info = VideoInfo.Description info.
Proof.
  eexists. split; [vm_compute; reflexivity|]. split; [reflexivity|].
  apply (C9_title_equals_description (reader := JsonTree.reader) (rt := Samples.rt0)
           (Samples.kuaishouClient JsonTree.JNull) Samples.baseURL
           context.Background Samples.kuaishouRequest).
  right. left.
  exists (Samples.kuaishouDoc (JsonTree.JString "203.7万") "a.mp4" "").
  vm_compute. reflexivity.
Defined.



(** The Kuaishou normalization keeps a download that is a single tab. *)
Lemma Kuaishou_tab_url_kept :
  VideoInfo.Downloads
    <$> fst (Samples.kuaishouRun
               (Samples.kuaishouDoc JsonTree.JNull (String (ascii_of_nat 9) "") ""))
  = Some [DownloadItem.mk (String (ascii_of_nat 9) "") MediaTypeVideo]
  /\ blank (String (ascii_of_nat 9) "") = true.
Proof. split; vm_compute; reflexivity. Qed.

(** The Douyin normalization copies every element of a [downloads] array,
    an empty link included, whereas its branch for a single link and the
    two other adapters test the link against the empty string. *)
Lemma Douyin_empty_link_kept :
  VideoInfo.Downloads <$> fst (Samples.douyinRun Samples.douyinEmptyLink)
  = Some [DownloadItem.mk "https://p3.douyinpic.com/1.jpeg" MediaTypeImage;
          DownloadItem.mk "" MediaTypeVideo].
Proof. vm_compute. reflexivity. Qed.


(** C1.  With an empty [create_time], and with one that no layout parses,
    the media of the Douyin normalization has the zero value of
    [time.Time] as its creation time, whatever the clock reads: the
    adapter has no fallback to the time of the normalization, which the
    Kuaishou and Xiaohongshu adapters have. *)
Theorem C1_douyin_createTime_stays_zero (now : time.Time) :
  VideoInfo.CreateTime
    <$> fst (Douyin.parseVideoData (reader := JsonTree.reader) (rt := RefTime.runtime now)
               (Some Samples.douyinNoTime)) = Some time.zero /\
  VideoInfo.CreateTime
    <$> fst (Douyin.parseVideoData (reader := JsonTree.reader) (rt := RefTime.runtime now)
               (Some Samples.douyinBadTime)) = Some time.zero /\
  time.IsZero time.zero = true /\
  RefTime.Parse "2006-01-02 15:04:05" "yesterday" = None.
Proof. repeat split. Qed.

(** On the same timestamps the two other adapters return the reading of
    the clock. *)
Lemma Kuaishou_createTime_is_now :
  VideoInfo.CreateTime <$> fst (Samples.kuaishouRun (Samples.kuaishouDoc JsonTree.JNull "" ""))
  = Some Samples.now0 /\
  VideoInfo.CreateTime
    <$> fst (Samples.kuaishouRun (Samples.kuaishouDoc JsonTree.JNull "" "yesterday"))
  = Some Samples.now0.
Proof. split; vm_compute; reflexivity. Qed.

Lemma Xiaohongshu_createTime_is_now :
  VideoInfo.CreateTime <$> fst (Samples.xhsRun (Samples.xhsDoc "" JsonTree.JNull))
  = Some Samples.now0 /\
  VideoInfo.CreateTime <$> fst (Samples.xhsRun (Samples.xhsDoc "yesterday" JsonTree.JNull))
  = Some Samples.now0 /\
  VideoInfo.CreateTime <$> fst (Samples.xhsRun (Samples.xhsDoc "2025-08-01" JsonTree.JNull))
  = Some (time.mkTime 63889603200 0).
Proof. repeat split; vm_compute; reflexivity. Qed.

(** ** The Kuaishou play count *)

Lemma Type_eqb_eq (a b : gjson.Type_) : gjson.Type_eqb a b = true <-> a = b.
Proof. destruct a, b; cbn; split; intros H; try reflexivity; discriminate H. Qed.










(** The strings of the specification, and some more. *)
Lemma playCountOfString_examples :
  Kuaishou.playCountOfString "203.7万" = 2037000 /\
  Kuaishou.playCountOfString "15000" = 15000 /\
  Kuaishou.playCountOfString "" = 0 /\
  Kuaishou.playCountOfString "1.5万" = 15000 /\
  Kuaishou.playCountOfString "万" = 0 /\
  Kuaishou.playCountOfString "N/A" = 0 /\
  Kuaishou.playCountOfString "12abc" = 0 /\
  Kuaishou.playCountOfString "1.2.3万" = 0 /\
  Kuaishou.playCountOfString "203.7" = 0 /\
  Strconv.ParseFloat "203.7" = Some (S754_finite false 7167056594495078 (-45)).
Proof. repeat split; vm_compute; reflexivity. Qed.

(** The float64 nearest to 203.7: it is within half a unit in the last
    place of 2037/10, and its product with 10000 rounds to 2037000. *)
Lemma float_203_7 :
  Strconv.ParseFloat "203.7" = Some (S754_finite false 7167056594495078 (-45)) /\
  2 * Z.abs (10 * 7167056594495078 - 2037 * 2 ^ 45) <= 10 /\
  Float64.mul (S754_finite false 7167056594495078 (-45)) (Float64.of_Z 10000)
  = Float64.of_Z 2037000 /\
  Float64.to_int64 (Float64.of_Z 2037000) = 2037000.
Proof. repeat split; vm_compute; try reflexivity; discriminate. Qed.

Section PlayCount.
Context {Bytes Result : Type} {reader : gjson.Reader Bytes Result} {rt : time.Runtime}.
Import gjson.

(** The view count never makes the normalization fail: it fails exactly
    when the message lacks the success marker or [data] is absent. *)
Lemma Kuaishou_error_iff (data : Bytes) :
  snd (Kuaishou.parseVideoData data) <> None <->
  (Contains (Str (Get (ParseBytes data) "message")) "成功" = false \/
   Exists (Get (ParseBytes data) "data") = false).
Proof.
  destruct (Kuaishou_parseVideoData_fields data)
    as [(Hm & Hd & i & Hi & _)|(Hcase & e & He)].
  - rewrite Hi. cbn [snd]. split; [intros Hc; exfalso; apply Hc; reflexivity|].
    intros [Hc|Hc]; congruence.
  - rewrite He. cbn [snd]. split; [intros _; exact Hcase | discriminate].
Qed.


End PlayCount.


(** The play count on further payloads: a JSON number, a digit string, a
    string that is not a number, an absent field. *)
Lemma Kuaishou_play_count_examples :
  (fun doc => VideoStats.PlayCount <$> (VideoInfo.Stats <$> fst (Samples.kuaishouRun doc)))
    <$> [Samples.kuaishouDoc (JsonTree.JNumber 15000) "" "";
         Samples.kuaishouDoc (JsonTree.JString "15000") "" "";
         Samples.kuaishouDoc (JsonTree.JString "") "" "";
         Samples.kuaishouDoc (JsonTree.JString "lots") "" "";
         Samples.kuaishouDoc (JsonTree.JBool true) "" "";
         Samples.kuaishouDoc JsonTree.JNull "" ""]
  = [Some 15000; Some 15000; Some 0; Some 0; Some 0; Some 0].
Proof. vm_compute. reflexivity. Qed.

(** C2. A view count that names an infinity or NaN before the unit
    suffix is not a number, yet it does not count as zero: [Inf万] has no
    digit, [strconv.ParseFloat] reads [Inf] as the infinity with a nil
    error, and the play count is [int64] of the infinity times 10000,
    which on amd64 is the least [int64].  The normalization returns the
    media with that play count and a nil error. *)
Theorem C2_kuaishou_inf_play_count :
  noDigit "Inf万" = true /\
  Contains "Inf万" "万" = true /\
  Strconv.ParseFloat (ReplaceAll "Inf万" "万" "") = Some (S754_infinity false) /\
  Kuaishou.playCountOfString <$> ["Inf万"; "NaN万"; "-Infinity万"]
  = [Float64.MinInt64; Float64.MinInt64; Float64.MinInt64] /\
  Float64.MinInt64 = -9223372036854775808 /\
  (fun doc => (VideoStats.PlayCount <$> (VideoInfo.Stats <$> fst (Samples.kuaishouRun doc)),
               snd (Samples.kuaishouRun doc)))
    <$> [Samples.kuaishouDoc (JsonTree.JString "Inf万") "" "";
         Samples.kuaishouDoc (JsonTree.JString "NaN万") "" ""]
  = [(Some (-9223372036854775808), None); (Some (-9223372036854775808), None)].
Proof. repeat split; vm_compute; reflexivity. Qed.

(** ** Douyin: resolution of the identifier *)


Lemma digits_prefix_all (s : string) : allDigits s = true -> Douyin.digits_prefix s = s.
Proof.
  induction s as [|c s IH]; cbn [allDigits Douyin.digits_prefix]; [reflexivity|].
  intros H. apply andb_true_iff in H as [Hc Hs]. rewrite Hc, (IH Hs). reflexivity.
Qed.

Lemma FindStringSubmatch_here (lit s d : string) :
  Douyin.match_here lit s = Some d -> Douyin.FindStringSubmatch lit s = Some d.
Proof. intros H. destruct s; cbn [Douyin.FindStringSubmatch]; rewrite H; reflexivity. Qed.

Lemma FindStringSubmatch_next (lit : string) (c : ascii) (s : string) :
  Douyin.match_here lit (String c s) = None ->
  Douyin.FindStringSubmatch lit (String c s) = Douyin.FindStringSubmatch lit s.
Proof. intros H. cbn [Douyin.FindStringSubmatch]. rewrite H. reflexivity. Qed.

(** No match starts inside a run of digits. *)
Lemma FindStringSubmatch_digits (lit s : string) :
  allDigits s = true -> Douyin.FindStringSubmatch lit s = None.
Proof.
  induction s as [|c s IH]; intros H.
  - reflexivity.
  - cbn [allDigits] in H. apply andb_true_iff in H as [Hc Hs].
    rewrite FindStringSubmatch_next; [exact (IH Hs)|].
    unfold Douyin.match_here. cbn [HasPrefix].
    destruct (Ascii.eqb_spec "h" c) as [<-|Hne]; [discriminate Hc | reflexivity].
Qed.

(** The canonical page URL of an item yields the item's identifier. *)
Lemma ExtractVideoID_canonical (id : string) :
  id <> "" -> allDigits id = true ->
  Douyin.ExtractVideoID ("https://www.douyin.com/video/" +:+ id) = (id, None) /\
  Douyin.ExtractVideoID ("http://www.iesdouyin.com/share/video/" +:+ id) = (id, None).
Proof.
  intros Hne Hd. unfold Douyin.ExtractVideoID, Douyin.patterns. cbn [Douyin.first_pattern].
  split.
  - rewrite (FindStringSubmatch_here _ _ id); [reflexivity|].
    unfold Douyin.match_here.
    change (Douyin.digits_prefix
              (drop (len "://www.douyin.com/video/")
                 (drop 1 (drop 4 ("https://www.douyin.com/video/" +:+ id)))))
      with (Douyin.digits_prefix id).
    rewrite (digits_prefix_all id Hd). destruct id; [contradiction | reflexivity].
  - assert (H1 : Douyin.FindStringSubmatch "://www.douyin.com/video/"
                   ("http://www.iesdouyin.com/share/video/" +:+ id) = None).
    { change (Douyin.FindStringSubmatch "://www.douyin.com/video/"
                ("http://www.iesdouyin.com/share/video/" +:+ id))
        with (Douyin.FindStringSubmatch "://www.douyin.com/video/" id).
      apply FindStringSubmatch_digits. exact Hd. }
    rewrite H1. rewrite (FindStringSubmatch_here _ _ id); [reflexivity|].
    unfold Douyin.match_here.
    change (Douyin.digits_prefix
              (drop (len "://www.iesdouyin.com/share/video/")
                 (drop 4 ("http://www.iesdouyin.com/share/video/" +:+ id))))
      with (Douyin.digits_prefix id).
    rewrite (digits_prefix_all id Hd). destruct id; [contradiction | reflexivity].
Qed.

(** [ExtractVideoID] fails exactly when no pattern matches, with the
    unresolvable-URL error. *)
Lemma ExtractVideoID_error (url : string) :
  (Douyin.first_pattern Douyin.patterns url = None ->
   Douyin.ExtractVideoID url = ("", Some ("无法从URL中提取视频ID: " +:+ url))) /\
  (forall id, Douyin.first_pattern Douyin.patterns url = Some id ->
              Douyin.ExtractVideoID url = (id, None)).
Proof.
  unfold Douyin.ExtractVideoID. split.
  - intros ->. reflexivity.
  - intros id ->. reflexivity.
Qed.

Section Resolution.
Context {Bytes Result : Type} {reader : gjson.Reader Bytes Result} {rt : time.Runtime}.
Variable client : resty.Client Bytes.
Variable baseURL : string.

(** C5, as amended.  [ParseVideo] of the Douyin adapter, with the steps
    it takes.  A non-empty URL that contains [v.douyin.com]: the
    share-link request comes first, and the identifier is extracted from
    the URL it resolved to.  A non-empty URL that does not contain
    [v.douyin.com]: the identifier is extracted from the URL itself and no
    share-link request is made.  An empty URL and a non-empty [VideoID]:
    the [VideoID] goes into the detail request as it is, with neither
    request nor extraction before.  When the resolution or the extraction
    fails, [ParseVideo] returns an error and makes no detail request. *)
Theorem C5_douyin_resolution (ctx : context.Context) (req : ParseRequest.t) :
  let url := ParseRequest.URL req in
  let proxy := ParseRequest.Proxy req in
  let run := Douyin.ParseVideo_steps client baseURL ctx req in
  let resolve := Douyin.StepPost (Douyin.shareRequest baseURL url proxy) in
  let detail := fun id => Douyin.StepPost (Douyin.detailRequest baseURL ctx id req) in
  let fetch := fun id => Douyin.fetchDetail client baseURL ctx id req in
  (url <> "" -> Contains url "v.douyin.com" = true ->
   match Douyin.resolveShortURL client baseURL url proxy with
   | (_, Some err) => run = ((None, Some ("解析短链接失败: " +:+ err)), [resolve])
   | (fullURL, None) =>
       match Douyin.ExtractVideoID fullURL with
       | (_, Some err) =>
           run = ((None, Some ("从完整URL提取视频ID失败: " +:+ err)),
                  [resolve; Douyin.StepExtract fullURL])
       | (videoID, None) =>
           run = (fetch videoID, [resolve; Douyin.StepExtract fullURL; detail videoID])
       end
   end) /\
  (url <> "" -> Contains url "v.douyin.com" = false ->
   match Douyin.ExtractVideoID url with
   | (_, Some err) =>
       run = ((None, Some ("从URL提取视频ID失败: " +:+ err)), [Douyin.StepExtract url])
   | (videoID, None) => run = (fetch videoID, [Douyin.StepExtract url; detail videoID])
   end) /\
  (url = "" -> ParseRequest.VideoID req <> "" ->
   run = (fetch (ParseRequest.VideoID req), [detail (ParseRequest.VideoID req)])).
Proof.
  intros url proxy run resolve detail fetch.
  subst run. unfold Douyin.ParseVideo_steps. fold url. fold proxy.
  split; [|split].
  - intros Hne Hshort. apply eqb_empty_false in Hne. rewrite Hne, Hshort. cbn [negb].
    destruct (Douyin.resolveShortURL client baseURL url proxy) as [fullURL [err|]];
      [reflexivity|].
    destruct (Douyin.ExtractVideoID fullURL) as [videoID [err|]]; reflexivity.
  - intros Hne Hshort. apply eqb_empty_false in Hne. rewrite Hne, Hshort. cbn [negb].
    destruct (Douyin.ExtractVideoID url) as [videoID [err|]]; reflexivity.
  - intros He Hid. rewrite He. apply eqb_empty_false in Hid. rewrite Hid. reflexivity.
Qed.

(** What [ParseVideo] returns is what its run with steps returns. *)
Lemma Douyin_ParseVideo_run (ctx : context.Context) (req : ParseRequest.t) :
  Douyin.ParseVideo client baseURL ctx req
  = fst (Douyin.ParseVideo_steps client baseURL ctx req).
Proof. reflexivity. Qed.

End Resolution.

(** C5 as the specification states it fails: a URL that matches a canonical
    pattern and mentions [v.douyin.com] goes through the share-link
    request. *)
Lemma C5_canonical_url_resolved :
  ParseRequest.URL (Samples.douyinRequest Samples.mixedURL "") <> "" /\
  Douyin.ExtractVideoID (ParseRequest.URL (Samples.douyinRequest Samples.mixedURL ""))
  = ("7535398881601817894", None) /\
  head (snd (Samples.douyinSteps (Samples.douyinRequest Samples.mixedURL "")))
  = Some (Douyin.StepPost (Douyin.shareRequest Samples.baseURL Samples.mixedURL "")).
Proof. split; [discriminate|]. split; vm_compute; reflexivity. Qed.

Lemma C5_douyin_resolution_witness :
  snd (Samples.douyinSteps (Samples.douyinRequest Samples.shortURL ""))
  = [Douyin.StepPost (Douyin.shareRequest Samples.baseURL Samples.shortURL "");
     Douyin.StepExtract Samples.canonicalURL;
     Douyin.StepPost (Douyin.detailRequest Samples.baseURL context.Background
                        "7535398881601817894" (Samples.douyinRequest Samples.shortURL ""))]
  /\
  snd (Samples.douyinSteps (Samples.douyinRequest Samples.canonicalURL ""))
  = [Douyin.StepExtract Samples.canonicalURL;
     Douyin.StepPost (Douyin.detailRequest Samples.baseURL context.Background
                        "7535398881601817894"
                        (Samples.douyinRequest Samples.canonicalURL ""))]
  /\
  snd (Samples.douyinSteps (Samples.douyinRequest "" "7535398881601817894"))
  = [Douyin.StepPost (Douyin.detailRequest Samples.baseURL context.Background
                        "7535398881601817894"
                        (Samples.douyinRequest "" "7535398881601817894"))].
Proof.
  pose proof (C5_douyin_resolution (reader := JsonTree.reader) (rt := Samples.rt0)
                Samples.douyinClient Samples.baseURL context.Background) as H.
  split; [|split].
  - exact (f_equal snd
             (proj1 (H (Samples.douyinRequest Samples.shortURL ""))
                    ltac:(discriminate) eq_refl)).
  - exact (f_equal snd
             (proj1 (proj2 (H (Samples.douyinRequest Samples.canonicalURL "")))
                    ltac:(discriminate) eq_refl)).
  - exact (f_equal snd
             (proj2 (proj2 (H (Samples.douyinRequest "" "7535398881601817894")))
                    eq_refl ltac:(discriminate))).
Defined.

(** ** The orchestrator *)

(** When the adapter of the request is registered, its [ValidateRequest]
    is the first call the orchestrator makes. *)
Lemma ParseVideo_invokes_registered (s : VideoSDK.t) (start : time.Time)
    (ctx : context.Context) (req : ParseRequest.t) (p : Parser.t) :
  ParseRequest.Platform req <> "" ->
  VideoSDK.lookup s (ParseRequest.Platform req) = Some p ->
  head (snd (VideoSDK.ParseVideo s start ctx (Some req))) = Some (CallValidateRequest p req).
Proof.
  intros Hk Hp. unfold VideoSDK.ParseVideo.
  apply eqb_empty_false in Hk. rewrite Hk, Hp.
  destruct (Parser.ValidateRequest p req); [reflexivity|].
  destruct (Parser.ParseVideo p _ req) as [[v|] [e|]]; reflexivity.
Qed.

(** C7. With a nil request, with an empty platform key, and with a
    platform key that has no registered adapter, [ParseVideo] returns a
    failure envelope and the error, and invokes no method of any adapter;
    for a non-empty key without adapter the failure is the unsupported
    platform one. *)
Theorem C7_no_adapter_invoked (s : VideoSDK.t) (start : time.Time)
    (ctx : context.Context) (req : option ParseRequest.t) :
  (req = None \/
   exists r, req = Some r /\
             (ParseRequest.Platform r = "" \/
              VideoSDK.lookup s (ParseRequest.Platform r) = None)) ->
  exists resp msg,
    VideoSDK.ParseVideo s start ctx req = (Return resp (Some msg), []) /\
    ParseResponse.Success resp = false /\
    ParseResponse.Error resp = msg /\
    msg <> "" /\
    ParseResponse.Data resp = None /\
    (req = None -> msg = "request cannot be nil") /\
    (forall r, req = Some r -> ParseRequest.Platform r = "" ->
               msg = "platform is required") /\
    (forall r, req = Some r -> ParseRequest.Platform r <> "" ->
               msg = "platform " +:+ ParseRequest.Platform r +:+ " is not supported").
Proof.
  intros [->|(r & -> & Hr)]; unfold VideoSDK.ParseVideo.
  - eexists. eexists. split; [reflexivity|]. cbn [VideoSDK.failure ParseResponse.Success
      ParseResponse.Error ParseResponse.Data].
    repeat split; try discriminate.
  - destruct (String.eqb_spec (ParseRequest.Platform r) "") as [He|Hne].
    + eexists. eexists. split; [reflexivity|].
      cbn [VideoSDK.failure ParseResponse.Success ParseResponse.Error ParseResponse.Data].
      repeat split; try discriminate.
      intros r' Hr' Hne'. injection Hr' as <-. contradiction.
    + destruct Hr as [He|Hnone]; [contradiction|]. rewrite Hnone.
      eexists. eexists. split; [reflexivity|].
      cbn [VideoSDK.failure ParseResponse.Success ParseResponse.Error ParseResponse.Data].
      repeat split; try discriminate.
      * intros r' Hr' He'. injection Hr' as <-. contradiction.
      * intros r' Hr' _. injection Hr' as <-. reflexivity.
Qed.

Lemma C7_no_adapter_invoked_witness :
  VideoSDK.lookup (Samples.sdkWith [Samples.douyinParser]) PlatformKuaishou = None /\
  exists resp,
    VideoSDK.ParseVideo (Samples.sdkWith [Samples.douyinParser]) Samples.now0
      context.Background (Some Samples.kuaishouRequest)
    = (Return resp (Some "platform kuaishou is not supported"), []) /\
    ParseResponse.Success resp = false.
Proof.
  split; [reflexivity|].
  destruct (C7_no_adapter_invoked (Samples.sdkWith [Samples.douyinParser]) Samples.now0
              context.Background (Some Samples.kuaishouRequest))
    as (resp & msg & Hrun & Hs & _ & _ & _ & _ & _ & Hmsg).
  - right. exists Samples.kuaishouRequest. split; [reflexivity|]. right. reflexivity.
  - exists resp. split; [|exact Hs].
    rewrite Hrun.
    rewrite (Hmsg Samples.kuaishouRequest eq_refl ltac:(discriminate)). reflexivity.
Defined.






(* ===================================================================== *)
(** * Further properties of the SDK *)
(* ===================================================================== *)

(** The operations that change an SDK after [NewSDK]. *)
Inductive Op :=
| OpRegister (parser : option Parser.t)
| OpSetTimeout (d : time.Duration)
| OpSetUserAgent (ua : string).

Definition apply_op (s : VideoSDK.t) (op : Op) : VideoSDK.t :=
  match op with
  | OpRegister parser => fst (VideoSDK.RegisterParser s parser)
  | OpSetTimeout d => VideoSDK.SetTimeout s d
  | OpSetUserAgent ua => VideoSDK.SetUserAgent s ua
  end.

(** The SDK after a sequence of operations on a new one. *)
Definition run_ops (ops : list Op) : VideoSDK.t := fold_left apply_op ops NewSDK.

(** X1. [RegisterParser] fails exactly for the nil parser and for a
    parser whose platform key is empty, and a failed registration leaves
    the SDK as it was. *)
Theorem X1_register_refusals (s : VideoSDK.t) (parser : option Parser.t) :
  (snd (VideoSDK.RegisterParser s parser) <> None <->
   (parser = None \/ exists p, parser = Some p /\ Parser.GetPlatform p = "")) /\
  (snd (VideoSDK.RegisterParser s parser) <> None ->
   fst (VideoSDK.RegisterParser s parser) = s) /\
  (snd (VideoSDK.RegisterParser s None) = Some "parser cannot be nil").
Proof.
  split; [apply RegisterParser_refused|]. split; [|reflexivity].
  unfold VideoSDK.RegisterParser. destruct parser as [p|]; [|reflexivity].
  destruct (String.eqb (Parser.GetPlatform p) ""); cbn [fst snd]; [reflexivity|].
  intros Hc. exfalso. apply Hc. reflexivity.
Qed.

(** X2. A registration touches one binding only: the adapters under the
    other platform keys, the timeout and the user agent stay as they
    were. *)
Theorem X2_register_frame (s : VideoSDK.t) (p : Parser.t) (k : Platform) :
  k <> Parser.GetPlatform p ->
  let s' := fst (VideoSDK.RegisterParser s (Some p)) in
  VideoSDK.lookup s' k = VideoSDK.lookup s k /\
  VideoSDK.GetTimeout s' = VideoSDK.GetTimeout s /\
  VideoSDK.GetUserAgent s' = VideoSDK.GetUserAgent s.
Proof.
  intros Hne s'. subst s'. split; [apply RegisterParser_other; exact Hne|].
  unfold VideoSDK.RegisterParser, VideoSDK.GetTimeout, VideoSDK.GetUserAgent.
  destruct (String.eqb (Parser.GetPlatform p) ""); split; reflexivity.
Qed.

Lemma X2_register_frame_witness :
  PlatformDouyin <> Parser.GetPlatform (Samples.kuaishouParser JsonTree.JNull) /\
  VideoSDK.lookup
    (fst (VideoSDK.RegisterParser (Samples.sdkWith [Samples.douyinParser])
            (Some (Samples.kuaishouParser JsonTree.JNull))))
    PlatformDouyin
  = Some Samples.douyinParser.
Proof.
  split; [discriminate|].
  rewrite (proj1 (X2_register_frame (Samples.sdkWith [Samples.douyinParser])
                    (Samples.kuaishouParser JsonTree.JNull) PlatformDouyin
                    ltac:(discriminate))).
  reflexivity.
Defined.

(** Every binding of the registry has the platform key of its adapter,
    and no binding has the empty key. *)
Definition wellKeyed (s : VideoSDK.t) : Prop :=
  map_Forall (fun k p => k = Parser.GetPlatform p /\ k <> "") (VideoSDK.parsers s).

Lemma wellKeyed_apply_op (s : VideoSDK.t) (op : Op) :
  wellKeyed s -> wellKeyed (apply_op s op).
Proof.
  unfold wellKeyed. intros H. destruct op as [[p|]|d|ua]; cbn [apply_op]; try exact H.
  unfold VideoSDK.RegisterParser.
  destruct (String.eqb_spec (Parser.GetPlatform p) "") as [He|Hne]; cbn [fst]; [exact H|].
  cbn [VideoSDK.parsers]. apply map_Forall_insert_2; [|exact H].
  split; [reflexivity | exact Hne].
Qed.

Lemma wellKeyed_fold (ops : list Op) :
  forall s, wellKeyed s -> wellKeyed (fold_left apply_op ops s).
Proof.
  induction ops as [|op ops IH]; intros s H; cbn [fold_left]; [exact H|].
  apply IH. apply wellKeyed_apply_op. exact H.
Qed.

(** X3. Whatever registrations and settings are made on a new SDK, an
    adapter is only ever found under its own platform key, and never
    under the empty key. *)
Theorem X3_registry_keys (ops : list Op) :
  map_Forall (fun k p => k = Parser.GetPlatform p /\ k <> "")
             (VideoSDK.parsers (run_ops ops)) /\
  VideoSDK.lookup (run_ops ops) "" = None.
Proof.
  assert (H : wellKeyed (run_ops ops)).
  { apply wellKeyed_fold. unfold wellKeyed, NewSDK. cbn [VideoSDK.parsers].
    apply map_Forall_empty. }
  split; [exact H|].
  destruct (VideoSDK.lookup (run_ops ops) "") as [p|] eqn:E; [|reflexivity].
  destruct (H "" p E) as [_ Hne]. exfalso. apply Hne. reflexivity.
Qed.

(** X4. [GetSupportedPlatforms] lists exactly the platform keys that have
    an adapter, each once; a new SDK supports none, and a successful
    registration makes the key of the adapter supported. *)
Theorem X4_supported_platforms (s : VideoSDK.t) :
  (forall k, k ∈ VideoSDK.GetSupportedPlatforms s <-> is_Some (VideoSDK.lookup s k)) /\
  NoDup (VideoSDK.GetSupportedPlatforms s) /\
  length (VideoSDK.GetSupportedPlatforms s) = size (VideoSDK.parsers s) /\
  VideoSDK.GetSupportedPlatforms NewSDK = [] /\
  (forall p, Parser.GetPlatform p <> "" ->
     Parser.GetPlatform p
     ∈ VideoSDK.GetSupportedPlatforms (fst (VideoSDK.RegisterParser s (Some p)))).
Proof.
  assert (Hiff : forall (t : VideoSDK.t) k,
            k ∈ VideoSDK.GetSupportedPlatforms t <-> is_Some (VideoSDK.lookup t k)).
  { intros t k. unfold VideoSDK.GetSupportedPlatforms, VideoSDK.lookup.
    rewrite list_elem_of_fmap. split.
    - intros ([k' p] & -> & Hin). apply elem_of_map_to_list in Hin. eexists. exact Hin.
    - intros [p Hp]. exists (k, p). split; [reflexivity|].
      apply elem_of_map_to_list. exact Hp. }
  split; [apply Hiff|]. split; [apply NoDup_fst_map_to_list|]. split; [|split].
  - unfold VideoSDK.GetSupportedPlatforms. rewrite length_fmap. apply length_map_to_list.
  - unfold VideoSDK.GetSupportedPlatforms, NewSDK. cbn [VideoSDK.parsers].
    rewrite map_to_list_empty. reflexivity.
  - intros p Hne. apply Hiff. exists p.
    unfold VideoSDK.RegisterParser, VideoSDK.lookup.
    apply eqb_empty_false in Hne. rewrite Hne. cbn [fst VideoSDK.parsers].
    apply lookup_insert_eq.
Qed.


(** X6. [SetTimeout] is read back by [GetTimeout], leaves the registry
    and the user agent as they were, and is the timeout of the context the
    next [ParseVideo] hands to the adapter; a new SDK has 30 seconds. *)
Theorem X6_timeout (s : VideoSDK.t) (d : time.Duration) (start : time.Time)
    (ctx : context.Context) (req : ParseRequest.t) (p : Parser.t) :
  ParseRequest.Platform req <> "" ->
  VideoSDK.lookup s (ParseRequest.Platform req) = Some p ->
  Parser.ValidateRequest p req = None ->
  let s' := VideoSDK.SetTimeout s d in
  VideoSDK.GetTimeout s' = d /\
  VideoSDK.parsers s' = VideoSDK.parsers s /\
  VideoSDK.GetUserAgent s' = VideoSDK.GetUserAgent s /\
  snd (VideoSDK.ParseVideo s' start ctx (Some req))
  = [CallValidateRequest p req; CallParseVideo p (context.WithTimeout ctx d) req] /\
  VideoSDK.GetTimeout NewSDK = 30 * time.Second.
Proof.
  intros Hk Hp Hv s'. subst s'. repeat split.
  unfold VideoSDK.ParseVideo.
  apply eqb_empty_false in Hk. rewrite Hk.
  change (VideoSDK.lookup (VideoSDK.SetTimeout s d) (ParseRequest.Platform req))
    with (VideoSDK.lookup s (ParseRequest.Platform req)).
  rewrite Hp, Hv. cbn [VideoSDK.SetTimeout VideoSDK.timeout].
  destruct (Parser.ParseVideo p _ req) as [[v|] [e|]]; reflexivity.
Qed.

Lemma X6_timeout_witness :
  snd (VideoSDK.ParseVideo
         (VideoSDK.SetTimeout (Samples.sdkWith [Samples.douyinParser]) (5 * time.Second))
         Samples.now0 context.Background
         (Some (Samples.douyinRequest "" "7535398881601817894")))
  = [CallValidateRequest Samples.douyinParser
       (Samples.douyinRequest "" "7535398881601817894");
     CallParseVideo Samples.douyinParser
       (context.WithTimeout context.Background (5 * time.Second))
       (Samples.douyinRequest "" "7535398881601817894")].
Proof.
  exact (proj1 (proj2 (proj2 (proj2
           (X6_timeout (Samples.sdkWith [Samples.douyinParser]) (5 * time.Second)
              Samples.now0 context.Background
              (Samples.douyinRequest "" "7535398881601817894") Samples.douyinParser
              ltac:(discriminate) eq_refl eq_refl))))).
Defined.

(** X7. The user agent is kept and read back, and nothing else: what
    [ParseVideo] returns and the calls it makes do not depend on it. *)
Theorem X7_user_agent_unused (s : VideoSDK.t) (ua : string) (start : time.Time)
    (ctx : context.Context) (req : option ParseRequest.t) :
  VideoSDK.GetUserAgent (VideoSDK.SetUserAgent s ua) = ua /\
  VideoSDK.GetTimeout (VideoSDK.SetUserAgent s ua) = VideoSDK.GetTimeout s /\
  VideoSDK.ParseVideo (VideoSDK.SetUserAgent s ua) start ctx req
  = VideoSDK.ParseVideo s start ctx req.
Proof. repeat split. Qed.

(* ===================================================================== *)
(** * Further properties of the adapters: requests *)
(* ===================================================================== *)

(** A request with another [VideoID], and with another [Platform]. *)
Definition with_VideoID (req : ParseRequest.t) (videoID : string) : ParseRequest.t :=
  ParseRequest.mk (ParseRequest.Platform req) videoID (ParseRequest.URL req)
    (ParseRequest.Cookie req) (ParseRequest.Proxy req) (ParseRequest.Source req).

Definition with_Platform (req : ParseRequest.t) (platform : Platform) : ParseRequest.t :=
  ParseRequest.mk platform (ParseRequest.VideoID req) (ParseRequest.URL req)
    (ParseRequest.Cookie req) (ParseRequest.Proxy req) (ParseRequest.Source req).

(** The identifier or URL a direct-URL adapter forwards. *)
Definition targetOf (req : ParseRequest.t) : string :=
  if String.eqb (ParseRequest.URL req) "" then ParseRequest.VideoID req
  else ParseRequest.URL req.

Lemma validate_shape (own : Platform) (req : ParseRequest.t) :
  (if String.eqb (ParseRequest.VideoID req) "" && String.eqb (ParseRequest.URL req) ""
   then Some "video_id 或 url 至少需要提供一个"
   else if negb (String.eqb (ParseRequest.Platform req) own)
   then Some ("平台类型不匹配，期望: " +:+ own +:+ "，实际: " +:+ ParseRequest.Platform req)
   else None) = None <->
  (ParseRequest.VideoID req <> "" \/ ParseRequest.URL req <> "") /\
  ParseRequest.Platform req = own.
Proof.
  destruct (String.eqb_spec (ParseRequest.VideoID req) "") as [Hv|Hv];
    destruct (String.eqb_spec (ParseRequest.URL req) "") as [Hu|Hu];
    destruct (String.eqb_spec (ParseRequest.Platform req) own) as [Hp|Hp];
    cbn [andb negb]; split;
    try discriminate; try (intros _; split; [tauto | assumption]);
    try reflexivity; intros [[Hc|Hc] Hq]; contradiction.
Qed.

Lemma Kuaishou_validate_shape (req : ParseRequest.t) :
  Kuaishou.ValidateRequest req = None <->
  (ParseRequest.VideoID req <> "" \/ ParseRequest.URL req <> "") /\
  ParseRequest.Platform req = PlatformKuaishou.
Proof. apply validate_shape. Qed.

Lemma Xiaohongshu_validate_shape (req : ParseRequest.t) :
  Xiaohongshu.ValidateRequest req = None <->
  (ParseRequest.VideoID req <> "" \/ ParseRequest.URL req <> "") /\
  ParseRequest.Platform req = PlatformXiaohongshu.
Proof. apply validate_shape. Qed.

(** X8. [ValidateRequest] of each adapter accepts a request exactly when
    it has a video id or a URL and names the platform of the adapter; a
    request with neither is refused for that reason whatever its
    platform. *)
Theorem X8_validate_request (req : ParseRequest.t) :
  (Douyin.ValidateRequest req = None <->
   (ParseRequest.VideoID req <> "" \/ ParseRequest.URL req <> "") /\
   ParseRequest.Platform req = PlatformDouyin) /\
  (Kuaishou.ValidateRequest req = None <->
   (ParseRequest.VideoID req <> "" \/ ParseRequest.URL req <> "") /\
   ParseRequest.Platform req = PlatformKuaishou) /\
  (Xiaohongshu.ValidateRequest req = None <->
   (ParseRequest.VideoID req <> "" \/ ParseRequest.URL req <> "") /\
   ParseRequest.Platform req = PlatformXiaohongshu) /\
  (ParseRequest.VideoID req = "" -> ParseRequest.URL req = "" ->
   Douyin.ValidateRequest req = Some "video_id 或 url 至少需要提供一个" /\
   Kuaishou.ValidateRequest req = Some "video_id 或 url 至少需要提供一个" /\
   Xiaohongshu.ValidateRequest req = Some "video_id 或 url 至少需要提供一个").
Proof.
  split; [apply validate_shape|]. split; [apply validate_shape|].
  split; [apply validate_shape|].
  intros Hv Hu.
  unfold Douyin.ValidateRequest, Kuaishou.ValidateRequest, Xiaohongshu.ValidateRequest.
  rewrite Hv, Hu. repeat split.
Qed.

Section AdapterRequests.
Context {Bytes Result : Type} {reader : gjson.Reader Bytes Result} {rt : time.Runtime}.
Variable client : resty.Client Bytes.
Variable baseURL : string.
Import gjson.

Lemma Douyin_fetchDetail_one ctx videoID req :
  (exists info, Douyin.fetchDetail client baseURL ctx videoID req = (Some info, None)) \/
  (exists err, Douyin.fetchDetail client baseURL ctx videoID req = (None, Some err)).
Proof.
  unfold Douyin.fetchDetail.
  destruct (client _) as [resp|err]; [|right; eexists; reflexivity].
  destruct (negb (resty.StatusCode resp =? 200)); [right; eexists; reflexivity|].
  destruct (negb (Exists _)); [right; eexists; reflexivity|].
  destruct (Douyin_parseVideoData_fields (Get (ParseBytes (resty.ResponseBody resp)) "data"))
    as (i & Hi & _).
  left. exists i. exact Hi.
Qed.

(** X9. [ParseVideo] of each adapter returns a media with a nil error,
    or no media with an error; never both, never neither. *)
Theorem X9_media_or_error (ctx : context.Context) (req : ParseRequest.t) :
  ((exists info, Douyin.ParseVideo client baseURL ctx req = (Some info, None)) \/
   (exists err, Douyin.ParseVideo client baseURL ctx req = (None, Some err))) /\
  ((exists info, Kuaishou.ParseVideo client baseURL ctx req = (Some info, None)) \/
   (exists err, Kuaishou.ParseVideo client baseURL ctx req = (None, Some err))) /\
  ((exists info, Xiaohongshu.ParseVideo client baseURL ctx req = (Some info, None)) \/
   (exists err, Xiaohongshu.ParseVideo client baseURL ctx req = (None, Some err))).
Proof.
  split; [|split].
  - unfold Douyin.ParseVideo, Douyin.ParseVideo_steps.
    destruct (negb (String.eqb (ParseRequest.URL req) "")).
    + destruct (Contains _ _).
      * destruct (Douyin.resolveShortURL _ _ _ _) as [fullURL [e|]];
          [right; eexists; reflexivity|].
        destruct (Douyin.ExtractVideoID fullURL) as [videoID [e|]];
          [right; eexists; reflexivity|].
        cbn [fst]. apply Douyin_fetchDetail_one.
      * destruct (Douyin.ExtractVideoID _) as [videoID [e|]];
          [right; eexists; reflexivity|].
        cbn [fst]. apply Douyin_fetchDetail_one.
    + destruct (negb (String.eqb (ParseRequest.VideoID req) ""));
        [|right; eexists; reflexivity].
      cbn [fst]. apply Douyin_fetchDetail_one.
  - unfold Kuaishou.ParseVideo.
    destruct (Kuaishou.ValidateRequest req); [right; eexists; reflexivity|].
    assert (Hfetch : forall targetURL,
      let r := match client (Kuaishou.detailRequest baseURL ctx targetURL req) with
               | inr err => (None, Some ("请求快手API失败: " +:+ err))
               | inl resp =>
                   if negb (resty.StatusCode resp =? 200) then
                     (None, Some ("快手API请求失败，状态码: "
                                  +:+ fmt_d (resty.StatusCode resp)))
                   else
                     match Kuaishou.parseVideoData (resty.ResponseBody resp) with
                     | (_, Some err) => (None, Some ("解析响应失败: " +:+ err))
                     | (videoInfo, None) => (videoInfo, None)
                     end
               end in
      (exists info, r = (Some info, None)) \/ (exists err, r = (@None VideoInfo.t, Some err))).
    { intros targetURL. cbv zeta.
      destruct (client _) as [resp|err]; [|right; eexists; reflexivity].
      destruct (negb (resty.StatusCode resp =? 200)); [right; eexists; reflexivity|].
      destruct (Kuaishou_parseVideoData_fields (resty.ResponseBody resp))
        as [(_ & _ & i & Hi & _)|(_ & e & He)].
      - rewrite Hi. left. eexists. reflexivity.
      - rewrite He. right. eexists. reflexivity. }
    destruct (negb (String.eqb (ParseRequest.URL req) "")); [apply Hfetch|].
    destruct (negb (String.eqb (ParseRequest.VideoID req) ""));
      [apply Hfetch | right; eexists; reflexivity].
  - unfold Xiaohongshu.ParseVideo.
    destruct (Xiaohongshu.ValidateRequest req); [right; eexists; reflexivity|].
    destruct (String.eqb _ ""); [right; eexists; reflexivity|].
    destruct (client _) as [resp|err]; [|right; eexists; reflexivity].
    destruct (negb (resty.StatusCode resp =? 200)); [right; eexists; reflexivity|].
    destruct (Xiaohongshu_parseVideoData_fields (resty.ResponseBody resp))
      as [(_ & _ & i & Hi & _)|(_ & e & He)].
    + rewrite Hi. left. eexists. reflexivity.
    + rewrite He. right. eexists. reflexivity.
Qed.

(** X10. The URL takes precedence: when the URL of a request is not
    empty, its [VideoID] has no influence on what any of the three
    adapters does or returns. *)
Theorem X10_url_precedence (ctx : context.Context) (req : ParseRequest.t)
    (videoID : string) :
  ParseRequest.URL req <> "" ->
  Douyin.ParseVideo_steps client baseURL ctx (with_VideoID req videoID)
  = Douyin.ParseVideo_steps client baseURL ctx req /\
  Kuaishou.ParseVideo client baseURL ctx (with_VideoID req videoID)
  = Kuaishou.ParseVideo client baseURL ctx req /\
  Xiaohongshu.ParseVideo client baseURL ctx (with_VideoID req videoID)
  = Xiaohongshu.ParseVideo client baseURL ctx req.
Proof.
  intros Hu. apply eqb_empty_false in Hu. destruct req as [pl vid url ck px src].
  cbn [ParseRequest.URL] in Hu.
  unfold with_VideoID. cbn [ParseRequest.Platform ParseRequest.URL ParseRequest.Cookie
    ParseRequest.Proxy ParseRequest.Source].
  split; [|split].
  - unfold Douyin.ParseVideo_steps, Douyin.fetchDetail, Douyin.detailRequest.
    cbn [ParseRequest.URL ParseRequest.Proxy ParseRequest.Cookie ParseRequest.Source].
    rewrite Hu. reflexivity.
  - unfold Kuaishou.ParseVideo, Kuaishou.ValidateRequest, Kuaishou.detailRequest.
    cbn [ParseRequest.URL ParseRequest.Proxy ParseRequest.Cookie ParseRequest.VideoID
         ParseRequest.Platform].
    rewrite Hu, !andb_false_r. reflexivity.
  - unfold Xiaohongshu.ParseVideo, Xiaohongshu.ValidateRequest, Xiaohongshu.detailRequest.
    cbn [ParseRequest.URL ParseRequest.Proxy ParseRequest.Cookie ParseRequest.VideoID
         ParseRequest.Platform].
    rewrite Hu, !andb_false_r. reflexivity.
Qed.

(** X11. The Kuaishou and Xiaohongshu adapters validate the request
    again in [ParseVideo]: a request their [ValidateRequest] refuses gets
    that error back as it is, whatever the upstream would answer.  The
    Douyin adapter does not: its [ParseVideo] never looks at the platform
    key of the request. *)
Theorem X11_revalidation (client' : resty.Client Bytes) (ctx : context.Context)
    (req : ParseRequest.t) (platform : Platform) :
  (forall err, Kuaishou.ValidateRequest req = Some err ->
     Kuaishou.ParseVideo client baseURL ctx req = (None, Some err) /\
     Kuaishou.ParseVideo client' baseURL ctx req = (None, Some err)) /\
  (forall err, Xiaohongshu.ValidateRequest req = Some err ->
     Xiaohongshu.ParseVideo client baseURL ctx req = (None, Some err) /\
     Xiaohongshu.ParseVideo client' baseURL ctx req = (None, Some err)) /\
  Douyin.ParseVideo_steps client baseURL ctx (with_Platform req platform)
  = Douyin.ParseVideo_steps client baseURL ctx req.
Proof.
  split; [|split].
  - intros err H. unfold Kuaishou.ParseVideo. rewrite H. split; reflexivity.
  - intros err H. unfold Xiaohongshu.ParseVideo. rewrite H. split; reflexivity.
  - destruct req; reflexivity.
Qed.

Lemma resolveShortURL_agree (client' : resty.Client Bytes) (shortURL proxy : string) :
  client (Douyin.shareRequest baseURL shortURL proxy)
  = client' (Douyin.shareRequest baseURL shortURL proxy) ->
  Douyin.resolveShortURL client' baseURL shortURL proxy
  = Douyin.resolveShortURL client baseURL shortURL proxy.
Proof. intros H. unfold Douyin.resolveShortURL. rewrite H. reflexivity. Qed.

Lemma fetchDetail_agree (client' : resty.Client Bytes) ctx videoID req :
  client (Douyin.detailRequest baseURL ctx videoID req)
  = client' (Douyin.detailRequest baseURL ctx videoID req) ->
  Douyin.fetchDetail client' baseURL ctx videoID req
  = Douyin.fetchDetail client baseURL ctx videoID req.
Proof. intros H. unfold Douyin.fetchDetail. rewrite H. reflexivity. Qed.

(** A short link: the share-link request is the first step. *)
Lemma Douyin_short_link_first_step ctx req :
  ParseRequest.URL req <> "" ->
  Contains (ParseRequest.URL req) "v.douyin.com" = true ->
  head (snd (Douyin.ParseVideo_steps client baseURL ctx req))
  = Some (Douyin.StepPost (Douyin.shareRequest baseURL (ParseRequest.URL req)
                             (ParseRequest.Proxy req))).
Proof.
  intros Hu Hs. apply eqb_empty_false in Hu. unfold Douyin.ParseVideo_steps.
  rewrite Hu, Hs. cbn [negb].
  destruct (Douyin.resolveShortURL _ _ _ _) as [fullURL [e|]]; [reflexivity|].
  destruct (Douyin.ExtractVideoID fullURL) as [videoID [e|]]; reflexivity.
Qed.

(** X12. A direct-URL adapter makes one request, for the URL of the
    request or else its [VideoID]: two upstreams that answer that request
    alike get the same result.  The Douyin adapter depends on the
    upstream through the requests among its steps only. *)
Theorem X12_requests_made (client' : resty.Client Bytes) (ctx : context.Context)
    (req : ParseRequest.t) :
  (client (Kuaishou.detailRequest baseURL ctx (targetOf req) req)
   = client' (Kuaishou.detailRequest baseURL ctx (targetOf req) req) ->
   Kuaishou.ParseVideo client baseURL ctx req = Kuaishou.ParseVideo client' baseURL ctx req) /\
  (client (Xiaohongshu.detailRequest baseURL ctx (targetOf req) req)
   = client' (Xiaohongshu.detailRequest baseURL ctx (targetOf req) req) ->
   Xiaohongshu.ParseVideo client baseURL ctx req
   = Xiaohongshu.ParseVideo client' baseURL ctx req) /\
  ((forall r, In (Douyin.StepPost r) (snd (Douyin.ParseVideo_steps client baseURL ctx req)) ->
              client r = client' r) ->
   Douyin.ParseVideo_steps client' baseURL ctx req
   = Douyin.ParseVideo_steps client baseURL ctx req).
Proof.
  split; [|split].
  - unfold Kuaishou.ParseVideo, targetOf. intros H.
    destruct (Kuaishou.ValidateRequest req); [reflexivity|].
    destruct (String.eqb (ParseRequest.URL req) ""); cbn [negb].
    + destruct (negb (String.eqb (ParseRequest.VideoID req) "")); [|reflexivity].
      rewrite H. reflexivity.
    + rewrite H. reflexivity.
  - unfold Xiaohongshu.ParseVideo, targetOf. intros H.
    destruct (Xiaohongshu.ValidateRequest req); [reflexivity|].
    destruct (String.eqb (ParseRequest.URL req) "").
    + destruct (String.eqb (ParseRequest.VideoID req) ""); [reflexivity|].
      rewrite H. reflexivity.
    + rewrite H. reflexivity.
  - intros H.
    destruct (String.eqb_spec (ParseRequest.URL req) "") as [Hu|Hu].
    + unfold Douyin.ParseVideo_steps in H |- *.
      rewrite Hu in H |- *. cbn [String.eqb negb] in H |- *.
      destruct (negb (String.eqb (ParseRequest.VideoID req) "")); [|reflexivity].
      cbn [app snd] in H |- *. rewrite (fetchDetail_agree client'); [reflexivity|].
      apply H. left. reflexivity.
    + destruct (Contains (ParseRequest.URL req) "v.douyin.com") eqn:Hs.
      * pose proof (Douyin_short_link_first_step ctx req Hu Hs) as Hfirst.
        assert (Hshare : client (Douyin.shareRequest baseURL (ParseRequest.URL req)
                                   (ParseRequest.Proxy req))
                         = client' (Douyin.shareRequest baseURL (ParseRequest.URL req)
                                      (ParseRequest.Proxy req))).
        { apply H.
          destruct (snd (Douyin.ParseVideo_steps client baseURL ctx req)) as [|st rest];
            [discriminate Hfirst|].
          cbn [head] in Hfirst. injection Hfirst as ->. left. reflexivity. }
        clear Hfirst. apply eqb_empty_false in Hu.
        unfold Douyin.ParseVideo_steps in H |- *. rewrite Hu, Hs in H |- *.
        cbn [negb] in H |- *.
        rewrite (resolveShortURL_agree client' _ _ Hshare).
        destruct (Douyin.resolveShortURL client baseURL _ _) as [fullURL [e|]];
          [reflexivity|].
        destruct (Douyin.ExtractVideoID fullURL) as [videoID [e|]]; [reflexivity|].
        cbn [app snd] in H |- *. rewrite (fetchDetail_agree client'); [reflexivity|].
        apply H. right. right. left. reflexivity.
      * apply eqb_empty_false in Hu.
        unfold Douyin.ParseVideo_steps in H |- *. rewrite Hu, Hs in H |- *.
        cbn [negb] in H |- *.
        destruct (Douyin.ExtractVideoID _) as [videoID [e|]]; [reflexivity|].
        cbn [app snd] in H |- *. rewrite (fetchDetail_agree client'); [reflexivity|].
        apply H. right. left. reflexivity.
Qed.

End AdapterRequests.

Lemma X10_url_precedence_witness :
  Douyin.ParseVideo_steps (reader := JsonTree.reader) (rt := Samples.rt0)
    Samples.douyinClient Samples.baseURL context.Background
    (with_VideoID (Samples.douyinRequest Samples.canonicalURL "") "not-an-id")
  = Samples.douyinSteps (Samples.douyinRequest Samples.canonicalURL "").
Proof.
  exact (proj1 (X10_url_precedence (reader := JsonTree.reader) (rt := Samples.rt0)
                  Samples.douyinClient Samples.baseURL context.Background
                  (Samples.douyinRequest Samples.canonicalURL "") "not-an-id"
                  ltac:(discriminate))).
Defined.

(* ===================================================================== *)
(** * Further properties of the Douyin identifier extraction *)
(* ===================================================================== *)

Lemma allDigits_digits_prefix (s : string) : allDigits (Douyin.digits_prefix s) = true.
Proof.
  induction s as [|c s IH]; cbn [Douyin.digits_prefix]; [reflexivity|].
  destruct (is_digit c) eqn:Hc; [|reflexivity]. cbn [allDigits]. rewrite Hc. exact IH.
Qed.

Lemma HasPrefix_digits_prefix (s : string) : HasPrefix s (Douyin.digits_prefix s) = true.
Proof.
  induction s as [|c s IH]; cbn [Douyin.digits_prefix]; [reflexivity|].
  destruct (is_digit c); [|reflexivity]. cbn [HasPrefix].
  rewrite Ascii.eqb_refl. exact IH.
Qed.

Lemma Contains_of_prefix (s p : string) : HasPrefix s p = true -> Contains s p = true.
Proof. intros H. destruct s; cbn [Contains]; rewrite H; reflexivity. Qed.

Lemma Contains_cons (c : ascii) (s p : string) :
  Contains s p = true -> Contains (String c s) p = true.
Proof. intros H. cbn [Contains]. rewrite H. apply orb_true_r. Qed.

Lemma Contains_drop (n : nat) (s p : string) :
  Contains (drop n s) p = true -> Contains s p = true.
Proof.
  revert s. induction n as [|n IH]; intros s H.
  - destruct s; exact H.
  - destruct s as [|c s]; [exact H|]. cbn [drop] in H.
    apply Contains_cons. apply IH. exact H.
Qed.

(** What a match captures: digits, at least one, that stand in the string. *)
Lemma match_here_digits (lit s d : string) :
  Douyin.match_here lit s = Some d ->
  d <> "" /\ allDigits d = true /\ Contains s d = true.
Proof.
  unfold Douyin.match_here.
  destruct (HasPrefix s "http"); [|discriminate].
  assert (Hafter : forall r,
    (if HasPrefix r lit
     then match Douyin.digits_prefix (drop (len lit) r) with
          | EmptyString => None
          | String a s0 => Some (String a s0)
          end
     else None) = Some d ->
    d <> "" /\ allDigits d = true /\ Contains r d = true).
  { intros r H. destruct (HasPrefix r lit); [|discriminate H].
    pose proof (allDigits_digits_prefix (drop (len lit) r)) as Hall.
    pose proof (HasPrefix_digits_prefix (drop (len lit) r)) as Hpre.
    destruct (Douyin.digits_prefix (drop (len lit) r)) as [|a s0]; [discriminate H|].
    injection H as <-. split; [discriminate|]. split; [exact Hall|].
    apply (Contains_drop (len lit)). apply Contains_of_prefix. exact Hpre. }
  destruct (HasPrefix (drop 4 s) "s").
  - destruct (if HasPrefix (drop 1 (drop 4 s)) lit
              then match Douyin.digits_prefix (drop (len lit) (drop 1 (drop 4 s))) with
                   | EmptyString => None
                   | String a s0 => Some (String a s0)
                   end
              else None) as [d'|] eqn:E.
    + intros H. injection H as <-. destruct (Hafter _ E) as (H1 & H2 & H3).
      split; [exact H1|]. split; [exact H2|].
      apply (Contains_drop 4). apply (Contains_drop 1). exact H3.
    + intros H. destruct (Hafter _ H) as (H1 & H2 & H3).
      split; [exact H1|]. split; [exact H2|]. apply (Contains_drop 4). exact H3.
  - intros H. destruct (Hafter _ H) as (H1 & H2 & H3).
    split; [exact H1|]. split; [exact H2|]. apply (Contains_drop 4). exact H3.
Qed.

Lemma FindStringSubmatch_digits_found (lit s d : string) :
  Douyin.FindStringSubmatch lit s = Some d ->
  d <> "" /\ allDigits d = true /\ Contains s d = true.
Proof.
  induction s as [|c s IH]; cbn [Douyin.FindStringSubmatch].
  - destruct (Douyin.match_here lit "") eqn:E; [|discriminate].
    intros H. injection H as <-. apply (match_here_digits lit). exact E.
  - destruct (Douyin.match_here lit (String c s)) eqn:E.
    + intros H. injection H as <-. apply (match_here_digits lit). exact E.
    + intros H. destruct (IH H) as (H1 & H2 & H3).
      split; [exact H1|]. split; [exact H2|]. apply Contains_cons. exact H3.
Qed.

(** X13. The identifier [ExtractVideoID] of the Douyin adapter returns
    with a nil error is a non-empty string of decimal digits that occurs in
    the URL; with an error it returns the empty string, and the error
    names the URL. *)
Theorem X13_extracted_id (url : string) :
  match Douyin.ExtractVideoID url with
  | (id, None) => id <> "" /\ allDigits id = true /\ Contains url id = true
  | (id, Some err) => id = "" /\ err = "无法从URL中提取视频ID: " +:+ url
  end.
Proof.
  unfold Douyin.ExtractVideoID, Douyin.patterns. cbn [Douyin.first_pattern].
  destruct (Douyin.FindStringSubmatch "://www.douyin.com/video/" url) as [id|] eqn:E1.
  - apply (FindStringSubmatch_digits_found _ _ _ E1).
  - destruct (Douyin.FindStringSubmatch "://www.iesdouyin.com/share/video/" url)
      as [id|] eqn:E2.
    + apply (FindStringSubmatch_digits_found _ _ _ E2).
    + split; reflexivity.
Qed.

Lemma digits_prefix_app (id rest : string) :
  allDigits id = true ->
  match rest with
  | EmptyString => True
  | String c _ => is_digit c = false
  end ->
  Douyin.digits_prefix (id +:+ rest) = id.
Proof.
  intros Hd Hrest. induction id as [|c id IH].
  - change ("" +:+ rest) with rest. destruct rest as [|c r]; [reflexivity|].
    cbn [Douyin.digits_prefix]. rewrite Hrest. reflexivity.
  - cbn [allDigits] in Hd. apply andb_true_iff in Hd as [Hc Hid].
    change (String c id +:+ rest) with (String c (id +:+ rest)).
    cbn [Douyin.digits_prefix]. rewrite Hc, (IH Hid). reflexivity.
Qed.

(** X14. From a canonical page URL, with either scheme, followed by
    anything that does not start with a digit (a query string, a slash,
    nothing), [ExtractVideoID] returns the identifier in the URL. *)
Theorem X14_canonical_url (id rest : string) :
  id <> "" -> allDigits id = true ->
  match rest with
  | EmptyString => True
  | String c _ => is_digit c = false
  end ->
  Douyin.ExtractVideoID ("https://www.douyin.com/video/" +:+ id +:+ rest) = (id, None) /\
  Douyin.ExtractVideoID ("http://www.douyin.com/video/" +:+ id +:+ rest) = (id, None).
Proof.
  intros Hne Hd Hrest.
  pose proof (digits_prefix_app id rest Hd Hrest) as Hdp.
  unfold Douyin.ExtractVideoID, Douyin.patterns. cbn [Douyin.first_pattern]. split.
  - rewrite (FindStringSubmatch_here _ _ id); [reflexivity|].
    unfold Douyin.match_here.
    change (Douyin.digits_prefix
              (drop (len "://www.douyin.com/video/")
                 (drop 1 (drop 4 ("https://www.douyin.com/video/" +:+ id +:+ rest)))))
      with (Douyin.digits_prefix (id +:+ rest)).
    rewrite Hdp. destruct id; [contradiction | reflexivity].
  - rewrite (FindStringSubmatch_here _ _ id); [reflexivity|].
    unfold Douyin.match_here.
    change (Douyin.digits_prefix
              (drop (len "://www.douyin.com/video/")
                 (drop 4 ("http://www.douyin.com/video/" +:+ id +:+ rest))))
      with (Douyin.digits_prefix (id +:+ rest)).
    rewrite Hdp. destruct id; [contradiction | reflexivity].
Qed.

Lemma X14_canonical_url_witness :
  Douyin.ExtractVideoID "https://www.douyin.com/video/7535398881601817894?previous_page=app"
  = ("7535398881601817894", None).
Proof.
  exact (proj1 (X14_canonical_url "7535398881601817894" "?previous_page=app"
                  ltac:(discriminate) eq_refl eq_refl)).
Defined.

(* ===================================================================== *)
(** * Further properties of the normalizations *)
(* ===================================================================== *)

(** [strings.Join(l, " ")] and [strings.Join(l, ",")]. *)
Fixpoint joinWith (sep : string) (l : list string) : string :=
  match l with
  | [] => ""
  | w :: rest =>
      match rest with
      | [] => w
      | _ => w +:+ sep +:+ joinWith sep rest
      end
  end.

(** [s] is free of white space: no white-space rune starts at any byte
    offset of [s].  (A byte inside the encoding of another rune is a
    continuation byte, and no white-space rune starts with one.) *)
Fixpoint noSpace (s : string) : bool :=
  match s with
  | EmptyString => true
  | String _ s' => (space_width s =? 0)%nat && noSpace s'
  end.

(** A non-empty word without white space. *)
Definition plainWord (w : string) : Prop := w <> "" /\ noSpace w = true.

(** The number a string of digits denotes. *)
Fixpoint decimal_go (acc : Z) (s : string) : Z :=
  match s with
  | EmptyString => acc
  | String c s' => decimal_go (acc * 10 + digit_val c) s'
  end.

Definition decimal (s : string) : Z := decimal_go 0 s.

Fixpoint countByte (sep : ascii) (s : string) : nat :=
  match s with
  | EmptyString => O
  | String c s' => (if Ascii.eqb c sep then 1 else 0) + countByte sep s'
  end.

(** ** [strings.Fields] and [strings.Split] *)

Lemma app_nil_right (a : string) : a +:+ "" = a.
Proof.
  induction a as [|c a IH]; [reflexivity|].
  change (String c a +:+ "") with (String c (a +:+ "")). rewrite IH. reflexivity.
Qed.

(** What follows a word in a string joined with single spaces: nothing,
    or a space. *)
Definition wordEnd (s : string) : Prop := s = "" \/ exists s', s = String " " s'.

(** A space after it does not turn the end of a word into white space:
    no white-space rune of two or three bytes has the byte of the space
    in it. *)
Lemma space_width_app (t s : string) :
  t <> "" -> wordEnd s -> space_width t = O -> space_width (t +:+ s) = O.
Proof.
  intros Hne [->|[s' ->]] H; [rewrite app_nil_right; exact H|].
  destruct t as [|c [|c1 [|c2 t3]]]; [contradiction| | |exact H].
  - change (String c "" +:+ String " " s') with (String c (String " " s')).
    revert H. unfold space_width. cbv zeta.
    change (nat_of_ascii " ") with 32%nat.
    destruct (((9 <=? nat_of_ascii c) && (nat_of_ascii c <=? 13)
               || (nat_of_ascii c =? 32))%nat); [discriminate|].
    intros _.
    destruct (nat_of_ascii c =? 194)%nat, (nat_of_ascii c =? 225)%nat,
      (nat_of_ascii c =? 226)%nat, (nat_of_ascii c =? 227)%nat;
      destruct s'; reflexivity.
  - change (String c (String c1 "") +:+ String " " s')
      with (String c (String c1 (String " " s'))).
    revert H. unfold space_width. cbv zeta.
    change (nat_of_ascii " ") with 32%nat.
    destruct (((9 <=? nat_of_ascii c) && (nat_of_ascii c <=? 13)
               || (nat_of_ascii c =? 32))%nat); [discriminate|].
    destruct ((nat_of_ascii c =? 194)%nat
              && ((nat_of_ascii c1 =? 133) || (nat_of_ascii c1 =? 160))%nat);
      [discriminate|].
    intros _.
    destruct (nat_of_ascii c =? 225)%nat, (nat_of_ascii c =? 226)%nat,
      (nat_of_ascii c =? 227)%nat, (nat_of_ascii c1 =? 154)%nat,
      (nat_of_ascii c1 =? 128)%nat, (nat_of_ascii c1 =? 129)%nat; reflexivity.
Qed.

Lemma fields_go_word (w : string) :
  forall cur acc s, noSpace w = true -> wordEnd s ->
    fields_go O cur acc (w +:+ s) = fields_go O (String.rev_app w cur) acc s.
Proof.
  induction w as [|c w IH]; intros cur acc s H Hs; [reflexivity|].
  cbn [noSpace] in H. apply andb_true_iff in H as [Hc Hw].
  apply Nat.eqb_eq in Hc.
  pose proof (space_width_app (String c w) s ltac:(discriminate) Hs Hc) as Hsw.
  change (String c w +:+ s) with (String c (w +:+ s)) in Hsw |- *.
  cbn [fields_go]. rewrite Hsw. cbn [String.rev_app].
  apply IH; assumption.
Qed.

Lemma rev_app_rev_app (w a b : string) :
  String.rev_app (String.rev_app w a) b = String.rev_app a (w +:+ b).
Proof.
  revert a b. induction w as [|c w IH]; intros a b; cbn [String.rev_app]; [reflexivity|].
  rewrite IH. reflexivity.
Qed.

Lemma rev_rev (w : string) : String.rev (String.rev_app w "") = w.
Proof.
  unfold String.rev. rewrite rev_app_rev_app. cbn [String.rev_app].
  induction w as [|c w IH]; [reflexivity|].
  change (String c w +:+ "") with (String c (w +:+ "")). rewrite IH. reflexivity.
Qed.

Lemma flush_word (w : string) (acc : list string) :
  w <> "" -> flush (String.rev_app w "") acc = w :: acc.
Proof.
  intros Hne. unfold flush.
  destruct (String.rev_app w "") as [|c r] eqn:E.
  - exfalso. apply Hne. rewrite <- (rev_rev w), E. reflexivity.
  - rewrite <- E, rev_rev. reflexivity.
Qed.

Lemma fields_go_join (l : list string) :
  forall acc, Forall plainWord l ->
    fields_go O "" acc (joinWith " " l) = rev acc ++ l.
Proof.
  induction l as [|w rest IH]; intros acc Hall.
  - cbn [joinWith fields_go flush]. rewrite app_nil_r. reflexivity.
  - apply Forall_cons in Hall as [[Hne Hw] Hrest]. cbn [joinWith].
    destruct rest as [|w2 rest'].
    + rewrite <- (app_nil_right w) at 1.
      rewrite (fields_go_word w "" acc "" Hw (or_introl eq_refl)). cbn [fields_go].
      rewrite (flush_word w acc Hne). reflexivity.
    + change (" " +:+ joinWith " " (w2 :: rest'))
        with (String " " (joinWith " " (w2 :: rest'))).
      rewrite (fields_go_word w "" acc _ Hw (or_intror (ex_intro _ _ eq_refl))).
      cbn [fields_go]. change (space_width (String " " _)) with 1%nat. cbv iota.
      rewrite (flush_word w acc Hne). rewrite (IH (w :: acc) Hrest).
      cbn [rev]. rewrite <- app_assoc. reflexivity.
Qed.

(** Splitting what was joined with single spaces gives the words back. *)
Lemma Fields_join (l : list string) :
  Forall plainWord l -> Fields (joinWith " " l) = l.
Proof. intros H. unfold Fields. rewrite (fields_go_join l [] H). reflexivity. Qed.

Lemma Contains_space_plain (w : string) : noSpace w = true -> Contains w " " = false.
Proof.
  induction w as [|c w IH]; [reflexivity|]. intros H.
  cbn [noSpace] in H. apply andb_true_iff in H as [Hc Hw].
  cbn [Contains HasPrefix]. rewrite (IH Hw), orb_false_r.
  destruct (Ascii.eqb_spec " " c) as [<-|Hne]; [|reflexivity].
  apply Nat.eqb_eq in Hc. discriminate Hc.
Qed.

Lemma Contains_app_r (a b p : string) : Contains b p = true -> Contains (a +:+ b) p = true.
Proof.
  intros H. induction a as [|c a IH]; [exact H|].
  change (String c a +:+ b) with (String c (a +:+ b)). apply Contains_cons. exact IH.
Qed.

Lemma Kuaishou_collectDownloads_words (mediaType : MediaType) (urls : list string) :
  Forall plainWord urls ->
  Kuaishou.collectDownloads mediaType urls
  = map (fun url => DownloadItem.mk url mediaType) urls.
Proof.
  induction urls as [|url rest IH]; intros H; [reflexivity|].
  apply Forall_cons in H as [[Hne _] Hrest]. cbn [Kuaishou.collectDownloads map].
  apply eqb_empty_false in Hne. rewrite Hne. cbn [negb]. rewrite (IH Hrest). reflexivity.
Qed.

Lemma splitDownloadURL_join (urls : list string) :
  Forall plainWord urls -> Kuaishou.splitDownloadURL (joinWith " " urls) = urls.
Proof.
  intros H. unfold Kuaishou.splitDownloadURL.
  destruct urls as [|w [|w2 rest]].
  - reflexivity.
  - apply Forall_cons in H as [[Hne Hw] _]. cbn [joinWith].
    apply eqb_empty_false in Hne. rewrite Hne. cbn [negb].
    rewrite (Contains_space_plain w Hw). reflexivity.
  - pose proof H as Hall. apply Forall_cons in H as [[Hne Hw] _].
    assert (Hnonempty : String.eqb (joinWith " " (w :: w2 :: rest)) "" = false).
    { apply eqb_empty_false. cbn [joinWith]. destruct w; [contradiction | discriminate]. }
    rewrite Hnonempty. cbn [negb].
    assert (Hspace : Contains (joinWith " " (w :: w2 :: rest)) " " = true).
    { cbn [joinWith]. apply Contains_app_r. reflexivity. }
    rewrite Hspace. apply Fields_join. exact Hall.
Qed.

Lemma Xiaohongshu_collectDownloads_filter (mediaType : MediaType) (urls : list string) :
  Xiaohongshu.collectDownloads mediaType urls
  = map (fun url => DownloadItem.mk url mediaType) (filter (fun url => url <> "") urls).
Proof.
  induction urls as [|url rest IH]; cbn [Xiaohongshu.collectDownloads]; [reflexivity|].
  rewrite filter_cons.
  destruct (String.eqb_spec url "") as [->|Hne]; cbn [negb].
  - rewrite decide_False by (intros Hc; apply Hc; reflexivity). exact IH.
  - rewrite decide_True by exact Hne. cbn [map]. f_equal. exact IH.
Qed.

Section NormalizationDetails.
Context {Bytes Result : Type} {reader : gjson.Reader Bytes Result} {rt : time.Runtime}.
Import gjson.

(** The media type of the downloads follows the kind of the media. *)
Definition mediaTypeOf (info : VideoInfo.t) : MediaType :=
  if String.eqb (VideoInfo.Type_ info) VideoTypeImage then MediaTypeImage
  else MediaTypeVideo.

(** X15. Kuaishou downloads: when the upstream [download] string is made
    of non-empty URLs without white space (in the sense of
    [unicode.IsSpace], whatever other bytes they have) that single spaces
    separate, the media has exactly these URLs, in that order; one URL
    gives one entry and the empty string none.  Every entry is an image
    when the media is an image set and a video otherwise. *)
Theorem X15_kuaishou_downloads (data : Bytes) (info : VideoInfo.t) (urls : list string) :
  fst (Kuaishou.parseVideoData data) = Some info ->
  Forall plainWord urls ->
  Str (Get (Get (ParseBytes data) "data") "download") = joinWith " " urls ->
  VideoInfo.Downloads info = map (fun url => DownloadItem.mk url (mediaTypeOf info)) urls.
Proof.
  intros H Hwords Hjoin.
  destruct (Kuaishou_parseVideoData_fields data)
    as [(_ & _ & i & Hi & _ & _ & Hty & _ & Hdl & _)|(_ & e & He)].
  - rewrite Hi in H. cbn [fst] in H. injection H as <-.
    rewrite Hdl, Hjoin, (splitDownloadURL_join urls Hwords).
    unfold mediaTypeOf. rewrite Hty.
    apply Kuaishou_collectDownloads_words. exact Hwords.
  - rewrite He in H. discriminate H.
Qed.

(** X16. Douyin downloads.  For an array the media has one entry per
    element, in the order of the array, and an entry is an image exactly
    when its URL contains [douyinpic.com].  Otherwise the media has at
    most one entry, the link itself, and it is a video whatever the link
    contains. *)
Theorem X16_douyin_downloads (data : Result) (info : VideoInfo.t) :
  fst (Douyin.parseVideoData data) = Some info ->
  let downloads := Get data "downloads" in
  (IsArray downloads = true ->
   map DownloadItem.URL (VideoInfo.Downloads info)
   = map (fun kv => Str (snd kv)) (ForEach downloads) /\
   Forall (fun d => DownloadItem.Type_ d
                    = if Contains (DownloadItem.URL d) "douyinpic.com"
                      then MediaTypeImage else MediaTypeVideo)
          (VideoInfo.Downloads info)) /\
  (IsArray downloads = false ->
   (length (VideoInfo.Downloads info) <= 1)%nat /\
   Forall (fun d => DownloadItem.URL d = Str downloads /\
                    DownloadItem.Type_ d = MediaTypeVideo)
          (VideoInfo.Downloads info)).
Proof.
  intros H downloads.
  destruct (Douyin_parseVideoData_fields data) as (i & Hi & _ & _ & _ & _ & Hdl).
  rewrite Hi in H. cbn [fst] in H. injection H as <-. fold downloads in Hdl.
  rewrite Hdl. split.
  - intros ->. split.
    + rewrite map_map. apply map_ext. intros kv. unfold Douyin.downloadOfElement.
      destruct (Contains (Str (snd kv)) "douyinpic.com"); reflexivity.
    + apply Forall_map. apply Forall_forall. intros kv _.
      unfold Douyin.downloadOfElement.
      destruct (Contains (Str (snd kv)) "douyinpic.com") eqn:E;
        cbn [DownloadItem.URL DownloadItem.Type_]; rewrite E; reflexivity.
  - intros ->.
    destruct (Exists downloads && negb (String.eqb (Str downloads) "")).
    + split; [cbn [length]; lia|]. constructor; [split; reflexivity | constructor].
    + split; [cbn [length]; lia | constructor].
Qed.

(** The cover and the tags of a media of the Xiaohongshu normalization. *)
Lemma Xiaohongshu_cover_tags (data : Bytes) (info : VideoInfo.t) :
  fst (Xiaohongshu.parseVideoData data) = Some info ->
  let videoData := Get (ParseBytes data) "data" in
  let tagsData := Get videoData "作品标签" in
  VideoInfo.CoverURL info
  = match Xiaohongshu.stringsOf (Get videoData "下载地址") with
    | url :: _ => url
    | [] => match Xiaohongshu.stringsOf (Get videoData "动图地址") with
            | url :: _ => url
            | [] => ""
            end
    end /\
  VideoInfo.Tags info
  = (if IsArray tagsData then map (fun kv => Str (snd kv)) (ForEach tagsData)
     else if Exists tagsData then
            if negb (String.eqb (Str tagsData) "") then SplitByte (Str tagsData) ","
            else []
          else []).
Proof.
  intros H videoData tagsData. unfold Xiaohongshu.parseVideoData in H.
  fold videoData in H. fold tagsData in H.
  destruct (negb (Contains _ "成功")); [discriminate H|].
  destruct (negb (Exists videoData)); [discriminate H|].
  cbn [fst] in H. injection H as <-. split; reflexivity.
Qed.

(** X17. Xiaohongshu downloads: the non-empty download addresses, in
    their order and typed by the kind of the media, and after them the
    non-empty GIF addresses, in their order and typed as images.  The
    cover is the first download address, or else the first GIF address,
    whether it is empty or not. *)
Theorem X17_xiaohongshu_downloads (data : Bytes) (info : VideoInfo.t) :
  fst (Xiaohongshu.parseVideoData data) = Some info ->
  let videoData := Get (ParseBytes data) "data" in
  let downloadURLs := Xiaohongshu.stringsOf (Get videoData "下载地址") in
  let gifURLs := Xiaohongshu.stringsOf (Get videoData "动图地址") in
  VideoInfo.Downloads info
  = map (fun url => DownloadItem.mk url (mediaTypeOf info))
        (filter (fun url => url <> "") downloadURLs)
    ++ map (fun url => DownloadItem.mk url MediaTypeImage)
           (filter (fun url => url <> "") gifURLs) /\
  VideoInfo.CoverURL info = default "" (head (downloadURLs ++ gifURLs)).
Proof.
  intros H videoData downloadURLs gifURLs.
  pose proof (Xiaohongshu_cover_tags data info H) as [Hcover _].
  destruct (Xiaohongshu_parseVideoData_fields data)
    as [(_ & _ & i & Hi & _ & _ & Hty & _ & Hdl)|(_ & e & He)].
  - rewrite Hi in H. cbn [fst] in H. injection H as <-. split.
    + rewrite Hdl, !Xiaohongshu_collectDownloads_filter.
      unfold mediaTypeOf. rewrite Hty. reflexivity.
    + rewrite Hcover. fold videoData. fold downloadURLs. fold gifURLs.
      destruct downloadURLs as [|u l]; [|reflexivity].
      destruct gifURLs as [|g l]; reflexivity.
  - rewrite He in H. discriminate H.
Qed.

End NormalizationDetails.

Lemma X15_kuaishou_downloads_witness :
  exists info,
    fst (Samples.kuaishouRun (Samples.kuaishouDoc JsonTree.JNull "a.mp4 あ.mp4" ""))
    = Some info /\
    VideoInfo.Downloads info
    = [DownloadItem.mk "a.mp4" MediaTypeVideo; DownloadItem.mk "あ.mp4" MediaTypeVideo].
Proof.
  eexists. split; [vm_compute; reflexivity|].
  refine (X15_kuaishou_downloads (reader := JsonTree.reader) (rt := Samples.rt0)
            (Samples.kuaishouDoc JsonTree.JNull "a.mp4 あ.mp4" "") _ ["a.mp4"; "あ.mp4"]
            _ _ _).
  - vm_compute. reflexivity.
  - repeat constructor; try discriminate.
  - reflexivity.
Defined.

Lemma X16_douyin_downloads_witness :
  exists info,
    fst (Samples.douyinRun Samples.douyinEmptyLink) = Some info /\
    map DownloadItem.Type_ (VideoInfo.Downloads info) = [MediaTypeImage; MediaTypeVideo] /\
    map DownloadItem.URL (VideoInfo.Downloads info)
    = ["https://p3.douyinpic.com/1.jpeg"; ""].
Proof.
  eexists. split; [vm_compute; reflexivity|]. split; [reflexivity|].
  refine (proj1 (proj1 (X16_douyin_downloads (reader := JsonTree.reader) (rt := Samples.rt0)
                          (Some Samples.douyinEmptyLink) _ _) _)).
  - vm_compute. reflexivity.
  - reflexivity.
Defined.

Lemma X17_xiaohongshu_downloads_witness :
  exists info,
    fst (Samples.xhsRun
           (Samples.xhsDoc "2025-08-01"
              (JsonTree.JArray [JsonTree.JString ""; JsonTree.JString "https://x/1.mp4"])))
    = Some info /\
    VideoInfo.Downloads info = [DownloadItem.mk "https://x/1.mp4" MediaTypeVideo] /\
    VideoInfo.CoverURL info = "".
Proof.
  eexists. split; [vm_compute; reflexivity|].
  destruct (X17_xiaohongshu_downloads (reader := JsonTree.reader) (rt := Samples.rt0)
              (Samples.xhsDoc "2025-08-01"
                 (JsonTree.JArray [JsonTree.JString ""; JsonTree.JString "https://x/1.mp4"]))
              _ eq_refl) as [Hd Hc].
  split; [exact Hd | exact Hc].
Defined.

(** ** Creation time of the two adapters with a fallback *)

Lemma IsZero_zero (t : time.Time) : time.IsZero t = true <-> t = time.zero.
Proof.
  unfold time.IsZero, time.zero. destruct t as [s n]. cbn [time.sec time.nsec]. split.
  - intros H. apply andb_true_iff in H as [Hs Hn].
    apply Z.eqb_eq in Hs, Hn. subst. reflexivity.
  - intros H. injection H as -> ->. reflexivity.
Qed.

Lemma tryFormats_first {rt : time.Runtime} (format : string) (rest : list string)
    (publishTime : string) (t t0 : time.Time) :
  time.Parse format publishTime = Some t ->
  Xiaohongshu.tryFormats (format :: rest) publishTime t0 = t.
Proof. intros H. cbn [Xiaohongshu.tryFormats]. rewrite H. reflexivity. Qed.

Section CreationTime.
Context {Bytes Result : Type} {reader : gjson.Reader Bytes Result} {rt : time.Runtime}.
Import gjson.

(** X18. The creation time of a media of the Xiaohongshu normalization is
    never the zero time when the clock does not read it: a publish time
    that parses to the zero time is replaced by the reading of the clock
    like one that does not parse.  A publish time the first layout parses
    to another time is the creation time. *)
Theorem X18_xiaohongshu_createTime (data : Bytes) (info : VideoInfo.t) :
  fst (Xiaohongshu.parseVideoData data) = Some info ->
  time.IsZero time.Now = false ->
  let publishTime := Str (Get (Get (ParseBytes data) "data") "发布时间") in
  time.IsZero (VideoInfo.CreateTime info) = false /\
  (forall t, publishTime <> "" ->
             time.Parse "2006-01-02 15:04:05" publishTime = Some t ->
             VideoInfo.CreateTime info = (if time.IsZero t then time.Now else t)).
Proof.
  intros H Hnow publishTime.
  destruct (Xiaohongshu_parseVideoData_fields data)
    as [(_ & _ & i & Hi & _ & _ & _ & Hct & _)|(_ & e & He)].
  2:{ rewrite He in H. discriminate H. }
  rewrite Hi in H. cbn [fst] in H. injection H as <-. fold publishTime in Hct.
  rewrite Hct. split.
  - destruct (String.eqb publishTime ""); [exact Hnow|]. cbv zeta.
    destruct (time.IsZero (Xiaohongshu.tryFormats Xiaohongshu.timeFormats publishTime
                             time.zero)) eqn:E; [exact Hnow | exact E].
  - intros t Hne Hp. apply eqb_empty_false in Hne. rewrite Hne. cbv zeta.
    unfold Xiaohongshu.timeFormats. rewrite (tryFormats_first _ _ _ t _ Hp). reflexivity.
Qed.

(** X19. The Kuaishou and the Xiaohongshu normalizations fall back to
    the reading of the clock: with an empty timestamp, and with one that
    no layout of the adapter parses, the creation time is the time of the
    normalization. *)
Theorem X19_createTime_fallback :
  (forall (data : Bytes) (info : VideoInfo.t),
     fst (Kuaishou.parseVideoData data) = Some info ->
     let timestamp := Str (Get (Get (ParseBytes data) "data") "timestamp") in
     timestamp = "" \/ time.Parse "2006-01-02_15:04:05" timestamp = None ->
     VideoInfo.CreateTime info = time.Now) /\
  (forall (data : Bytes) (info : VideoInfo.t),
     fst (Xiaohongshu.parseVideoData data) = Some info ->
     let publishTime := Str (Get (Get (ParseBytes data) "data") "发布时间") in
     publishTime = "" \/
     (time.Parse "2006-01-02 15:04:05" publishTime = None /\
      time.Parse "2006-01-02T15:04:05Z" publishTime = None /\
      time.Parse "2006-01-02" publishTime = None) ->
     VideoInfo.CreateTime info = time.Now).
Proof.
  split.
  - intros data info H. apply (Kuaishou_createTime_fallback data info H).
  - intros data info H publishTime Hts.
    apply (Xiaohongshu_createTime_fallback data info H).
    destruct Hts as [He|(H1 & H2 & H3)]; [left; exact He|]. right.
    intros format [<-|[<-|[<-|[]]]]; assumption.
Qed.

End CreationTime.

Lemma X18_xiaohongshu_createTime_witness :
  exists info,
    fst (Samples.xhsRun (Samples.xhsDoc "0001-01-01" JsonTree.JNull)) = Some info /\
    RefTime.Parse "2006-01-02" "0001-01-01" = Some time.zero /\
    time.IsZero (VideoInfo.CreateTime info) = false.
Proof.
  eexists. split; [vm_compute; reflexivity|]. split; [vm_compute; reflexivity|].
  refine (proj1 (X18_xiaohongshu_createTime (reader := JsonTree.reader) (rt := Samples.rt0)
                   (Samples.xhsDoc "0001-01-01" JsonTree.JNull) _ _ _)).
  - vm_compute. reflexivity.
  - reflexivity.
Defined.

Lemma X19_createTime_fallback_witness :
  (exists info,
     fst (Samples.kuaishouRun (Samples.kuaishouDoc JsonTree.JNull "" "yesterday"))
     = Some info /\ VideoInfo.CreateTime info = Samples.now0) /\
  (exists info,
     fst (Samples.xhsRun (Samples.xhsDoc "yesterday" JsonTree.JNull)) = Some info /\
     VideoInfo.CreateTime info = Samples.now0).
Proof.
  destruct (X19_createTime_fallback (reader := JsonTree.reader) (rt := Samples.rt0))
    as [HK HX].
  split; eexists; (split; [vm_compute; reflexivity|]).
  - refine (HK (Samples.kuaishouDoc JsonTree.JNull "" "yesterday") _ _ _);
      [vm_compute; reflexivity | right; vm_compute; reflexivity].
  - refine (HX (Samples.xhsDoc "yesterday" JsonTree.JNull) _ _ _);
      [vm_compute; reflexivity | right; repeat split; vm_compute; reflexivity].
Defined.

(** ** Tags of the Xiaohongshu adapter *)

Lemma string_app_assoc (a b c : string) : (a +:+ b) +:+ c = a +:+ (b +:+ c).
Proof.
  induction a as [|x a IH]; [reflexivity|].
  change ((String x a +:+ b) +:+ c) with (String x ((a +:+ b) +:+ c)).
  rewrite IH. reflexivity.
Qed.

Lemma rev_app_append (a b : string) : String.rev_app a b = String.rev_app a "" +:+ b.
Proof.
  revert b. induction a as [|c a IH]; intros b; cbn [String.rev_app]; [reflexivity|].
  rewrite (IH (String c b)), (IH (String c "")).
  rewrite string_app_assoc. reflexivity.
Qed.

Lemma split_go_cons (sep : ascii) (s cur : string) :
  exists t rest, split_go sep cur s = t :: rest.
Proof.
  revert cur. induction s as [|c s IH]; intros cur; cbn [split_go].
  - eexists. eexists. reflexivity.
  - destruct (Ascii.eqb c sep); [eexists; eexists; reflexivity | apply IH].
Qed.

Lemma join_split_go (sep : ascii) (s : string) :
  forall cur,
    joinWith (String sep "") (split_go sep cur s) = String.rev cur +:+ s.
Proof.
  induction s as [|c s IH]; intros cur; cbn [split_go].
  - cbn [joinWith]. rewrite app_nil_right. reflexivity.
  - destruct (Ascii.eqb_spec c sep) as [->|Hne].
    + destruct (split_go_cons sep s "") as (t & rest & E).
      cbn [joinWith]. rewrite E. rewrite <- E. rewrite (IH ""). reflexivity.
    + rewrite (IH (String c cur)). unfold String.rev. cbn [String.rev_app].
      rewrite (rev_app_append cur (String c "")).
      rewrite string_app_assoc. reflexivity.
Qed.

Lemma length_split_go (sep : ascii) (s : string) :
  forall cur, length (split_go sep cur s) = S (countByte sep s).
Proof.
  induction s as [|c s IH]; intros cur; cbn [split_go countByte]; [reflexivity|].
  destruct (Ascii.eqb c sep); cbn [length]; rewrite IH; reflexivity.
Qed.

Section Tags.
Context {Bytes Result : Type} {reader : gjson.Reader Bytes Result} {rt : time.Runtime}.
Import gjson.

(** X20. Tags of the Xiaohongshu adapter from a tag string: a non-empty
    string gives one tag more than it has commas, and the tags joined by
    commas are the string again (empty tags between two commas are
    kept); the empty string gives no tag. *)
Theorem X20_xiaohongshu_tags (data : Bytes) (info : VideoInfo.t) :
  fst (Xiaohongshu.parseVideoData data) = Some info ->
  let tagsData := Get (Get (ParseBytes data) "data") "作品标签" in
  IsArray tagsData = false ->
  Exists tagsData = true ->
  (Str tagsData <> "" ->
   joinWith "," (VideoInfo.Tags info) = Str tagsData /\
   length (VideoInfo.Tags info) = S (countByte "," (Str tagsData))) /\
  (Str tagsData = "" -> VideoInfo.Tags info = []).
Proof.
  intros H tagsData Harr Hex.
  pose proof (Xiaohongshu_cover_tags data info H) as [_ Htags].
  fold tagsData in Htags. rewrite Harr, Hex in Htags. rewrite Htags. split.
  - intros Hne. apply eqb_empty_false in Hne. rewrite Hne. cbn [negb].
    unfold SplitByte. split.
    + rewrite (join_split_go "," (Str tagsData) ""). reflexivity.
    + apply length_split_go.
  - intros ->. reflexivity.
Qed.

End Tags.

Lemma X20_xiaohongshu_tags_witness :
  exists info,
    fst (Samples.xhsRun
           (JsonTree.JObject
              [("message", JsonTree.JString "成功");
               ("data", JsonTree.JObject [("作品标签", JsonTree.JString "a,,b")])]))
    = Some info /\
    VideoInfo.Tags info = ["a"; ""; "b"] /\
    joinWith "," (VideoInfo.Tags info) = "a,,b".
Proof.
  eexists. split; [vm_compute; reflexivity|]. split; [reflexivity|].
  refine (proj1 (proj1 (X20_xiaohongshu_tags (reader := JsonTree.reader) (rt := Samples.rt0)
                          (JsonTree.JObject
                             [("message", JsonTree.JString "成功");
                              ("data", JsonTree.JObject
                                         [("作品标签", JsonTree.JString "a,,b")])])
                          _ _ eq_refl eq_refl) _)).
  - vm_compute. reflexivity.
  - discriminate.
Defined.

(** ** The Kuaishou play count of a digit string *)

Lemma parse_digits_decimal (s : string) :
  forall acc, allDigits s = true -> Strconv.parse_digits acc s = Some (decimal_go acc s).
Proof.
  induction s as [|c s IH]; intros acc H; [reflexivity|].
  cbn [allDigits] in H. apply andb_true_iff in H as [Hc Hs].
  cbn [Strconv.parse_digits decimal_go]. rewrite Hc. apply IH. exact Hs.
Qed.

Lemma Contains_unit_digits (s : string) : allDigits s = true -> Contains s "万" = false.
Proof.
  induction s as [|c s IH]; [reflexivity|]. intros H.
  cbn [allDigits] in H. apply andb_true_iff in H as [Hc Hs].
  cbn [Contains]. rewrite (IH Hs), orb_false_r. cbn [HasPrefix].
  match goal with
  | |- (if Ascii.eqb ?a c then _ else _) = false =>
      destruct (Ascii.eqb_spec a c) as [<-|Hne]; [discriminate Hc | reflexivity]
  end.
Qed.

Lemma ParseInt_digits (s : string) :
  s <> "" -> allDigits s = true ->
  Strconv.ParseInt s = if decimal s <? 2 ^ 63 then Some (decimal s) else None.
Proof.
  intros Hne H. unfold Strconv.ParseInt, decimal. destruct s as [|c s]; [contradiction|].
  pose proof H as Hall. cbn [allDigits] in H. apply andb_true_iff in H as [Hc _].
  assert (Hplus : Ascii.eqb c "+" = false).
  { destruct (Ascii.eqb_spec c "+") as [->|]; [discriminate Hc | reflexivity]. }
  assert (Hminus : Ascii.eqb c "-" = false).
  { destruct (Ascii.eqb_spec c "-") as [->|]; [discriminate Hc | reflexivity]. }
  rewrite Hplus, Hminus. cbn [orb].
  rewrite (parse_digits_decimal (String c s) 0 Hall). reflexivity.
Qed.

Section DigitCount.
Context {Bytes Result : Type} {reader : gjson.Reader Bytes Result} {rt : time.Runtime}.
Import gjson.

(** X21. The Kuaishou play count of a view count that is a string of
    decimal digits: the number the digits denote when it is below 2^63,
    and 0 when it is not (an out-of-range count is dropped, not
    saturated). *)
Theorem X21_kuaishou_digit_count (data : Bytes) (info : VideoInfo.t) :
  fst (Kuaishou.parseVideoData data) = Some info ->
  let viewCount := Get (Get (ParseBytes data) "data") "viewCount" in
  Exists viewCount = true ->
  TypeOf viewCount <> TNumber ->
  Str viewCount <> "" ->
  allDigits (Str viewCount) = true ->
  VideoStats.PlayCount (VideoInfo.Stats info)
  = (if decimal (Str viewCount) <? 2 ^ 63 then decimal (Str viewCount) else 0).
Proof.
  intros H viewCount Hex Hty Hne Hd.
  destruct (Kuaishou_parseVideoData_fields data)
    as [(_ & _ & i & Hi & _ & _ & _ & _ & _ & Hpc)|(_ & e & He)].
  2:{ rewrite He in H. discriminate H. }
  rewrite Hi in H. cbn [fst] in H. injection H as <-. fold viewCount in Hpc.
  rewrite Hpc. unfold Kuaishou.playCountOf. rewrite Hex.
  assert (Hnum : Type_eqb (TypeOf viewCount) TNumber = false).
  { destruct (Type_eqb (TypeOf viewCount) TNumber) eqn:E; [|reflexivity].
    apply Type_eqb_eq in E. contradiction. }
  rewrite Hnum. unfold Kuaishou.playCountOfString.
  rewrite (Contains_unit_digits _ Hd), (ParseInt_digits _ Hne Hd).
  destruct (decimal (Str viewCount) <? 2 ^ 63); reflexivity.
Qed.

End DigitCount.

Lemma X21_kuaishou_digit_count_witness :
  (exists info,
     fst (Samples.kuaishouRun
            (Samples.kuaishouDoc (JsonTree.JString "9223372036854775807") "" ""))
     = Some info /\
     VideoStats.PlayCount (VideoInfo.Stats info) = 9223372036854775807) /\
  (exists info,
     fst (Samples.kuaishouRun
            (Samples.kuaishouDoc (JsonTree.JString "9223372036854775808") "" ""))
     = Some info /\
     VideoStats.PlayCount (VideoInfo.Stats info) = 0).
Proof.
  split; eexists; (split; [vm_compute; reflexivity|]).
  - refine (X21_kuaishou_digit_count (reader := JsonTree.reader) (rt := Samples.rt0)
              (Samples.kuaishouDoc (JsonTree.JString "9223372036854775807") "" "")
              _ _ eq_refl _ _ eq_refl);
      [vm_compute; reflexivity | discriminate | discriminate].
  - refine (X21_kuaishou_digit_count (reader := JsonTree.reader) (rt := Samples.rt0)
              (Samples.kuaishouDoc (JsonTree.JString "9223372036854775808") "" "")
              _ _ eq_refl _ _ eq_refl);
      [vm_compute; reflexivity | discriminate | discriminate].
Defined.

(** ** When an adapter returns a media *)

Section Success.
Context {Bytes Result : Type} {reader : gjson.Reader Bytes Result} {rt : time.Runtime}.
Variable client : resty.Client Bytes.
Variable baseURL : string.
Import gjson.

(** The upstream answered with status 200, a message with the success
    marker and a [data] field. *)
Definition goodAnswer (answer : resty.Response Bytes + error) : Prop :=
  exists resp,
    answer = inl resp /\ resty.StatusCode resp = 200 /\
    Contains (Str (Get (ParseBytes (resty.ResponseBody resp)) "message")) "成功" = true /\
    Exists (Get (ParseBytes (resty.ResponseBody resp)) "data") = true.

Lemma validated_target (req : ParseRequest.t) :
  ParseRequest.VideoID req <> "" \/ ParseRequest.URL req <> "" -> targetOf req <> "".
Proof.
  unfold targetOf. intros H.
  destruct (String.eqb_spec (ParseRequest.URL req) "") as [Hu|Hu]; [|exact Hu].
  destruct H as [H|H]; [exact H | contradiction].
Qed.

(** X22. [ParseVideo] of the Kuaishou adapter and of the Xiaohongshu
    adapter returns a media exactly when the request passes the
    validation and the upstream answers the detail request with status
    200, a message that contains the success marker and a [data] field;
    the media is then the one of the normalization of the answer. *)
Theorem X22_direct_adapter_success (ctx : context.Context) (req : ParseRequest.t) :
  ((exists info, Kuaishou.ParseVideo client baseURL ctx req = (Some info, None)) <->
   Kuaishou.ValidateRequest req = None /\
   goodAnswer (client (Kuaishou.detailRequest baseURL ctx (targetOf req) req))) /\
  ((exists info, Xiaohongshu.ParseVideo client baseURL ctx req = (Some info, None)) <->
   Xiaohongshu.ValidateRequest req = None /\
   goodAnswer (client (Xiaohongshu.detailRequest baseURL ctx (targetOf req) req))) /\
  (forall resp,
     Kuaishou.ValidateRequest req = None ->
     client (Kuaishou.detailRequest baseURL ctx (targetOf req) req) = inl resp ->
     resty.StatusCode resp = 200 ->
     fst (Kuaishou.ParseVideo client baseURL ctx req)
     = fst (Kuaishou.parseVideoData (resty.ResponseBody resp))).
Proof.
  assert (HK : forall targetURL,
    let r := match client (Kuaishou.detailRequest baseURL ctx targetURL req) with
             | inr err => (None, Some ("请求快手API失败: " +:+ err))
             | inl resp =>
                 if negb (resty.StatusCode resp =? 200) then
                   (None, Some ("快手API请求失败，状态码: " +:+ fmt_d (resty.StatusCode resp)))
                 else
                   match Kuaishou.parseVideoData (resty.ResponseBody resp) with
                   | (_, Some err) => (None, Some ("解析响应失败: " +:+ err))
                   | (videoInfo, None) => (videoInfo, None)
                   end
             end in
    ((exists info, r = (Some info, None)) <->
     goodAnswer (client (Kuaishou.detailRequest baseURL ctx targetURL req))) /\
    (forall resp, client (Kuaishou.detailRequest baseURL ctx targetURL req) = inl resp ->
                  resty.StatusCode resp = 200 ->
                  fst r = fst (Kuaishou.parseVideoData (resty.ResponseBody resp)))).
  { intros targetURL. cbv zeta. unfold goodAnswer.
    destruct (client _) as [resp|err].
    2:{ split; [|intros resp Hc; discriminate Hc].
        split; [intros [i Hi]; discriminate Hi | intros (resp & Hc & _); discriminate Hc]. }
    destruct (Z.eqb_spec (resty.StatusCode resp) 200) as [Hst|Hst]; cbn [negb].
    2:{ split; [|intros resp' Hc Hs; injection Hc as <-; contradiction].
        split; [intros [i Hi]; discriminate Hi|].
        intros (resp' & Hc & Hs & _). injection Hc as <-. contradiction. }
    destruct (Kuaishou_parseVideoData_fields (resty.ResponseBody resp))
      as [(Hm & Hd & i & Hi & _)|(Hcase & e & He)].
    - rewrite Hi. split; [|intros resp' Hc _; injection Hc as <-; rewrite Hi; reflexivity].
      split; [|intros _; exists i; reflexivity].
      intros _. exists resp. repeat split; assumption.
    - rewrite He. split; [|intros resp' Hc _; injection Hc as <-; rewrite He; reflexivity].
      split; [intros [i Hi]; discriminate Hi|].
      intros (resp' & Hc & _ & Hm & Hd). injection Hc as <-.
      destruct Hcase as [Hc|Hc]; congruence. }
  split; [|split].
  - unfold Kuaishou.ParseVideo.
    destruct (Kuaishou.ValidateRequest req) as [verr|] eqn:Hv.
    { split; [intros [i Hi]; discriminate Hi | intros [Hc _]; discriminate Hc]. }
    apply (proj1 (Kuaishou_validate_shape req)) in Hv as [Hid _].
    pose proof (validated_target req Hid) as Ht. unfold targetOf in Ht |- *.
    destruct (String.eqb (ParseRequest.URL req) "") eqn:Hu; cbn [negb].
    + apply eqb_empty_false in Ht. rewrite Ht. cbn [negb].
      destruct (HK (ParseRequest.VideoID req)) as [Hiff _]. cbv zeta in Hiff.
      rewrite Hiff. split; [intros Hg; split; [reflexivity | exact Hg] | intros [_ Hg]; exact Hg].
    + destruct (HK (ParseRequest.URL req)) as [Hiff _]. cbv zeta in Hiff.
      rewrite Hiff. split; [intros Hg; split; [reflexivity | exact Hg] | intros [_ Hg]; exact Hg].
  - unfold Xiaohongshu.ParseVideo, goodAnswer.
    destruct (Xiaohongshu.ValidateRequest req) as [verr|] eqn:Hv.
    { split; [intros [i Hi]; discriminate Hi | intros [Hc _]; discriminate Hc]. }
    apply (proj1 (Xiaohongshu_validate_shape req)) in Hv as [Hid _].
    pose proof (validated_target req Hid) as Ht. unfold targetOf in Ht |- *.
    apply eqb_empty_false in Ht. rewrite Ht.
    destruct (client _) as [resp|err].
    2:{ split; [intros [i Hi]; discriminate Hi | intros (_ & resp & Hc & _); discriminate Hc]. }
    destruct (Z.eqb_spec (resty.StatusCode resp) 200) as [Hst|Hst]; cbn [negb].
    2:{ split; [intros [i Hi]; discriminate Hi|].
        intros (_ & resp' & Hc & Hs & _). injection Hc as <-. contradiction. }
    destruct (Xiaohongshu_parseVideoData_fields (resty.ResponseBody resp))
      as [(Hm & Hd & i & Hi & _)|(Hcase & e & He)].
    + rewrite Hi. split; [|intros _; exists i; reflexivity].
      intros _. split; [reflexivity|]. exists resp. repeat split; assumption.
    + rewrite He. split; [intros [i Hi]; discriminate Hi|].
      intros (_ & resp' & Hc & _ & Hm & Hd). injection Hc as <-.
      destruct Hcase as [Hc|Hc]; congruence.
  - intros resp Hv Hc Hs. unfold Kuaishou.ParseVideo. rewrite Hv.
    pose proof Hv as Hv'.
    apply (proj1 (Kuaishou_validate_shape req)) in Hv' as [Hid _].
    pose proof (validated_target req Hid) as Ht. unfold targetOf in Ht, Hc |- *.
    destruct (String.eqb (ParseRequest.URL req) "") eqn:Hu; cbn [negb].
    + apply eqb_empty_false in Ht. rewrite Ht. cbn [negb].
      destruct (HK (ParseRequest.VideoID req)) as [_ Hfst]. exact (Hfst resp Hc Hs).
    + destruct (HK (ParseRequest.URL req)) as [_ Hfst]. exact (Hfst resp Hc Hs).
Qed.

(** X23. [ParseVideo] of the Douyin adapter.  With neither URL nor video
    id it returns an error and takes no step.  When it returns a media,
    its last step is a detail request that the upstream answered with
    status 200 and a [data] field, and the media is the normalization of
    that field. *)
Theorem X23_douyin_success (ctx : context.Context) (req : ParseRequest.t) :
  (ParseRequest.URL req = "" -> ParseRequest.VideoID req = "" ->
   Douyin.ParseVideo_steps client baseURL ctx req
   = ((None, Some "必须提供URL或VideoID"), [])) /\
  (forall info, fst (Douyin.ParseVideo client baseURL ctx req) = Some info ->
     exists videoID before resp,
       snd (Douyin.ParseVideo_steps client baseURL ctx req)
       = before ++ [Douyin.StepPost (Douyin.detailRequest baseURL ctx videoID req)] /\
       client (Douyin.detailRequest baseURL ctx videoID req) = inl resp /\
       resty.StatusCode resp = 200 /\
       Exists (Get (ParseBytes (resty.ResponseBody resp)) "data") = true /\
       Douyin.parseVideoData (Get (ParseBytes (resty.ResponseBody resp)) "data")
       = (Some info, None)).
Proof.
  split.
  - intros Hu Hv. unfold Douyin.ParseVideo_steps. rewrite Hu, Hv. reflexivity.
  - intros info.
    assert (Hfetch : forall videoID before,
      fst (Douyin.fetchDetail client baseURL ctx videoID req) = Some info ->
      exists videoID' before' resp,
        before ++ [Douyin.StepPost (Douyin.detailRequest baseURL ctx videoID req)]
        = before' ++ [Douyin.StepPost (Douyin.detailRequest baseURL ctx videoID' req)] /\
        client (Douyin.detailRequest baseURL ctx videoID' req) = inl resp /\
        resty.StatusCode resp = 200 /\
        Exists (Get (ParseBytes (resty.ResponseBody resp)) "data") = true /\
        Douyin.parseVideoData (Get (ParseBytes (resty.ResponseBody resp)) "data")
        = (Some info, None)).
    { intros videoID before. unfold Douyin.fetchDetail.
      destruct (client (Douyin.detailRequest baseURL ctx videoID req)) as [resp|err] eqn:Hc;
        [|discriminate].
      destruct (Z.eqb_spec (resty.StatusCode resp) 200) as [Hst|Hst]; cbn [negb];
        [|discriminate].
      destruct (Exists (Get (ParseBytes (resty.ResponseBody resp)) "data")) eqn:Hd;
        cbn [negb]; [|discriminate].
      intros H. exists videoID, before, resp. repeat split; try assumption.
      destruct (Douyin_parseVideoData_fields
                  (Get (ParseBytes (resty.ResponseBody resp)) "data")) as (i & Hi & _).
      rewrite Hi in H |- *. cbn [fst] in H. rewrite H. reflexivity. }
    unfold Douyin.ParseVideo, Douyin.ParseVideo_steps.
    destruct (negb (String.eqb (ParseRequest.URL req) "")).
    + destruct (Contains _ _).
      * destruct (Douyin.resolveShortURL _ _ _ _) as [fullURL [e|]]; [discriminate|].
        destruct (Douyin.ExtractVideoID fullURL) as [videoID [e|]]; [discriminate|].
        cbn [fst snd]. apply Hfetch.
      * destruct (Douyin.ExtractVideoID _) as [videoID [e|]]; [discriminate|].
        cbn [fst snd]. apply Hfetch.
    + destruct (negb (String.eqb (ParseRequest.VideoID req) "")); [|discriminate].
      cbn [fst snd]. apply Hfetch.
Qed.

End Success.

(** ** The requests of the Douyin adapter *)

Section DouyinRequests.
Context {Bytes Result : Type} {reader : gjson.Reader Bytes Result} {rt : time.Runtime}.
Variable client : resty.Client Bytes.
Variable baseURL : string.

(** The requests among the steps, in order. *)
Definition postsOf (steps : list Douyin.Step) : list resty.Request :=
  omap (fun st => match st with
                  | Douyin.StepPost r => Some r
                  | Douyin.StepExtract _ => None
                  end) steps.

Lemma postsOf_app (a b : list Douyin.Step) : postsOf (a ++ b) = postsOf a ++ postsOf b.
Proof. unfold postsOf. apply omap_app. Qed.

(** X24. The requests of [ParseVideo] of the Douyin adapter.  It posts
    at most two: for a URL that contains [v.douyin.com] the share request
    for that URL first, and in every case at most one detail request,
    last.  The share request never carries the context of the caller (its
    deadline does not bound the resolution) and is the same under every
    context; the detail request carries the context.  When no detail
    request is made, the adapter returns an error. *)
Theorem X24_douyin_requests (ctx : context.Context) (req : ParseRequest.t) :
  let run := Douyin.ParseVideo_steps client baseURL ctx req in
  let share :=
    Douyin.shareRequest baseURL (ParseRequest.URL req) (ParseRequest.Proxy req) in
  let short :=
    negb (String.eqb (ParseRequest.URL req) "")
    && Contains (ParseRequest.URL req) "v.douyin.com" in
  (exists detail,
     postsOf (snd run) = (if short then [share] else []) ++ detail /\
     (detail = [] \/
      exists videoID, detail = [Douyin.detailRequest baseURL ctx videoID req]) /\
     (detail = [] -> exists err, fst run = (None, Some err))) /\
  resty.Context share = None /\
  (forall videoID,
     resty.Context (Douyin.detailRequest baseURL ctx videoID req) = Some ctx) /\
  (forall ctx',
     short = true ->
     head (postsOf (snd (Douyin.ParseVideo_steps client baseURL ctx' req))) = Some share).
Proof.
  cbv zeta.
  assert (Hmain : forall c, exists detail,
     postsOf (snd (Douyin.ParseVideo_steps client baseURL c req))
     = (if negb (String.eqb (ParseRequest.URL req) "")
           && Contains (ParseRequest.URL req) "v.douyin.com"
        then [Douyin.shareRequest baseURL (ParseRequest.URL req) (ParseRequest.Proxy req)]
        else []) ++ detail /\
     (detail = [] \/
      exists videoID, detail = [Douyin.detailRequest baseURL c videoID req]) /\
     (detail = [] ->
      exists err, fst (Douyin.ParseVideo_steps client baseURL c req) = (None, Some err))).
  { intros c. unfold Douyin.ParseVideo_steps.
    destruct (negb (String.eqb (ParseRequest.URL req) "")); cbn [andb].
    - destruct (Contains (ParseRequest.URL req) "v.douyin.com").
      + destruct (Douyin.resolveShortURL _ _ _ _) as [fullURL [e|]].
        * exists []. cbn [fst snd]. split; [reflexivity|]. split; [left; reflexivity|].
          intros _. eexists. reflexivity.
        * destruct (Douyin.ExtractVideoID fullURL) as [videoID [e|]].
          -- exists []. cbn [fst snd]. split; [reflexivity|]. split; [left; reflexivity|].
             intros _. eexists. reflexivity.
          -- exists [Douyin.detailRequest baseURL c videoID req]. cbn [fst snd].
             split; [reflexivity|]. split; [right; eexists; reflexivity|].
             intros Hc. discriminate Hc.
      + destruct (Douyin.ExtractVideoID _) as [videoID [e|]].
        * exists []. cbn [fst snd]. split; [reflexivity|]. split; [left; reflexivity|].
          intros _. eexists. reflexivity.
        * exists [Douyin.detailRequest baseURL c videoID req]. cbn [fst snd].
          split; [reflexivity|]. split; [right; eexists; reflexivity|].
          intros Hc. discriminate Hc.
    - destruct (negb (String.eqb (ParseRequest.VideoID req) "")).
      + exists [Douyin.detailRequest baseURL c (ParseRequest.VideoID req) req].
        cbn [fst snd]. split; [reflexivity|]. split; [right; eexists; reflexivity|].
        intros Hc. discriminate Hc.
      + exists []. cbn [fst snd]. split; [reflexivity|]. split; [left; reflexivity|].
        intros _. eexists. reflexivity. }
  split; [apply Hmain|]. split; [reflexivity|]. split; [reflexivity|].
  intros ctx' Hshort. destruct (Hmain ctx') as (detail & Hposts & _).
  rewrite Hposts, Hshort. reflexivity.
Qed.

End DouyinRequests.

(** ** The adapters of the repository behind the orchestrator *)

Section Shipped.
Context {Bytes Result : Type} {reader : gjson.Reader Bytes Result} {rt : time.Runtime}.

(** An adapter made by one of the three constructors of package
    [parsers]. *)
Definition shipped (p : Parser.t) : Prop :=
  exists (client : resty.Client Bytes) (baseURL : string),
    p = Douyin.NewDouyinParser client baseURL \/
    p = Kuaishou.NewKuaishouParser client baseURL \/
    p = Xiaohongshu.NewXiaohongshuParser client baseURL.

Definition shippedOp (op : Op) : Prop :=
  match op with
  | OpRegister (Some p) => shipped p
  | _ => True
  end.

Definition shippedRegistry (s : VideoSDK.t) : Prop :=
  map_Forall (fun k p => k = Parser.GetPlatform p /\ shipped p) (VideoSDK.parsers s).

Lemma shippedRegistry_apply_op (s : VideoSDK.t) (op : Op) :
  shippedOp op -> shippedRegistry s -> shippedRegistry (apply_op s op).
Proof.
  unfold shippedRegistry. intros Hop H.
  destruct op as [[p|]|d|ua]; cbn [apply_op]; try exact H.
  unfold VideoSDK.RegisterParser.
  destruct (String.eqb (Parser.GetPlatform p) ""); cbn [fst]; [exact H|].
  cbn [VideoSDK.parsers]. apply map_Forall_insert_2; [|exact H].
  split; [reflexivity | exact Hop].
Qed.

Lemma shippedRegistry_fold (ops : list Op) :
  Forall shippedOp ops ->
  forall s, shippedRegistry s -> shippedRegistry (fold_left apply_op ops s).
Proof.
  induction 1 as [|op ops Hop _ IH]; intros s H; cbn [fold_left]; [exact H|].
  apply IH. apply shippedRegistry_apply_op; assumption.
Qed.

Lemma shipped_validate (p : Parser.t) (req : ParseRequest.t) :
  shipped p -> ParseRequest.Platform req = Parser.GetPlatform p ->
  (Parser.ValidateRequest p req = None <->
   (ParseRequest.VideoID req <> "" \/ ParseRequest.URL req <> "")) /\
  (forall err, Parser.ValidateRequest p req = Some err ->
               err = "video_id 或 url 至少需要提供一个").
Proof.
  intros (client & baseURL & [->|[->| ->]]) Hk; cbn in Hk |- *;
    unfold Douyin.ValidateRequest, Kuaishou.ValidateRequest, Xiaohongshu.ValidateRequest;
    rewrite Hk;
    destruct (String.eqb_spec (ParseRequest.VideoID req) "") as [Hv|Hv];
    destruct (String.eqb_spec (ParseRequest.URL req) "") as [Hu|Hu];
    cbn [andb negb String.eqb Ascii.eqb Bool.eqb];
    (split; [split; [try discriminate; intros _; tauto
                    | try reflexivity; intros [Hc|Hc]; contradiction]
            | intros err He; try discriminate He; injection He as <-; reflexivity]).
Qed.

Lemma shipped_contract (p : Parser.t) (ctx : context.Context) (req : ParseRequest.t) :
  shipped p -> Parser.ParseVideo p ctx req <> (None, None).
Proof.
  intros (client & baseURL & [->|[->| ->]]); cbn [Parser.ParseVideo Douyin.NewDouyinParser
    Kuaishou.NewKuaishouParser Xiaohongshu.NewXiaohongshuParser].
  - apply Douyin_ParseVideo_contract.
  - apply Kuaishou_ParseVideo_contract.
  - apply Xiaohongshu_ParseVideo_contract.
Qed.

(** X25. An SDK on which only adapters of the three constructors were
    registered: [ParseVideo] never panics; the adapter it finds always
    accepts the platform of the request, so the only validation failure
    is a request with neither video id nor URL; and on success the media
    carries the platform key of the request. *)
Theorem X25_shipped_adapters (ops : list Op) (start : time.Time)
    (ctx : context.Context) (req : option ParseRequest.t) :
  Forall shippedOp ops ->
  let s := run_ops ops in
  (exists resp err, fst (VideoSDK.ParseVideo s start ctx req) = Return resp err /\
     (err = None ->
      exists r info, req = Some r /\ ParseResponse.Success resp = true /\
        ParseResponse.Data resp = Some info /\
        VideoInfo.Platform info = ParseRequest.Platform r)) /\
  (forall r p, req = Some r -> VideoSDK.lookup s (ParseRequest.Platform r) = Some p ->
     (Parser.ValidateRequest p r = None <->
      (ParseRequest.VideoID r <> "" \/ ParseRequest.URL r <> "")) /\
     (forall err, Parser.ValidateRequest p r = Some err ->
        fst (VideoSDK.ParseVideo s start ctx req)
        = Return (VideoSDK.failure start
                    "request validation failed: video_id 或 url 至少需要提供一个")
                 (Some "request validation failed: video_id 或 url 至少需要提供一个"))).
Proof.
  intros Hops s.
  assert (H : shippedRegistry s).
  { apply shippedRegistry_fold; [exact Hops|].
    unfold shippedRegistry, NewSDK. cbn [VideoSDK.parsers]. apply map_Forall_empty. }
  split.
  - unfold VideoSDK.ParseVideo. destruct req as [r|]; [|do 2 eexists; split;
      [reflexivity | discriminate]].
    destruct (String.eqb (ParseRequest.Platform r) "");
      [do 2 eexists; split; [reflexivity | discriminate]|].
    destruct (VideoSDK.lookup s (ParseRequest.Platform r)) as [p|] eqn:Hp;
      [|do 2 eexists; split; [reflexivity | discriminate]].
    destruct (Parser.ValidateRequest p r);
      [do 2 eexists; split; [reflexivity | discriminate]|].
    destruct (H _ _ Hp) as [_ Hs].
    pose proof (shipped_contract p (context.WithTimeout ctx (VideoSDK.timeout s)) r Hs) as Hc.
    destruct (Parser.ParseVideo p _ r) as [[info|] [e|]];
      try (do 2 eexists; split; [reflexivity | discriminate]).
    + do 2 eexists. split; [reflexivity|]. intros _.
      exists r, (VideoInfo.set_Platform info (ParseRequest.Platform r)).
      repeat split; reflexivity.
    + exfalso. apply Hc. reflexivity.
  - intros r p -> Hp. destruct (H _ _ Hp) as [Hk Hs].
    destruct (shipped_validate p r Hs Hk) as [Hiff Herr].
    split; [exact Hiff|]. intros err He. rewrite (Herr err He) in He.
    unfold VideoSDK.ParseVideo.
    destruct (String.eqb_spec (ParseRequest.Platform r) "") as [He0|_].
    + exfalso. destruct Hs as (client & baseURL & [->|[->| ->]]);
        rewrite He0 in Hk; cbn in Hk; discriminate Hk.
    + rewrite Hp, He. reflexivity.
Qed.

End Shipped.

Lemma X25_shipped_adapters_witness :
  exists resp,
    fst (VideoSDK.ParseVideo
           (run_ops [OpSetTimeout (5 * time.Second); OpRegister (Some Samples.douyinParser);
                     OpRegister None])
           Samples.now0 context.Background
           (Some (Samples.douyinRequest "" "7535398881601817894")))
    = Return resp None /\
    VideoInfo.Platform <$> ParseResponse.Data resp = Some PlatformDouyin.
Proof.
  assert (Hops : Forall (shippedOp (reader := JsonTree.reader) (rt := Samples.rt0))
                   [OpSetTimeout (5 * time.Second); OpRegister (Some Samples.douyinParser);
                    OpRegister None]).
  { repeat constructor. cbn. eexists _, _. left. reflexivity. }
  destruct (X25_shipped_adapters
              [OpSetTimeout (5 * time.Second); OpRegister (Some Samples.douyinParser);
               OpRegister None]
              Samples.now0 context.Background
              (Some (Samples.douyinRequest "" "7535398881601817894")) Hops)
    as [(resp & err & Hrun & Hok) _].
  exists resp. 
  assert (Herr : err = None).
  { vm_compute in Hrun. injection Hrun as _ <-. reflexivity. }
  subst err. split; [exact Hrun|].
  destruct (Hok eq_refl) as (r & info & Hr & _ & Hd & Hp).
  injection Hr as <-. rewrite Hd. cbn. rewrite Hp. reflexivity.
Defined.
